(** * ConsultEase faculty desk unit: connectivity and presence core

    A shallow embedding of the firmware's connectivity manager
    ([network_manager.h], [network_manager.cpp]) and of the offline queue,
    presence detector and adaptive scanner of [faculty_desk_unit.ino],
    with its button handler and its polling of the scanner, followed by
    the properties of the specification that were checked against them
    and by further properties of the same code.

    Conventions.  The target is the ESP32: [int] and [long] are 32-bit
    two's-complement, [unsigned long] and [uint32_t] are 32-bit.  Integers
    are carried as [Z] and every C operation that can leave the range is
    written with its wrap-around.  Driver calls ([millis], [WiFi.status],
    [PubSubClient::publish], [random], ...) are inputs of the step
    functions. *)

From Stdlib Require Import ZArith Lia Bool Strings.Byte.
From stdpp Require Import base list.

Local Open Scope Z_scope.

(* ===================================================================== *)
(** ** Machine integers *)
(* ===================================================================== *)

Module Machine.

Definition INT_MAX : Z := 2147483647.
Definition INT_MIN : Z := -2147483648.

(** Two's-complement wrap of a mathematical integer into [int]. *)
Definition wrap_int (z : Z) : Z := (z + 2147483648) mod 4294967296 - 2147483648.

(** Wrap into [unsigned long] / [uint32_t]. *)
Definition wrap_ulong (z : Z) : Z := z mod 4294967296.

Definition int_add (a b : Z) : Z := wrap_int (a + b).
Definition int_sub (a b : Z) : Z := wrap_int (a - b).
Definition int_mul (a b : Z) : Z := wrap_int (a * b).
Definition int_neg (a : Z) : Z := wrap_int (- a).
(** C division truncates toward zero. *)
Definition int_div (a b : Z) : Z := wrap_int (Z.quot a b).
Definition int_shl (a n : Z) : Z := wrap_int (Z.shiftl a n).
(** [x++] on an [int]. *)
Definition int_incr (a : Z) : Z := int_add a 1.
Definition int_decr (a : Z) : Z := int_sub a 1.

Definition ulong_sub (a b : Z) : Z := wrap_ulong (a - b).
Definition ulong_add (a b : Z) : Z := wrap_ulong (a + b).
Definition ulong_incr (a : Z) : Z := wrap_ulong (a + 1).

(** An [int] operand compared with an [unsigned long] is converted to
    [unsigned long] first (usual arithmetic conversions). *)
Definition int_to_ulong (a : Z) : Z := wrap_ulong a.

(** Conversion of an [int] to [int8_t]. *)
Definition wrap_int8 (z : Z) : Z := (z + 128) mod 256 - 128.

End Machine.
Import Machine.

(* ===================================================================== *)
(** ** network_manager.h / network_manager.cpp *)
(* ===================================================================== *)

(* ===================================================================== *)
(** ** C strings and fixed-size character buffers *)
(* ===================================================================== *)

Module CString.

Definition NUL : byte := x00.

Definition is_nul (c : byte) : bool := Byte.eqb c NUL.

(** The characters a [const char*] denotes: the bytes before the first
    NUL.  A byte list stands for memory that is followed by a NUL. *)
Fixpoint c_str (mem : list byte) : list byte :=
  match mem with
  | [] => []
  | c :: rest => if is_nul c then [] else c :: c_str rest
  end.

(** [strlen]. *)
Definition strlen (mem : list byte) : Z := Z.of_nat (length (c_str mem)).

(** The [n] bytes [strncpy] writes: characters of [src] up to its NUL,
    then NUL padding until [n] bytes are written. *)
Fixpoint strncpy_bytes (src : list byte) (n : nat) {struct n} : list byte :=
  match n with
  | O => []
  | S k =>
      match src with
      | [] => replicate (S k) NUL
      | c :: rest =>
          if is_nul c then replicate (S k) NUL else c :: strncpy_bytes rest k
      end
  end.

(** [strncpy(dst, src, n)] on a buffer [dst] of at least [n] bytes. *)
Definition strncpy (dst src : list byte) (n : nat) : list byte :=
  strncpy_bytes src n ++ drop n dst.

(** [buf[i] = c]. *)
Definition poke (buf : list byte) (i : nat) (c : byte) : list byte :=
  <[i := c]> buf.

End CString.
Import CString.

(* ===================================================================== *)
(** ** Arrays shifted in place *)
(* ===================================================================== *)

Module CArray.
Section Shift.
Context {A : Type}.

(** [q[i] = q[i + 1]]; reading past the array is undefined in C and
    leaves the model unchanged. *)
Definition copy_down (q : list A) (i : nat) : list A :=
  match q !! S i with
  | Some m => <[i := m]> q
  | None => q
  end.

(** [for (; i < bound; i++) q[i] = q[i + 1];] with [steps = bound - i]. *)
Fixpoint shift_from (q : list A) (i steps : nat) : list A :=
  match steps with
  | O => q
  | S k => shift_from (copy_down q i) (S i) k
  end.

(** [for (int i = 0; i < bound; i++) q[i] = q[i + 1];] *)
Definition shift_queue (q : list A) (bound : Z) : list A :=
  shift_from q 0 (Z.to_nat bound).

End Shift.
End CArray.
Import CArray.

Module NetworkManager.

Inductive WiFiState : Set :=
| WIFI_IDLE | WIFI_CONNECTING | WIFI_CONNECTED
| WIFI_RECONNECTING | WIFI_FAILED | WIFI_DISABLED.

Inductive MQTTState : Set :=
| MQTT_IDLE | MQTT_CONNECTING | MQTT_CONNECTED
| MQTT_RECONNECTING | MQTT_FAILED | MQTT_DISABLED.

Inductive ConnectionError : Set :=
| ERROR_NONE
| ERROR_WIFI_AUTH_FAIL
| ERROR_WIFI_NO_SSID_AVAIL
| ERROR_WIFI_CONNECT_FAIL
| ERROR_MQTT_CONNECTION_REFUSED
| ERROR_MQTT_PROTOCOL_VERSION
| ERROR_MQTT_CLIENT_ID_REJECTED
| ERROR_MQTT_SERVER_UNAVAILABLE
| ERROR_MQTT_BAD_CREDENTIALS
| ERROR_MQTT_NOT_AUTHORIZED
| ERROR_NETWORK_TIMEOUT
| ERROR_MEMORY_ALLOCATION
| ERROR_SYSTEM_OVERLOAD.

(** [wl_status_t] of the WiFi driver. *)
Inductive wl_status_t : Set :=
| WL_NO_SHIELD | WL_IDLE_STATUS | WL_NO_SSID_AVAIL | WL_SCAN_COMPLETED
| WL_CONNECTED | WL_CONNECT_FAILED | WL_CONNECTION_LOST | WL_DISCONNECTED.

#[global] Instance WiFiState_eq_dec : EqDecision WiFiState.
Proof. solve_decision. Defined.
#[global] Instance MQTTState_eq_dec : EqDecision MQTTState.
Proof. solve_decision. Defined.
#[global] Instance ConnectionError_eq_dec : EqDecision ConnectionError.
Proof. solve_decision. Defined.
#[global] Instance wl_status_eq_dec : EqDecision wl_status_t.
Proof. solve_decision. Defined.

(** The numeric fields of [NetworkConfig] that the state machines read. *)
Record NetworkConfig : Set := {
  wifi_timeout_ms : Z;
  wifi_retry_interval_ms : Z;
  wifi_max_retries : Z;
  mqtt_timeout_ms : Z;
  mqtt_retry_interval_ms : Z;
  mqtt_max_retries : Z;
  enable_diagnostics : bool;
  enable_watchdog : bool;
  health_check_interval_ms : Z
}.

Record ConnectionStats : Set := {
  wifi_uptime_ms : Z;
  mqtt_uptime_ms : Z;
  wifi_reconnect_count : Z;
  mqtt_reconnect_count : Z;
  wifi_failures : Z;
  mqtt_failures : Z;
  last_wifi_rssi : Z;
  last_connection_time : Z;
  total_uptime_ms : Z;
  messages_sent : Z;
  messages_failed : Z;
  messages_queued : Z
}.

(** [memset(&_stats, 0, sizeof(_stats))]. *)
Definition zeroStats : ConnectionStats :=
  Build_ConnectionStats 0 0 0 0 0 0 0 0 0 0 0 0.

Record QueuedMessage : Set := {
  topic : list byte;        (* char topic[128] *)
  payload : list byte;      (* char payload[512] *)
  retained : bool;
  qos : Z;
  timestamp : Z;
  retry_count : Z
}.

Definition TOPIC_SIZE : nat := 128.
Definition PAYLOAD_SIZE : nat := 512.
Definition MAX_QUEUE_SIZE : Z := 10.

(** What the registered callbacks and the session driver are handed. *)
Inductive Event : Set :=
| WiFiEvent (state : WiFiState) (error : ConnectionError)
| MQTTEvent (state : MQTTState) (error : ConnectionError)
| DiagnosticsEvent (stats : ConnectionStats)
| Loop
| Publish (topic payload : list byte) (retained : bool) (accepted : bool).

(** The answers of the drivers during one call into the manager; the
    clock does not advance within a call. *)
Record Driver : Type := {
  millis : Z;
  wifi_status : wl_status_t;          (* WiFi.status() *)
  wifi_RSSI : Z;                      (* WiFi.RSSI() *)
  client_connected : bool;            (* _mqtt_client->connected() *)
  client_connect : bool;              (* _mqtt_client->connect(...) *)
  client_state : Z;                   (* _mqtt_client->state() *)
  client_publish : list byte -> list byte -> bool -> bool;
  random : Z -> Z -> Z                (* random(howsmall, howbig) *)
}.

(** The private state of the class.  [trace] collects, oldest first, the
    callback invocations and driver publishes; [last_diagnostics] is the
    function-local static of [update]. *)
Record t : Type := {
  _config : NetworkConfig;
  _wifi_state : WiFiState;
  _mqtt_state : MQTTState;
  _last_error : ConnectionError;
  _wifi_last_attempt : Z;
  _mqtt_last_attempt : Z;
  _last_health_check : Z;
  _wifi_retry_count : Z;
  _mqtt_retry_count : Z;
  _stats : ConnectionStats;
  _wifi_connect_time : Z;
  _mqtt_connect_time : Z;
  _message_queue : list QueuedMessage;   (* QueuedMessage[MAX_QUEUE_SIZE] *)
  _message_queue_size : Z;
  _wifi_callback : bool;                 (* registered? *)
  _mqtt_callback : bool;
  _diagnostics_callback : bool;
  _watchdog_enabled : bool;
  _last_watchdog_feed : Z;
  _watchdog_timeout_ms : Z;
  last_diagnostics : Z;
  trace : list Event
}.


(** Field updates ([x.f = v]). *)

Definition with_wifi_uptime_ms (v : Z) (s : ConnectionStats) : ConnectionStats :=
  Build_ConnectionStats v (mqtt_uptime_ms s) (wifi_reconnect_count s)
    (mqtt_reconnect_count s) (wifi_failures s) (mqtt_failures s)
    (last_wifi_rssi s) (last_connection_time s) (total_uptime_ms s)
    (messages_sent s) (messages_failed s) (messages_queued s).

Definition with_mqtt_uptime_ms (v : Z) (s : ConnectionStats) : ConnectionStats :=
  Build_ConnectionStats (wifi_uptime_ms s) v (wifi_reconnect_count s)
    (mqtt_reconnect_count s) (wifi_failures s) (mqtt_failures s)
    (last_wifi_rssi s) (last_connection_time s) (total_uptime_ms s)
    (messages_sent s) (messages_failed s) (messages_queued s).

Definition with_wifi_reconnect_count (v : Z) (s : ConnectionStats) : ConnectionStats :=
  Build_ConnectionStats (wifi_uptime_ms s) (mqtt_uptime_ms s) v
    (mqtt_reconnect_count s) (wifi_failures s) (mqtt_failures s)
    (last_wifi_rssi s) (last_connection_time s) (total_uptime_ms s)
    (messages_sent s) (messages_failed s) (messages_queued s).

Definition with_mqtt_reconnect_count (v : Z) (s : ConnectionStats) : ConnectionStats :=
  Build_ConnectionStats (wifi_uptime_ms s) (mqtt_uptime_ms s)
    (wifi_reconnect_count s) v (wifi_failures s) (mqtt_failures s)
    (last_wifi_rssi s) (last_connection_time s) (total_uptime_ms s)
    (messages_sent s) (messages_failed s) (messages_queued s).

Definition with_wifi_failures (v : Z) (s : ConnectionStats) : ConnectionStats :=
  Build_ConnectionStats (wifi_uptime_ms s) (mqtt_uptime_ms s)
    (wifi_reconnect_count s) (mqtt_reconnect_count s) v (mqtt_failures s)
    (last_wifi_rssi s) (last_connection_time s) (total_uptime_ms s)
    (messages_sent s) (messages_failed s) (messages_queued s).

Definition with_mqtt_failures (v : Z) (s : ConnectionStats) : ConnectionStats :=
  Build_ConnectionStats (wifi_uptime_ms s) (mqtt_uptime_ms s)
    (wifi_reconnect_count s) (mqtt_reconnect_count s) (wifi_failures s) v
    (last_wifi_rssi s) (last_connection_time s) (total_uptime_ms s)
    (messages_sent s) (messages_failed s) (messages_queued s).

Definition with_last_wifi_rssi (v : Z) (s : ConnectionStats) : ConnectionStats :=
  Build_ConnectionStats (wifi_uptime_ms s) (mqtt_uptime_ms s)
    (wifi_reconnect_count s) (mqtt_reconnect_count s) (wifi_failures s)
    (mqtt_failures s) v (last_connection_time s) (total_uptime_ms s)
    (messages_sent s) (messages_failed s) (messages_queued s).

Definition with_last_connection_time (v : Z) (s : ConnectionStats) : ConnectionStats :=
  Build_ConnectionStats (wifi_uptime_ms s) (mqtt_uptime_ms s)
    (wifi_reconnect_count s) (mqtt_reconnect_count s) (wifi_failures s)
    (mqtt_failures s) (last_wifi_rssi s) v (total_uptime_ms s)
    (messages_sent s) (messages_failed s) (messages_queued s).

Definition with_total_uptime_ms (v : Z) (s : ConnectionStats) : ConnectionStats :=
  Build_ConnectionStats (wifi_uptime_ms s) (mqtt_uptime_ms s)
    (wifi_reconnect_count s) (mqtt_reconnect_count s) (wifi_failures s)
    (mqtt_failures s) (last_wifi_rssi s) (last_connection_time s) v
    (messages_sent s) (messages_failed s) (messages_queued s).

Definition with_messages_sent (v : Z) (s : ConnectionStats) : ConnectionStats :=
  Build_ConnectionStats (wifi_uptime_ms s) (mqtt_uptime_ms s)
    (wifi_reconnect_count s) (mqtt_reconnect_count s) (wifi_failures s)
    (mqtt_failures s) (last_wifi_rssi s) (last_connection_time s)
    (total_uptime_ms s) v (messages_failed s) (messages_queued s).

Definition with_messages_failed (v : Z) (s : ConnectionStats) : ConnectionStats :=
  Build_ConnectionStats (wifi_uptime_ms s) (mqtt_uptime_ms s)
    (wifi_reconnect_count s) (mqtt_reconnect_count s) (wifi_failures s)
    (mqtt_failures s) (last_wifi_rssi s) (last_connection_time s)
    (total_uptime_ms s) (messages_sent s) v (messages_queued s).

Definition with_messages_queued (v : Z) (s : ConnectionStats) : ConnectionStats :=
  Build_ConnectionStats (wifi_uptime_ms s) (mqtt_uptime_ms s)
    (wifi_reconnect_count s) (mqtt_reconnect_count s) (wifi_failures s)
    (mqtt_failures s) (last_wifi_rssi s) (last_connection_time s)
    (total_uptime_ms s) (messages_sent s) (messages_failed s) v.

Definition set_config (v : NetworkConfig) (nm : t) : t :=
  Build_t v (_wifi_state nm) (_mqtt_state nm) (_last_error nm)
    (_wifi_last_attempt nm) (_mqtt_last_attempt nm) (_last_health_check nm)
    (_wifi_retry_count nm) (_mqtt_retry_count nm) (_stats nm)
    (_wifi_connect_time nm) (_mqtt_connect_time nm) (_message_queue nm)
    (_message_queue_size nm) (_wifi_callback nm) (_mqtt_callback nm)
    (_diagnostics_callback nm) (_watchdog_enabled nm) (_last_watchdog_feed nm)
    (_watchdog_timeout_ms nm) (last_diagnostics nm) (trace nm).
Definition set_wifi_state (v : WiFiState) (nm : t) : t :=
  Build_t (_config nm) v (_mqtt_state nm) (_last_error nm)
    (_wifi_last_attempt nm) (_mqtt_last_attempt nm) (_last_health_check nm)
    (_wifi_retry_count nm) (_mqtt_retry_count nm) (_stats nm)
    (_wifi_connect_time nm) (_mqtt_connect_time nm) (_message_queue nm)
    (_message_queue_size nm) (_wifi_callback nm) (_mqtt_callback nm)
    (_diagnostics_callback nm) (_watchdog_enabled nm)
    (_last_watchdog_feed nm) (_watchdog_timeout_ms nm)
    (last_diagnostics nm) (trace nm).

Definition set_mqtt_state (v : MQTTState) (nm : t) : t :=
  Build_t (_config nm) (_wifi_state nm) v (_last_error nm)
    (_wifi_last_attempt nm) (_mqtt_last_attempt nm) (_last_health_check nm)
    (_wifi_retry_count nm) (_mqtt_retry_count nm) (_stats nm)
    (_wifi_connect_time nm) (_mqtt_connect_time nm) (_message_queue nm)
    (_message_queue_size nm) (_wifi_callback nm) (_mqtt_callback nm)
    (_diagnostics_callback nm) (_watchdog_enabled nm)
    (_last_watchdog_feed nm) (_watchdog_timeout_ms nm)
    (last_diagnostics nm) (trace nm).

Definition set_last_error (v : ConnectionError) (nm : t) : t :=
  Build_t (_config nm) (_wifi_state nm) (_mqtt_state nm) v
    (_wifi_last_attempt nm) (_mqtt_last_attempt nm) (_last_health_check nm)
    (_wifi_retry_count nm) (_mqtt_retry_count nm) (_stats nm)
    (_wifi_connect_time nm) (_mqtt_connect_time nm) (_message_queue nm)
    (_message_queue_size nm) (_wifi_callback nm) (_mqtt_callback nm)
    (_diagnostics_callback nm) (_watchdog_enabled nm)
    (_last_watchdog_feed nm) (_watchdog_timeout_ms nm)
    (last_diagnostics nm) (trace nm).

Definition set_wifi_last_attempt (v : Z) (nm : t) : t :=
  Build_t (_config nm) (_wifi_state nm) (_mqtt_state nm) (_last_error nm) v
    (_mqtt_last_attempt nm) (_last_health_check nm) (_wifi_retry_count nm)
    (_mqtt_retry_count nm) (_stats nm) (_wifi_connect_time nm)
    (_mqtt_connect_time nm) (_message_queue nm) (_message_queue_size nm)
    (_wifi_callback nm) (_mqtt_callback nm) (_diagnostics_callback nm)
    (_watchdog_enabled nm) (_last_watchdog_feed nm)
    (_watchdog_timeout_ms nm) (last_diagnostics nm) (trace nm).

Definition set_mqtt_last_attempt (v : Z) (nm : t) : t :=
  Build_t (_config nm) (_wifi_state nm) (_mqtt_state nm) (_last_error nm)
    (_wifi_last_attempt nm) v (_last_health_check nm)
    (_wifi_retry_count nm) (_mqtt_retry_count nm) (_stats nm)
    (_wifi_connect_time nm) (_mqtt_connect_time nm) (_message_queue nm)
    (_message_queue_size nm) (_wifi_callback nm) (_mqtt_callback nm)
    (_diagnostics_callback nm) (_watchdog_enabled nm)
    (_last_watchdog_feed nm) (_watchdog_timeout_ms nm)
    (last_diagnostics nm) (trace nm).

Definition set_last_health_check (v : Z) (nm : t) : t :=
  Build_t (_config nm) (_wifi_state nm) (_mqtt_state nm) (_last_error nm)
    (_wifi_last_attempt nm) (_mqtt_last_attempt nm) v
    (_wifi_retry_count nm) (_mqtt_retry_count nm) (_stats nm)
    (_wifi_connect_time nm) (_mqtt_connect_time nm) (_message_queue nm)
    (_message_queue_size nm) (_wifi_callback nm) (_mqtt_callback nm)
    (_diagnostics_callback nm) (_watchdog_enabled nm)
    (_last_watchdog_feed nm) (_watchdog_timeout_ms nm)
    (last_diagnostics nm) (trace nm).

Definition set_wifi_retry_count (v : Z) (nm : t) : t :=
  Build_t (_config nm) (_wifi_state nm) (_mqtt_state nm) (_last_error nm)
    (_wifi_last_attempt nm) (_mqtt_last_attempt nm) (_last_health_check nm)
    v (_mqtt_retry_count nm) (_stats nm) (_wifi_connect_time nm)
    (_mqtt_connect_time nm) (_message_queue nm) (_message_queue_size nm)
    (_wifi_callback nm) (_mqtt_callback nm) (_diagnostics_callback nm)
    (_watchdog_enabled nm) (_last_watchdog_feed nm)
    (_watchdog_timeout_ms nm) (last_diagnostics nm) (trace nm).

Definition set_mqtt_retry_count (v : Z) (nm : t) : t :=
  Build_t (_config nm) (_wifi_state nm) (_mqtt_state nm) (_last_error nm)
    (_wifi_last_attempt nm) (_mqtt_last_attempt nm) (_last_health_check nm)
    (_wifi_retry_count nm) v (_stats nm) (_wifi_connect_time nm)
    (_mqtt_connect_time nm) (_message_queue nm) (_message_queue_size nm)
    (_wifi_callback nm) (_mqtt_callback nm) (_diagnostics_callback nm)
    (_watchdog_enabled nm) (_last_watchdog_feed nm)
    (_watchdog_timeout_ms nm) (last_diagnostics nm) (trace nm).

Definition set_stats (v : ConnectionStats) (nm : t) : t :=
  Build_t (_config nm) (_wifi_state nm) (_mqtt_state nm) (_last_error nm)
    (_wifi_last_attempt nm) (_mqtt_last_attempt nm) (_last_health_check nm)
    (_wifi_retry_count nm) (_mqtt_retry_count nm) v (_wifi_connect_time nm)
    (_mqtt_connect_time nm) (_message_queue nm) (_message_queue_size nm)
    (_wifi_callback nm) (_mqtt_callback nm) (_diagnostics_callback nm)
    (_watchdog_enabled nm) (_last_watchdog_feed nm)
    (_watchdog_timeout_ms nm) (last_diagnostics nm) (trace nm).

Definition set_wifi_connect_time (v : Z) (nm : t) : t :=
  Build_t (_config nm) (_wifi_state nm) (_mqtt_state nm) (_last_error nm)
    (_wifi_last_attempt nm) (_mqtt_last_attempt nm) (_last_health_check nm)
    (_wifi_retry_count nm) (_mqtt_retry_count nm) (_stats nm) v
    (_mqtt_connect_time nm) (_message_queue nm) (_message_queue_size nm)
    (_wifi_callback nm) (_mqtt_callback nm) (_diagnostics_callback nm)
    (_watchdog_enabled nm) (_last_watchdog_feed nm)
    (_watchdog_timeout_ms nm) (last_diagnostics nm) (trace nm).

Definition set_mqtt_connect_time (v : Z) (nm : t) : t :=
  Build_t (_config nm) (_wifi_state nm) (_mqtt_state nm) (_last_error nm)
    (_wifi_last_attempt nm) (_mqtt_last_attempt nm) (_last_health_check nm)
    (_wifi_retry_count nm) (_mqtt_retry_count nm) (_stats nm)
    (_wifi_connect_time nm) v (_message_queue nm) (_message_queue_size nm)
    (_wifi_callback nm) (_mqtt_callback nm) (_diagnostics_callback nm)
    (_watchdog_enabled nm) (_last_watchdog_feed nm)
    (_watchdog_timeout_ms nm) (last_diagnostics nm) (trace nm).

Definition set_message_queue (v : list QueuedMessage) (nm : t) : t :=
  Build_t (_config nm) (_wifi_state nm) (_mqtt_state nm) (_last_error nm)
    (_wifi_last_attempt nm) (_mqtt_last_attempt nm) (_last_health_check nm)
    (_wifi_retry_count nm) (_mqtt_retry_count nm) (_stats nm)
    (_wifi_connect_time nm) (_mqtt_connect_time nm) v
    (_message_queue_size nm) (_wifi_callback nm) (_mqtt_callback nm)
    (_diagnostics_callback nm) (_watchdog_enabled nm)
    (_last_watchdog_feed nm) (_watchdog_timeout_ms nm)
    (last_diagnostics nm) (trace nm).

Definition set_message_queue_size (v : Z) (nm : t) : t :=
  Build_t (_config nm) (_wifi_state nm) (_mqtt_state nm) (_last_error nm)
    (_wifi_last_attempt nm) (_mqtt_last_attempt nm) (_last_health_check nm)
    (_wifi_retry_count nm) (_mqtt_retry_count nm) (_stats nm)
    (_wifi_connect_time nm) (_mqtt_connect_time nm) (_message_queue nm) v
    (_wifi_callback nm) (_mqtt_callback nm) (_diagnostics_callback nm)
    (_watchdog_enabled nm) (_last_watchdog_feed nm)
    (_watchdog_timeout_ms nm) (last_diagnostics nm) (trace nm).

Definition set_wifi_callback (v : bool) (nm : t) : t :=
  Build_t (_config nm) (_wifi_state nm) (_mqtt_state nm) (_last_error nm)
    (_wifi_last_attempt nm) (_mqtt_last_attempt nm) (_last_health_check nm)
    (_wifi_retry_count nm) (_mqtt_retry_count nm) (_stats nm)
    (_wifi_connect_time nm) (_mqtt_connect_time nm) (_message_queue nm)
    (_message_queue_size nm) v (_mqtt_callback nm)
    (_diagnostics_callback nm) (_watchdog_enabled nm)
    (_last_watchdog_feed nm) (_watchdog_timeout_ms nm)
    (last_diagnostics nm) (trace nm).

Definition set_mqtt_callback (v : bool) (nm : t) : t :=
  Build_t (_config nm) (_wifi_state nm) (_mqtt_state nm) (_last_error nm)
    (_wifi_last_attempt nm) (_mqtt_last_attempt nm) (_last_health_check nm)
    (_wifi_retry_count nm) (_mqtt_retry_count nm) (_stats nm)
    (_wifi_connect_time nm) (_mqtt_connect_time nm) (_message_queue nm)
    (_message_queue_size nm) (_wifi_callback nm) v
    (_diagnostics_callback nm) (_watchdog_enabled nm)
    (_last_watchdog_feed nm) (_watchdog_timeout_ms nm)
    (last_diagnostics nm) (trace nm).

Definition set_diagnostics_callback (v : bool) (nm : t) : t :=
  Build_t (_config nm) (_wifi_state nm) (_mqtt_state nm) (_last_error nm)
    (_wifi_last_attempt nm) (_mqtt_last_attempt nm) (_last_health_check nm)
    (_wifi_retry_count nm) (_mqtt_retry_count nm) (_stats nm)
    (_wifi_connect_time nm) (_mqtt_connect_time nm) (_message_queue nm)
    (_message_queue_size nm) (_wifi_callback nm) (_mqtt_callback nm) v
    (_watchdog_enabled nm) (_last_watchdog_feed nm)
    (_watchdog_timeout_ms nm) (last_diagnostics nm) (trace nm).

Definition set_watchdog_enabled (v : bool) (nm : t) : t :=
  Build_t (_config nm) (_wifi_state nm) (_mqtt_state nm) (_last_error nm)
    (_wifi_last_attempt nm) (_mqtt_last_attempt nm) (_last_health_check nm)
    (_wifi_retry_count nm) (_mqtt_retry_count nm) (_stats nm)
    (_wifi_connect_time nm) (_mqtt_connect_time nm) (_message_queue nm)
    (_message_queue_size nm) (_wifi_callback nm) (_mqtt_callback nm)
    (_diagnostics_callback nm) v (_last_watchdog_feed nm)
    (_watchdog_timeout_ms nm) (last_diagnostics nm) (trace nm).

Definition set_last_watchdog_feed (v : Z) (nm : t) : t :=
  Build_t (_config nm) (_wifi_state nm) (_mqtt_state nm) (_last_error nm)
    (_wifi_last_attempt nm) (_mqtt_last_attempt nm) (_last_health_check nm)
    (_wifi_retry_count nm) (_mqtt_retry_count nm) (_stats nm)
    (_wifi_connect_time nm) (_mqtt_connect_time nm) (_message_queue nm)
    (_message_queue_size nm) (_wifi_callback nm) (_mqtt_callback nm)
    (_diagnostics_callback nm) (_watchdog_enabled nm) v
    (_watchdog_timeout_ms nm) (last_diagnostics nm) (trace nm).

Definition set_watchdog_timeout_ms (v : Z) (nm : t) : t :=
  Build_t (_config nm) (_wifi_state nm) (_mqtt_state nm) (_last_error nm)
    (_wifi_last_attempt nm) (_mqtt_last_attempt nm) (_last_health_check nm)
    (_wifi_retry_count nm) (_mqtt_retry_count nm) (_stats nm)
    (_wifi_connect_time nm) (_mqtt_connect_time nm) (_message_queue nm)
    (_message_queue_size nm) (_wifi_callback nm) (_mqtt_callback nm)
    (_diagnostics_callback nm) (_watchdog_enabled nm)
    (_last_watchdog_feed nm) v (last_diagnostics nm) (trace nm).

Definition set_last_diagnostics (v : Z) (nm : t) : t :=
  Build_t (_config nm) (_wifi_state nm) (_mqtt_state nm) (_last_error nm)
    (_wifi_last_attempt nm) (_mqtt_last_attempt nm) (_last_health_check nm)
    (_wifi_retry_count nm) (_mqtt_retry_count nm) (_stats nm)
    (_wifi_connect_time nm) (_mqtt_connect_time nm) (_message_queue nm)
    (_message_queue_size nm) (_wifi_callback nm) (_mqtt_callback nm)
    (_diagnostics_callback nm) (_watchdog_enabled nm)
    (_last_watchdog_feed nm) (_watchdog_timeout_ms nm) v (trace nm).

Definition set_trace (v : list Event) (nm : t) : t :=
  Build_t (_config nm) (_wifi_state nm) (_mqtt_state nm) (_last_error nm)
    (_wifi_last_attempt nm) (_mqtt_last_attempt nm) (_last_health_check nm)
    (_wifi_retry_count nm) (_mqtt_retry_count nm) (_stats nm)
    (_wifi_connect_time nm) (_mqtt_connect_time nm) (_message_queue nm)
    (_message_queue_size nm) (_wifi_callback nm) (_mqtt_callback nm)
    (_diagnostics_callback nm) (_watchdog_enabled nm)
    (_last_watchdog_feed nm) (_watchdog_timeout_ms nm)
    (last_diagnostics nm) v.

Definition set_retry_count (v : Z) (m : QueuedMessage) : QueuedMessage :=
  Build_QueuedMessage (topic m) (payload m) (retained m) (qos m)
    (timestamp m) v.

(** [min(delay, max_delay)] of the capped exponential, lines 617-618 of
    [calculateBackoffDelay]: the delay before jitter is added. *)
Definition cappedDelay (base_delay retry_count max_delay : Z) : Z :=
  let delay := int_mul base_delay (int_shl 1 (Z.min retry_count 6)) in
  Z.min delay max_delay.

(** The ten-percent jitter amplitude of a capped delay, line 621. *)
Definition jitterOf (delay : Z) : Z := int_div (int_mul delay 10) 100.

(** [NetworkManager::calculateBackoffDelay].  [random lo hi] is Arduino's
    [random(howsmall, howbig)], a draw from [lo, hi). *)
Definition calculateBackoffDelay (random : Z -> Z -> Z)
    (base_delay retry_count max_delay : Z) : Z :=
  let delay := cappedDelay base_delay retry_count max_delay in
  let jitter := jitterOf delay in
  let delay := int_add delay (random (int_neg jitter) (int_add jitter 1)) in
  Z.max delay base_delay.

(** The default argument [max_delay = 60000] of the declaration. *)
Definition DEFAULT_MAX_DELAY : Z := 60000.

(** A zero-filled queue slot: the global manager object lives in
    zero-initialised static storage and the constructor does not touch
    the array. *)
Definition blank_message : QueuedMessage :=
  Build_QueuedMessage (replicate TOPIC_SIZE NUL) (replicate PAYLOAD_SIZE NUL)
    false 0 0 0.

(** [NetworkManager::NetworkManager()].  The constructor leaves [_config]
    as it finds it; [config] stands for that content until [begin] stores
    the real one. *)
Definition new (config : NetworkConfig) : t :=
  {| _config := config;
     _wifi_state := WIFI_IDLE;
     _mqtt_state := MQTT_IDLE;
     _last_error := ERROR_NONE;
     _wifi_last_attempt := 0;
     _mqtt_last_attempt := 0;
     _last_health_check := 0;
     _wifi_retry_count := 0;
     _mqtt_retry_count := 0;
     _stats := zeroStats;
     _wifi_connect_time := 0;
     _mqtt_connect_time := 0;
     _message_queue := replicate (Z.to_nat MAX_QUEUE_SIZE) blank_message;
     _message_queue_size := 0;
     _wifi_callback := false;
     _mqtt_callback := false;
     _diagnostics_callback := false;
     _watchdog_enabled := false;
     _last_watchdog_feed := 0;
     _watchdog_timeout_ms := 30000;
     last_diagnostics := 0;
     trace := [] |}.

Definition isWiFiConnected (nm : t) : bool :=
  bool_decide (_wifi_state nm = WIFI_CONNECTED).
Definition isMQTTConnected (nm : t) : bool :=
  bool_decide (_mqtt_state nm = MQTT_CONNECTED).
Definition isFullyConnected (nm : t) : bool :=
  isWiFiConnected nm && isMQTTConnected nm.
Definition getQueueSize (nm : t) : Z := _message_queue_size nm.

Definition emit (e : Event) (nm : t) : t := set_trace (trace nm ++ [e]) nm.

Definition upd_stats (f : ConnectionStats -> ConnectionStats) (nm : t) : t :=
  set_stats (f (_stats nm)) nm.

(** [NetworkManager::setError]. *)
Definition setError (error : ConnectionError) (nm : t) : t :=
  if bool_decide (error <> ERROR_NONE) then set_last_error error nm else nm.

(** [NetworkManager::setWiFiState]. *)
Definition setWiFiState (state : WiFiState) (error : ConnectionError)
    (nm : t) : t :=
  if bool_decide (_wifi_state nm <> state) then
    let nm := set_wifi_state state nm in
    let nm := if bool_decide (error <> ERROR_NONE) then setError error nm
              else nm in
    if _wifi_callback nm then emit (WiFiEvent state error) nm else nm
  else nm.

(** [NetworkManager::setMQTTState]. *)
Definition setMQTTState (state : MQTTState) (error : ConnectionError)
    (nm : t) : t :=
  if bool_decide (_mqtt_state nm <> state) then
    let nm := set_mqtt_state state nm in
    let nm := if bool_decide (error <> ERROR_NONE) then setError error nm
              else nm in
    if _mqtt_callback nm then emit (MQTTEvent state error) nm else nm
  else nm.

(** [NetworkManager::isTimeToRetry]. *)
Definition isTimeToRetry (d : Driver) (last_attempt interval : Z) : bool :=
  int_to_ulong interval <=? ulong_sub (millis d) last_attempt.

(** [NetworkManager::mapWiFiError]. *)
Definition mapWiFiError (status : wl_status_t) : ConnectionError :=
  match status with
  | WL_NO_SSID_AVAIL => ERROR_WIFI_NO_SSID_AVAIL
  | WL_CONNECT_FAILED => ERROR_WIFI_AUTH_FAIL
  | WL_CONNECTION_LOST | WL_DISCONNECTED => ERROR_WIFI_CONNECT_FAIL
  | _ => ERROR_NETWORK_TIMEOUT
  end.

(** [NetworkManager::mapMQTTError]. *)
Definition mapMQTTError (mqtt_state : Z) : ConnectionError :=
  if mqtt_state =? -4 then ERROR_NETWORK_TIMEOUT
  else if mqtt_state =? -3 then ERROR_MQTT_SERVER_UNAVAILABLE
  else if mqtt_state =? -2 then ERROR_MQTT_CONNECTION_REFUSED
  else if mqtt_state =? 1 then ERROR_MQTT_PROTOCOL_VERSION
  else if mqtt_state =? 2 then ERROR_MQTT_CLIENT_ID_REJECTED
  else if mqtt_state =? 3 then ERROR_MQTT_SERVER_UNAVAILABLE
  else if mqtt_state =? 4 then ERROR_MQTT_BAD_CREDENTIALS
  else if mqtt_state =? 5 then ERROR_MQTT_NOT_AUTHORIZED
  else ERROR_MQTT_CONNECTION_REFUSED.

(** [NetworkManager::startWiFiConnection]. *)
Definition startWiFiConnection (d : Driver) (nm : t) : bool * t :=
  let nm := set_wifi_last_attempt (millis d) nm in
  (true, setWiFiState WIFI_CONNECTING ERROR_NONE nm).

(** [NetworkManager::startMQTTConnection]. *)
Definition startMQTTConnection (d : Driver) (nm : t) : bool * t :=
  let nm := set_mqtt_last_attempt (millis d) nm in
  if client_connect d then (true, setMQTTState MQTT_CONNECTED ERROR_NONE nm)
  else (false,
        setMQTTState MQTT_RECONNECTING (mapMQTTError (client_state d)) nm).

(** [NetworkManager::connectWiFi]. *)
Definition connectWiFi (d : Driver) (nm : t) : bool * t :=
  match _wifi_state nm with
  | WIFI_CONNECTED => (true, nm)
  | WIFI_CONNECTING | WIFI_RECONNECTING => (false, nm)
  | _ => startWiFiConnection d (setWiFiState WIFI_CONNECTING ERROR_NONE nm)
  end.

(** [NetworkManager::connectMQTT]. *)
Definition connectMQTT (d : Driver) (nm : t) : bool * t :=
  if bool_decide (_mqtt_state nm = MQTT_CONNECTED) then (true, nm)
  else if negb (isWiFiConnected nm) then (false, nm)
  else if bool_decide (_mqtt_state nm = MQTT_CONNECTING)
          || bool_decide (_mqtt_state nm = MQTT_RECONNECTING)
  then (false, nm)
  else startMQTTConnection d (setMQTTState MQTT_CONNECTING ERROR_NONE nm).

(** [NetworkManager::disconnect]. *)
Definition disconnect (nm : t) : t :=
  setMQTTState MQTT_IDLE ERROR_NONE (setWiFiState WIFI_IDLE ERROR_NONE nm).

(** [NetworkManager::resetStats]. *)
Definition resetStats (nm : t) : t :=
  set_stats (with_last_wifi_rssi (-100) zeroStats) nm.

(** [NetworkManager::reset]. *)
Definition reset (nm : t) : t :=
  let nm := disconnect nm in
  let nm := set_wifi_retry_count 0 nm in
  let nm := set_mqtt_retry_count 0 nm in
  let nm := set_wifi_last_attempt 0 nm in
  let nm := set_mqtt_last_attempt 0 nm in
  let nm := set_message_queue_size 0 nm in
  let nm := set_last_error ERROR_NONE nm in
  resetStats nm.

(** [NetworkManager::getWiFiRSSI]. *)
Definition getWiFiRSSI (d : Driver) (nm : t) : Z :=
  if isWiFiConnected nm then wifi_RSSI d else -100.

(** [NetworkManager::getConnectionQuality]. *)
Definition getConnectionQuality (d : Driver) (nm : t) : Z :=
  if negb (isFullyConnected nm) then 0
  else
    let rssi := getWiFiRSSI d nm in
    if -50 <=? rssi then 100
    else if -60 <=? rssi then 80
    else if -70 <=? rssi then 60
    else if -80 <=? rssi then 40
    else if -90 <=? rssi then 20
    else 10.

(** *** Message queue *)

(** The slot [_message_queue[i]]. *)
Definition slot (nm : t) (i : Z) : QueuedMessage :=
  default blank_message (_message_queue nm !! Z.to_nat i).

(** The live entries, head first: slots [0 .. _message_queue_size - 1]. *)
Definition pending (nm : t) : list QueuedMessage :=
  take (Z.to_nat (_message_queue_size nm)) (_message_queue nm).

(** The slot contents written by lines 312-320 of [queueMessage]. *)
Definition fill_slot (old : QueuedMessage) (topic_in payload_in : list byte)
    (retained_in : bool) (qos_in now : Z) : QueuedMessage :=
  {| topic := poke (strncpy (topic old) topic_in (TOPIC_SIZE - 1))
                   (TOPIC_SIZE - 1) NUL;
     payload := poke (strncpy (payload old) payload_in (PAYLOAD_SIZE - 1))
                     (PAYLOAD_SIZE - 1) NUL;
     retained := retained_in;
     qos := qos_in;
     timestamp := now;
     retry_count := 0 |}.

(** [NetworkManager::queueMessage]. *)
Definition queueMessage (d : Driver) (topic_in payload_in : list byte)
    (retained_in : bool) (qos_in : Z) (nm : t) : bool * t :=
  let nm :=
    if MAX_QUEUE_SIZE <=? _message_queue_size nm then
      let nm := set_message_queue
                  (shift_queue (_message_queue nm) (MAX_QUEUE_SIZE - 1)) nm in
      set_message_queue_size (MAX_QUEUE_SIZE - 1) nm
    else nm in
  let i := _message_queue_size nm in
  let msg := fill_slot (slot nm i) topic_in payload_in retained_in qos_in
               (millis d) in
  let nm := set_message_queue (<[Z.to_nat i := msg]> (_message_queue nm)) nm in
  let nm := set_message_queue_size (int_incr (_message_queue_size nm)) nm in
  let nm := upd_stats (fun s => with_messages_queued
                                  (ulong_incr (messages_queued s)) s) nm in
  (true, nm).

(** Lines 346-349 and 358-361: drop the head entry by shifting. *)
Definition remove_head (nm : t) : t :=
  let nm := set_message_queue
              (shift_queue (_message_queue nm) (_message_queue_size nm - 1))
              nm in
  set_message_queue_size (int_decr (_message_queue_size nm)) nm.

(** [NetworkManager::processMessageQueue]. *)
Definition processMessageQueue (d : Driver) (nm : t) : t :=
  if (_message_queue_size nm =? 0) || negb (isMQTTConnected nm) then nm
  else
    let msg := slot nm 0 in
    let success :=
      client_publish d (c_str (topic msg)) (c_str (payload msg))
        (retained msg) in
    let nm := emit (Publish (c_str (topic msg)) (c_str (payload msg))
                      (retained msg) success) nm in
    if success then
      let nm := upd_stats (fun s => with_messages_sent
                                      (ulong_incr (messages_sent s)) s) nm in
      remove_head nm
    else
      let msg := set_retry_count (int_incr (retry_count msg)) msg in
      let nm := set_message_queue (<[0%nat := msg]> (_message_queue nm)) nm in
      let nm := upd_stats (fun s => with_messages_failed
                                      (ulong_incr (messages_failed s)) s) nm in
      if 3 <=? retry_count msg then remove_head nm else nm.

(** [NetworkManager::publish]. *)
Definition publish (d : Driver) (topic_in payload_in : list byte)
    (retained_in : bool) (qos_in : Z) (nm : t) : bool * t :=
  if negb (isMQTTConnected nm) then
    queueMessage d topic_in payload_in retained_in qos_in nm
  else
    let result :=
      if qos_in =? 0
      then client_publish d (c_str topic_in) (c_str payload_in) retained_in
      else client_publish d (c_str topic_in) (c_str payload_in) retained_in in
    let nm := emit (Publish (c_str topic_in) (c_str payload_in) retained_in
                      result) nm in
    if result then
      (result, upd_stats (fun s => with_messages_sent
                                     (ulong_incr (messages_sent s)) s) nm)
    else
      let nm := upd_stats (fun s => with_messages_failed
                                      (ulong_incr (messages_failed s)) s) nm in
      (result, snd (queueMessage d topic_in payload_in retained_in qos_in nm)).

(** *** Watchdog *)

(** [NetworkManager::enableWatchdog]. *)
Definition enableWatchdog (d : Driver) (timeout_seconds : Z) (nm : t) : t :=
  let nm := set_watchdog_timeout_ms (int_mul timeout_seconds 1000) nm in
  let nm := set_watchdog_enabled true nm in
  set_last_watchdog_feed (millis d) nm.

(** [NetworkManager::begin], with the allocation of the client
    succeeding. *)
Definition begin (d : Driver) (config : NetworkConfig) (nm : t) : bool * t :=
  let nm := set_config config nm in
  let nm := if enable_watchdog (_config nm) then enableWatchdog d 30 nm
            else nm in
  (true, resetStats nm).

(** [NetworkManager::feedWatchdog]. *)
Definition feedWatchdog (d : Driver) (nm : t) : t :=
  if _watchdog_enabled nm then set_last_watchdog_feed (millis d) nm else nm.

(** [NetworkManager::isSystemHealthy]. *)
Definition isSystemHealthy (d : Driver) (nm : t) : bool :=
  if negb (_watchdog_enabled nm) then true
  else
    let since_last_feed := ulong_sub (millis d) (_last_watchdog_feed nm) in
    since_last_feed <? int_to_ulong (int_div (_watchdog_timeout_ms nm) 2).

(** *** The state machines *)

(** [NetworkManager::updateWiFi]. *)
Definition updateWiFi (d : Driver) (nm : t) : t :=
  let now := millis d in
  match _wifi_state nm with
  | WIFI_CONNECTING =>
      if bool_decide (wifi_status d = WL_CONNECTED) then
        let nm := set_wifi_connect_time now nm in
        let nm := upd_stats (with_last_connection_time now) nm in
        let nm := set_wifi_retry_count 0 nm in
        setWiFiState WIFI_CONNECTED ERROR_NONE nm
      else if int_to_ulong (wifi_timeout_ms (_config nm))
                <? ulong_sub now (_wifi_last_attempt nm) then
        let nm := upd_stats (fun s => with_wifi_failures
                                        (ulong_incr (wifi_failures s)) s) nm in
        setWiFiState WIFI_RECONNECTING (mapWiFiError (wifi_status d)) nm
      else nm
  | WIFI_CONNECTED =>
      if bool_decide (wifi_status d <> WL_CONNECTED) then
        let nm := upd_stats (fun s => with_wifi_failures
                                        (ulong_incr (wifi_failures s)) s) nm in
        setWiFiState WIFI_RECONNECTING ERROR_NONE nm
      else nm
  | WIFI_RECONNECTING =>
      if isTimeToRetry d (_wifi_last_attempt nm)
           (calculateBackoffDelay (random d)
              (wifi_retry_interval_ms (_config nm)) (_wifi_retry_count nm)
              DEFAULT_MAX_DELAY) then
        if _wifi_retry_count nm <? wifi_max_retries (_config nm) then
          let nm := set_wifi_retry_count (int_incr (_wifi_retry_count nm)) nm in
          let nm := upd_stats (fun s => with_wifi_reconnect_count
                                 (ulong_incr (wifi_reconnect_count s)) s) nm in
          snd (startWiFiConnection d nm)
        else setWiFiState WIFI_FAILED ERROR_WIFI_CONNECT_FAIL nm
      else nm
  | WIFI_FAILED =>
      if 300000 <? ulong_sub now (_wifi_last_attempt nm) then
        let nm := set_wifi_retry_count 0 nm in
        setWiFiState WIFI_RECONNECTING ERROR_NONE nm
      else nm
  | _ => nm
  end.

(** [NetworkManager::updateMQTT]. *)
Definition updateMQTT (d : Driver) (nm : t) : t :=
  let now := millis d in
  if negb (isWiFiConnected nm) then
    if bool_decide (_mqtt_state nm <> MQTT_IDLE)
    then setMQTTState MQTT_IDLE ERROR_NONE nm
    else nm
  else
    match _mqtt_state nm with
    | MQTT_CONNECTING =>
        if client_connected d then
          let nm := set_mqtt_connect_time now nm in
          let nm := set_mqtt_retry_count 0 nm in
          setMQTTState MQTT_CONNECTED ERROR_NONE nm
        else if int_to_ulong (mqtt_timeout_ms (_config nm))
                  <? ulong_sub now (_mqtt_last_attempt nm) then
          let nm := upd_stats (fun s => with_mqtt_failures
                                          (ulong_incr (mqtt_failures s)) s) nm in
          setMQTTState MQTT_RECONNECTING (mapMQTTError (client_state d)) nm
        else nm
    | MQTT_CONNECTED =>
        if negb (client_connected d) then
          let nm := upd_stats (fun s => with_mqtt_failures
                                          (ulong_incr (mqtt_failures s)) s) nm in
          setMQTTState MQTT_RECONNECTING ERROR_NONE nm
        else nm
    | MQTT_RECONNECTING =>
        if isTimeToRetry d (_mqtt_last_attempt nm)
             (calculateBackoffDelay (random d)
                (mqtt_retry_interval_ms (_config nm)) (_mqtt_retry_count nm)
                DEFAULT_MAX_DELAY) then
          if _mqtt_retry_count nm <? mqtt_max_retries (_config nm) then
            let nm := set_mqtt_retry_count (int_incr (_mqtt_retry_count nm))
                        nm in
            let nm := upd_stats (fun s => with_mqtt_reconnect_count
                                   (ulong_incr (mqtt_reconnect_count s)) s) nm in
            snd (startMQTTConnection d nm)
          else setMQTTState MQTT_FAILED ERROR_MQTT_SERVER_UNAVAILABLE nm
        else nm
    | MQTT_FAILED =>
        if 300000 <? ulong_sub now (_mqtt_last_attempt nm) then
          let nm := set_mqtt_retry_count 0 nm in
          setMQTTState MQTT_RECONNECTING ERROR_NONE nm
        else nm
    | _ =>
        if bool_decide (_mqtt_state nm = MQTT_IDLE) && isWiFiConnected nm
        then snd (connectMQTT d nm)
        else nm
    end.

(** [NetworkManager::updateStats]. *)
Definition updateStats (d : Driver) (nm : t) : t :=
  let now := millis d in
  let nm := upd_stats (with_total_uptime_ms now) nm in
  let nm := upd_stats (with_last_wifi_rssi (wrap_int8 (getWiFiRSSI d nm))) nm in
  let nm :=
    if isWiFiConnected nm then
      upd_stats (fun s => with_wifi_uptime_ms
                   (ulong_add (wifi_uptime_ms s)
                      (ulong_sub now (_wifi_connect_time nm))) s) nm
    else nm in
  if isMQTTConnected nm then
    upd_stats (fun s => with_mqtt_uptime_ms
                 (ulong_add (mqtt_uptime_ms s)
                    (ulong_sub now (_mqtt_connect_time nm))) s) nm
  else nm.

Section Update.

(** [updateHealthCheck] is declared in [network_manager.h] and called
    by [update], but no definition of it is part of the sources; it is
    a parameter of the model. *)
Variable updateHealthCheck : Driver -> t -> t.

(** [NetworkManager::update]. *)
Definition update (d : Driver) (nm : t) : t :=
  let now := millis d in
  let nm := if _watchdog_enabled nm then feedWatchdog d nm else nm in
  let nm := updateWiFi d nm in
  let nm := updateMQTT d nm in
  let nm := if isMQTTConnected nm then emit Loop nm else nm in
  let nm := processMessageQueue d nm in
  let nm :=
    if int_to_ulong (health_check_interval_ms (_config nm))
         <? ulong_sub now (_last_health_check nm) then
      set_last_health_check now (updateHealthCheck d nm)
    else nm in
  let nm := updateStats d nm in
  if _diagnostics_callback nm && enable_diagnostics (_config nm) then
    if 30000 <? ulong_sub now (last_diagnostics nm) then
      set_last_diagnostics now (emit (DiagnosticsEvent (_stats nm)) nm)
    else nm
  else nm.

End Update.

End NetworkManager.

(* ===================================================================== *)
(** ** faculty_desk_unit.ino *)
(* ===================================================================== *)

Module Sketch.

(** Values of [config.h]. *)
Definition BLE_SCAN_INTERVAL_SEARCHING : Z := 2000.
Definition BLE_SCAN_INTERVAL_MONITORING : Z := 8000.
Definition BLE_SCAN_INTERVAL_VERIFICATION : Z := 1000.
Definition BLE_GRACE_PERIOD_MS : Z := 60000.
Definition BLE_RECONNECT_ATTEMPT_INTERVAL : Z := 5000.
Definition BLE_SCAN_DURATION_QUICK : Z := 1.
Definition BLE_SCAN_DURATION_FULL : Z := 3.
Definition BLE_SIGNAL_STRENGTH_THRESHOLD : Z := -80.
Definition BLE_RECONNECT_MAX_ATTEMPTS : Z := 12.
Definition PRESENCE_CONFIRM_TIME : Z := 6000.
Definition BLE_STATS_REPORT_INTERVAL : Z := 60000.
Definition MQTT_MAX_PACKET_SIZE : Z := 1024.

(** *** Simple offline message queue *)

Module OfflineQueue.

Record SimpleMessage : Set := {
  topic : list byte;        (* char topic[64] *)
  payload : list byte;      (* char payload[512] *)
  timestamp : Z;
  retry_count : Z;
  is_response : bool
}.

Definition set_retry_count (v : Z) (m : SimpleMessage) : SimpleMessage :=
  Build_SimpleMessage (topic m) (payload m) (timestamp m) v (is_response m).

Definition blank_message : SimpleMessage :=
  Build_SimpleMessage (replicate 64%nat NUL) (replicate 512%nat NUL) 0 0 false.

(** The answers of [mqttClient] and of the clock during one call;
    [client_state_after] is the state read once a publish has failed. *)
Record Driver : Type := {
  millis : Z;
  client_connected : bool;          (* mqttClient.connected() *)
  client_state : Z;                 (* mqttClient.state() *)
  client_publish : list byte -> list byte -> bool -> bool;
  client_state_after : Z
}.

(** The globals the queue functions read and write. *)
Record t : Type := {
  messageQueue : list SimpleMessage;   (* SimpleMessage[10] *)
  queueCount : Z;
  systemOnline : bool;
  wifiConnected : bool;
  mqttConnected : bool
}.

Definition set_messageQueue (v : list SimpleMessage) (q : t) : t :=
  Build_t v (queueCount q) (systemOnline q) (wifiConnected q)
    (mqttConnected q).
Definition set_queueCount (v : Z) (q : t) : t :=
  Build_t (messageQueue q) v (systemOnline q) (wifiConnected q)
    (mqttConnected q).
Definition set_systemOnline (v : bool) (q : t) : t :=
  Build_t (messageQueue q) (queueCount q) v (wifiConnected q)
    (mqttConnected q).
Definition set_wifiConnected (v : bool) (q : t) : t :=
  Build_t (messageQueue q) (queueCount q) (systemOnline q) v
    (mqttConnected q).
Definition set_mqttConnected (v : bool) (q : t) : t :=
  Build_t (messageQueue q) (queueCount q) (systemOnline q)
    (wifiConnected q) v.

(** [initOfflineQueue] on zero-initialised globals. *)
Definition initOfflineQueue : t :=
  Build_t (replicate 10%nat blank_message) 0 false false false.

Definition slot (q : t) (i : Z) : SimpleMessage :=
  default blank_message (messageQueue q !! Z.to_nat i).

(** The live entries, head first. *)
Definition pending (q : t) : list SimpleMessage :=
  take (Z.to_nat (queueCount q)) (messageQueue q).

(** [isMqttReallyConnected]. *)
Definition isMqttReallyConnected (d : Driver) : bool :=
  client_connected d && (client_state d =? 0).

(** [queueMessage] of the sketch. *)
Definition queueMessage (d : Driver) (topic_in payload_in : list byte)
    (isResponse : bool) (q : t) : bool * t :=
  let q :=
    if 10 <=? queueCount q then
      set_queueCount 9 (set_messageQueue (shift_queue (messageQueue q) 9) q)
    else q in
  let old := slot q (queueCount q) in
  let msg :=
    {| topic := poke (strncpy (topic old) topic_in 63) 63 NUL;
       payload := poke (strncpy (payload old) payload_in 511) 511 NUL;
       timestamp := millis d;
       retry_count := 0;
       is_response := isResponse |} in
  let q := set_messageQueue
             (<[Z.to_nat (queueCount q) := msg]> (messageQueue q)) q in
  (true, set_queueCount (int_incr (queueCount q)) q).

(** Remove the head entry by shifting (lines 196-199 and 223-226). *)
Definition remove_head (q : t) : t :=
  let q := set_messageQueue
             (shift_queue (messageQueue q) (queueCount q - 1)) q in
  set_queueCount (int_decr (queueCount q)) q.

(** [processQueuedMessages]. *)
Definition processQueuedMessages (d : Driver) (q : t) : bool * t :=
  if negb (isMqttReallyConnected d) || (queueCount q =? 0) then (false, q)
  else
    let head := slot q 0 in
    let success :=
      client_publish d (c_str (topic head)) (c_str (payload head)) false in
    if success then (true, remove_head q)
    else
      let mqttState := client_state_after d in
      let head := set_retry_count (int_incr (retry_count head)) head in
      let q := set_messageQueue (<[0%nat := head]> (messageQueue q)) q in
      let q := if negb (mqttState =? 0) then set_mqttConnected false q
               else q in
      let q := if 3 <? retry_count head then remove_head q else q in
      (false, q).

(** The loop of [updateOfflineQueue]: at most [n] drains, stopping at
    the first one that returns false. *)
Fixpoint drain (d : Driver) (n : nat) (q : t) : t :=
  match n with
  | O => q
  | S k =>
      let (ok, q) := processQueuedMessages d q in
      if ok then drain d k q else q
  end.

(** [updateOfflineQueue]. *)
Definition updateOfflineQueue (d : Driver) (q : t) : t :=
  let q := set_systemOnline (wifiConnected q && isMqttReallyConnected d) q in
  if systemOnline q && (0 <? queueCount q) then
    drain d (Z.to_nat (Z.min 3 (queueCount q))) q
  else q.

(** [publishWithQueue]. *)
Definition publishWithQueue (d : Driver) (topic_in payload_in : list byte)
    (isResponse : bool) (q : t) : bool * t :=
  let payload_length := strlen payload_in in
  if MQTT_MAX_PACKET_SIZE - 50 <? payload_length then (false, q)
  else if isMqttReallyConnected d then
    let useRetained := negb isResponse in
    let success :=
      client_publish d (c_str topic_in) (c_str payload_in) useRetained in
    if success then (true, q)
    else
      let mqttState := client_state_after d in
      let q := if negb (mqttState =? 0) then set_mqttConnected false q
               else q in
      queueMessage d topic_in payload_in isResponse q
  else queueMessage d topic_in payload_in isResponse q.

End OfflineQueue.

(** *** Presence detector with grace period *)

Module BooleanPresenceDetector.

Definition CONFIRM_SCANS : Z := 2.
Definition CONFIRM_ABSENCE_SCANS : Z := 3.

Record t : Set := {
  currentPresence : bool;
  lastKnownPresence : bool;
  lastDetectionTime : Z;
  lastStateChange : Z;
  gracePeriodStartTime : Z;
  inGracePeriod : bool;
  gracePeriodAttempts : Z;
  consecutiveDetections : Z;
  consecutiveMisses : Z
}.

Definition set_currentPresence (v : bool) (pd : t) : t :=
  Build_t v (lastKnownPresence pd) (lastDetectionTime pd)
    (lastStateChange pd) (gracePeriodStartTime pd) (inGracePeriod pd)
    (gracePeriodAttempts pd) (consecutiveDetections pd)
    (consecutiveMisses pd).
Definition set_lastKnownPresence (v : bool) (pd : t) : t :=
  Build_t (currentPresence pd) v (lastDetectionTime pd)
    (lastStateChange pd) (gracePeriodStartTime pd) (inGracePeriod pd)
    (gracePeriodAttempts pd) (consecutiveDetections pd)
    (consecutiveMisses pd).
Definition set_lastDetectionTime (v : Z) (pd : t) : t :=
  Build_t (currentPresence pd) (lastKnownPresence pd) v
    (lastStateChange pd) (gracePeriodStartTime pd) (inGracePeriod pd)
    (gracePeriodAttempts pd) (consecutiveDetections pd)
    (consecutiveMisses pd).
Definition set_lastStateChange (v : Z) (pd : t) : t :=
  Build_t (currentPresence pd) (lastKnownPresence pd)
    (lastDetectionTime pd) v (gracePeriodStartTime pd) (inGracePeriod pd)
    (gracePeriodAttempts pd) (consecutiveDetections pd)
    (consecutiveMisses pd).
Definition set_gracePeriodStartTime (v : Z) (pd : t) : t :=
  Build_t (currentPresence pd) (lastKnownPresence pd)
    (lastDetectionTime pd) (lastStateChange pd) v (inGracePeriod pd)
    (gracePeriodAttempts pd) (consecutiveDetections pd)
    (consecutiveMisses pd).
Definition set_inGracePeriod (v : bool) (pd : t) : t :=
  Build_t (currentPresence pd) (lastKnownPresence pd)
    (lastDetectionTime pd) (lastStateChange pd) (gracePeriodStartTime pd)
    v (gracePeriodAttempts pd) (consecutiveDetections pd)
    (consecutiveMisses pd).
Definition set_gracePeriodAttempts (v : Z) (pd : t) : t :=
  Build_t (currentPresence pd) (lastKnownPresence pd)
    (lastDetectionTime pd) (lastStateChange pd) (gracePeriodStartTime pd)
    (inGracePeriod pd) v (consecutiveDetections pd)
    (consecutiveMisses pd).
Definition set_consecutiveDetections (v : Z) (pd : t) : t :=
  Build_t (currentPresence pd) (lastKnownPresence pd)
    (lastDetectionTime pd) (lastStateChange pd) (gracePeriodStartTime pd)
    (inGracePeriod pd) (gracePeriodAttempts pd) v (consecutiveMisses pd).
Definition set_consecutiveMisses (v : Z) (pd : t) : t :=
  Build_t (currentPresence pd) (lastKnownPresence pd)
    (lastDetectionTime pd) (lastStateChange pd) (gracePeriodStartTime pd)
    (inGracePeriod pd) (gracePeriodAttempts pd)
    (consecutiveDetections pd) v.

(** The in-class member initialisers. *)
Definition new : t := Build_t false false 0 0 0 false 0 0 0.

(** [getPresence]. *)
Definition getPresence (pd : t) : bool :=
  if inGracePeriod pd then lastKnownPresence pd else currentPresence pd.

Definition isInGracePeriod (pd : t) : bool := inGracePeriod pd.

(** [getGracePeriodRemaining] at clock reading [now]. *)
Definition getGracePeriodRemaining (now : Z) (pd : t) : Z :=
  if negb (inGracePeriod pd) then 0
  else
    let elapsed := ulong_sub now (gracePeriodStartTime pd) in
    if elapsed <? BLE_GRACE_PERIOD_MS
    then ulong_sub BLE_GRACE_PERIOD_MS elapsed else 0.

(** The calls a confirmed change makes out of the detector, with the
    presence [getPresence] reports at that moment. *)
Inductive Effect : Set :=
| PublishPresenceUpdate (present : bool)
| UpdateMainDisplay.

(** [updatePresenceStatus]. *)
Definition updatePresenceStatus (newPresence : bool) (now : Z) (pd : t)
    : t * list Effect :=
  if negb (Bool.eqb newPresence (currentPresence pd)) then
    let pd := set_currentPresence newPresence pd in
    let pd := set_lastStateChange now pd in
    let pd := set_consecutiveDetections 0 pd in
    let pd := set_consecutiveMisses 0 pd in
    (pd, [PublishPresenceUpdate (getPresence pd); UpdateMainDisplay])
  else (pd, []).

(** [startGracePeriod]. *)
Definition startGracePeriod (now : Z) (pd : t) : t :=
  let pd := set_inGracePeriod true pd in
  let pd := set_gracePeriodStartTime now pd in
  let pd := set_gracePeriodAttempts 0 pd in
  set_lastKnownPresence (currentPresence pd) pd.

(** [endGracePeriod]; [later] is the [millis()] read inside it. *)
Definition endGracePeriod (reconnected : bool) (later : Z) (pd : t)
    : t * list Effect :=
  let pd := set_inGracePeriod false pd in
  let pd := set_gracePeriodAttempts 0 pd in
  if reconnected then (pd, []) else updatePresenceStatus false later pd.

(** [updateGracePeriod]. *)
Definition updateGracePeriod (now later : Z) (pd : t) : t * list Effect :=
  let pd := set_gracePeriodAttempts (int_incr (gracePeriodAttempts pd)) pd in
  let elapsed := ulong_sub now (gracePeriodStartTime pd) in
  if (BLE_GRACE_PERIOD_MS <=? elapsed)
     || (BLE_RECONNECT_MAX_ATTEMPTS <=? gracePeriodAttempts pd)
  then endGracePeriod false later pd
  else (pd, []).

(** [checkBeacon]; [now] is the [millis()] read on entry. *)
Definition checkBeacon (beaconFound : bool) (rssi : Z) (now later : Z)
    (pd : t) : t * list Effect :=
  if beaconFound then
    let pd := set_lastDetectionTime now pd in
    let pd := set_consecutiveDetections
                (int_incr (consecutiveDetections pd)) pd in
    let pd := set_consecutiveMisses 0 pd in
    if negb (rssi =? 0) && (rssi <? BLE_SIGNAL_STRENGTH_THRESHOLD) then
      (pd, [])
    else
      let (pd, fx1) :=
        if inGracePeriod pd then endGracePeriod true later pd
        else (pd, []) in
      let (pd, fx2) :=
        if (CONFIRM_SCANS <=? consecutiveDetections pd)
           && negb (currentPresence pd)
        then updatePresenceStatus true now pd
        else (pd, []) in
      (pd, fx1 ++ fx2)
  else
    let pd := set_consecutiveMisses (int_incr (consecutiveMisses pd)) pd in
    let pd := set_consecutiveDetections 0 pd in
    if currentPresence pd
       && (CONFIRM_ABSENCE_SCANS <=? consecutiveMisses pd) then
      if negb (inGracePeriod pd) then (startGracePeriod now pd, [])
      else updateGracePeriod now later pd
    else if negb (currentPresence pd) then (set_inGracePeriod false pd, [])
    else (pd, []).

End BooleanPresenceDetector.

(** *** Adaptive scanner *)

Module AdaptiveBLEScanner.

Inductive ScanMode : Set := SEARCHING | MONITORING | VERIFYING.

#[global] Instance ScanMode_eq_dec : EqDecision ScanMode.
Proof. solve_decision. Defined.

Record ScanStats : Set := {
  totalScans : Z;
  successfulDetections : Z;
  gracePeriodActivations : Z;
  gracePeriodSuccesses : Z;
  timeInSearching : Z;
  timeInMonitoring : Z;
  timeInVerifying : Z;
  lastModeStart : Z
}.

(** [presenceDetectorPtr] is recorded as set or null; the detector it
    points to is the one global instance, passed alongside. *)
Record t : Set := {
  currentMode : ScanMode;
  lastScanTime : Z;
  modeChangeTime : Z;
  statsReportTime : Z;
  consecutiveDetections : Z;
  consecutiveMisses : Z;
  presenceDetectorPtr : bool;
  stats : ScanStats
}.

Definition set_totalScans (v : Z) (s : ScanStats) : ScanStats :=
  Build_ScanStats v (successfulDetections s) (gracePeriodActivations s)
    (gracePeriodSuccesses s) (timeInSearching s) (timeInMonitoring s)
    (timeInVerifying s) (lastModeStart s).
Definition set_successfulDetections (v : Z) (s : ScanStats) : ScanStats :=
  Build_ScanStats (totalScans s) v (gracePeriodActivations s)
    (gracePeriodSuccesses s) (timeInSearching s) (timeInMonitoring s)
    (timeInVerifying s) (lastModeStart s).
Definition set_gracePeriodActivations (v : Z) (s : ScanStats) : ScanStats :=
  Build_ScanStats (totalScans s) (successfulDetections s) v
    (gracePeriodSuccesses s) (timeInSearching s) (timeInMonitoring s)
    (timeInVerifying s) (lastModeStart s).
Definition set_gracePeriodSuccesses (v : Z) (s : ScanStats) : ScanStats :=
  Build_ScanStats (totalScans s) (successfulDetections s)
    (gracePeriodActivations s) v (timeInSearching s) (timeInMonitoring s)
    (timeInVerifying s) (lastModeStart s).
Definition set_timeInSearching (v : Z) (s : ScanStats) : ScanStats :=
  Build_ScanStats (totalScans s) (successfulDetections s)
    (gracePeriodActivations s) (gracePeriodSuccesses s) v
    (timeInMonitoring s) (timeInVerifying s) (lastModeStart s).
Definition set_timeInMonitoring (v : Z) (s : ScanStats) : ScanStats :=
  Build_ScanStats (totalScans s) (successfulDetections s)
    (gracePeriodActivations s) (gracePeriodSuccesses s)
    (timeInSearching s) v (timeInVerifying s) (lastModeStart s).
Definition set_timeInVerifying (v : Z) (s : ScanStats) : ScanStats :=
  Build_ScanStats (totalScans s) (successfulDetections s)
    (gracePeriodActivations s) (gracePeriodSuccesses s)
    (timeInSearching s) (timeInMonitoring s) v (lastModeStart s).
Definition set_lastModeStart (v : Z) (s : ScanStats) : ScanStats :=
  Build_ScanStats (totalScans s) (successfulDetections s)
    (gracePeriodActivations s) (gracePeriodSuccesses s)
    (timeInSearching s) (timeInMonitoring s) (timeInVerifying s) v.

Definition set_currentMode (v : ScanMode) (sc : t) : t :=
  Build_t v (lastScanTime sc) (modeChangeTime sc) (statsReportTime sc)
    (consecutiveDetections sc) (consecutiveMisses sc)
    (presenceDetectorPtr sc) (stats sc).
Definition set_lastScanTime (v : Z) (sc : t) : t :=
  Build_t (currentMode sc) v (modeChangeTime sc) (statsReportTime sc)
    (consecutiveDetections sc) (consecutiveMisses sc)
    (presenceDetectorPtr sc) (stats sc).
Definition set_modeChangeTime (v : Z) (sc : t) : t :=
  Build_t (currentMode sc) (lastScanTime sc) v (statsReportTime sc)
    (consecutiveDetections sc) (consecutiveMisses sc)
    (presenceDetectorPtr sc) (stats sc).
Definition set_statsReportTime (v : Z) (sc : t) : t :=
  Build_t (currentMode sc) (lastScanTime sc) (modeChangeTime sc) v
    (consecutiveDetections sc) (consecutiveMisses sc)
    (presenceDetectorPtr sc) (stats sc).
Definition set_consecutiveDetections (v : Z) (sc : t) : t :=
  Build_t (currentMode sc) (lastScanTime sc) (modeChangeTime sc)
    (statsReportTime sc) v (consecutiveMisses sc)
    (presenceDetectorPtr sc) (stats sc).
Definition set_consecutiveMisses (v : Z) (sc : t) : t :=
  Build_t (currentMode sc) (lastScanTime sc) (modeChangeTime sc)
    (statsReportTime sc) (consecutiveDetections sc) v
    (presenceDetectorPtr sc) (stats sc).
Definition set_presenceDetectorPtr (v : bool) (sc : t) : t :=
  Build_t (currentMode sc) (lastScanTime sc) (modeChangeTime sc)
    (statsReportTime sc) (consecutiveDetections sc)
    (consecutiveMisses sc) v (stats sc).
Definition set_stats (v : ScanStats) (sc : t) : t :=
  Build_t (currentMode sc) (lastScanTime sc) (modeChangeTime sc)
    (statsReportTime sc) (consecutiveDetections sc)
    (consecutiveMisses sc) (presenceDetectorPtr sc) v.

(** The in-class member initialisers. *)
Definition new : t :=
  Build_t SEARCHING 0 0 0 0 0 false (Build_ScanStats 0 0 0 0 0 0 0 0).

(** [init]. *)
Definition init (now : Z) (sc : t) : t :=
  let sc := set_presenceDetectorPtr true sc in
  let sc := set_currentMode SEARCHING sc in
  let sc := set_lastScanTime 0 sc in
  let sc := set_modeChangeTime now sc in
  let sc := set_statsReportTime now sc in
  set_stats (set_lastModeStart now (stats sc)) sc.

(** [getCurrentScanInterval]. *)
Definition getCurrentScanInterval (sc : t) (pd : BooleanPresenceDetector.t)
    : Z :=
  if presenceDetectorPtr sc && BooleanPresenceDetector.isInGracePeriod pd
  then BLE_RECONNECT_ATTEMPT_INTERVAL
  else match currentMode sc with
       | SEARCHING => BLE_SCAN_INTERVAL_SEARCHING
       | MONITORING => BLE_SCAN_INTERVAL_MONITORING
       | VERIFYING => BLE_SCAN_INTERVAL_VERIFICATION
       end.

(** [getCurrentScanDuration]. *)
Definition getCurrentScanDuration (sc : t) (pd : BooleanPresenceDetector.t)
    : Z :=
  if presenceDetectorPtr sc && BooleanPresenceDetector.isInGracePeriod pd
  then BLE_SCAN_DURATION_QUICK
  else match currentMode sc with
       | SEARCHING => BLE_SCAN_DURATION_FULL
       | MONITORING => BLE_SCAN_DURATION_QUICK
       | VERIFYING => BLE_SCAN_DURATION_QUICK
       end.

(** [updateStats]. *)
Definition updateStats (now : Z) (sc : t) : t :=
  let timeInMode := ulong_sub now (lastModeStart (stats sc)) in
  let st := stats sc in
  let st :=
    match currentMode sc with
    | SEARCHING =>
        set_timeInSearching (ulong_add (timeInSearching st) timeInMode) st
    | MONITORING =>
        set_timeInMonitoring (ulong_add (timeInMonitoring st) timeInMode) st
    | VERIFYING =>
        set_timeInVerifying (ulong_add (timeInVerifying st) timeInMode) st
    end in
  let sc := set_stats (set_lastModeStart now st) sc in
  if BLE_STATS_REPORT_INTERVAL <? ulong_sub now (statsReportTime sc)
  then set_statsReportTime now sc
  else sc.

(** [updateScanMode]. *)
Definition updateScanMode (beaconFound : bool) (now : Z) (sc : t) : t :=
  let newMode :=
    match currentMode sc with
    | SEARCHING =>
        if 2 <=? consecutiveDetections sc then VERIFYING else SEARCHING
    | MONITORING =>
        if 2 <=? consecutiveMisses sc then VERIFYING else MONITORING
    | VERIFYING =>
        if PRESENCE_CONFIRM_TIME <? ulong_sub now (modeChangeTime sc) then
          if consecutiveMisses sc <? consecutiveDetections sc
          then MONITORING else SEARCHING
        else VERIFYING
    end in
  if bool_decide (newMode <> currentMode sc) then
    let sc := updateStats now sc in
    let sc := set_currentMode newMode sc in
    let sc := set_modeChangeTime now sc in
    let sc := set_consecutiveDetections 0 sc in
    set_consecutiveMisses 0 sc
  else sc.

(** Lines 781-791 of [update]: book-keeping of one scan result. *)
Definition countScan (beaconFound : bool) (now : Z) (sc : t) : t :=
  let sc := set_lastScanTime now sc in
  let sc := set_stats (set_totalScans
                         (ulong_incr (totalScans (stats sc))) (stats sc)) sc in
  if beaconFound then
    let sc := set_stats (set_successfulDetections
                (ulong_incr (successfulDetections (stats sc))) (stats sc))
                sc in
    let sc := set_consecutiveDetections
                (int_incr (consecutiveDetections sc)) sc in
    set_consecutiveMisses 0 sc
  else
    let sc := set_consecutiveMisses (int_incr (consecutiveMisses sc)) sc in
    set_consecutiveDetections 0 sc.

(** Lines 781-795: the book-keeping, then the mode switch. *)
Definition recordScan (beaconFound : bool) (now : Z) (sc : t) : t :=
  updateScanMode beaconFound now (countScan beaconFound now sc).

(** [update].  [now] is the [millis()] read on entry, [beaconFound] the
    result of [performScan], [t_check] and [t_end] the clock readings
    inside the detector's [checkBeacon]. *)
Definition update (now : Z) (beaconFound : bool) (t_check t_end : Z)
    (sc : t) (pd : BooleanPresenceDetector.t)
    : t * BooleanPresenceDetector.t * list BooleanPresenceDetector.Effect :=
  if negb (presenceDetectorPtr sc) then (sc, pd, [])
  else
    let interval := getCurrentScanInterval sc pd in
    if ulong_sub now (lastScanTime sc) <? interval then (sc, pd, [])
    else
      let sc := updateStats now sc in
      let sc := recordScan beaconFound now sc in
      let (pd, fx) :=
        BooleanPresenceDetector.checkBeacon beaconFound 0 t_check t_end pd in
      (sc, pd, fx).

End AdaptiveBLEScanner.

(** *** Buttons *)

Module ButtonHandler.

Definition BUTTON_DEBOUNCE_DELAY : Z := 20.

(** The members of the handler and the two global flags it raises.  Pin
    levels are booleans, [true] for HIGH. *)
Record t : Set := {
  lastStateA : bool;
  lastStateB : bool;
  lastDebounceA : Z;
  lastDebounceB : Z;
  buttonAPressed : bool;
  buttonBPressed : bool
}.

Definition set_lastStateA (v : bool) (bh : t) : t :=
  Build_t v (lastStateB bh) (lastDebounceA bh) (lastDebounceB bh)
    (buttonAPressed bh) (buttonBPressed bh).
Definition set_lastStateB (v : bool) (bh : t) : t :=
  Build_t (lastStateA bh) v (lastDebounceA bh) (lastDebounceB bh)
    (buttonAPressed bh) (buttonBPressed bh).
Definition set_lastDebounceA (v : Z) (bh : t) : t :=
  Build_t (lastStateA bh) (lastStateB bh) v (lastDebounceB bh)
    (buttonAPressed bh) (buttonBPressed bh).
Definition set_lastDebounceB (v : Z) (bh : t) : t :=
  Build_t (lastStateA bh) (lastStateB bh) (lastDebounceA bh) v
    (buttonAPressed bh) (buttonBPressed bh).
Definition set_buttonAPressed (v : bool) (bh : t) : t :=
  Build_t (lastStateA bh) (lastStateB bh) (lastDebounceA bh)
    (lastDebounceB bh) v (buttonBPressed bh).
Definition set_buttonBPressed (v : bool) (bh : t) : t :=
  Build_t (lastStateA bh) (lastStateB bh) (lastDebounceA bh)
    (lastDebounceB bh) (buttonAPressed bh) v.

(** The pin levels and clock readings of one call of [update]: the
    levels read at lines 392 and 425, the [millis()] stored on a level
    change of either button, and the [currentTime] of line 407. *)
Record Driver : Set := {
  readingA : bool;
  readingB : bool;
  t_changeA : Z;
  currentTime : Z;
  t_changeB : Z
}.

(** The constructor, with the flags as the globals are initialised. *)
Definition new : t := Build_t true true 0 0 false false.

(** [update], without its periodic debug print. *)
Definition update (d : Driver) (bh : t) : t :=
  let bh :=
    if negb (Bool.eqb (readingA d) (lastStateA bh)) then
      let bh := set_lastDebounceA (t_changeA d) bh in
      if negb (readingA d) && lastStateA bh
      then set_buttonAPressed true bh else bh
    else bh in
  let debounceElapsed := ulong_sub (currentTime d) (lastDebounceA bh) in
  let bh :=
    if BUTTON_DEBOUNCE_DELAY <? debounceElapsed then
      if negb (readingA d) && lastStateA bh
      then set_buttonAPressed true bh else bh
    else bh in
  let bh := set_lastStateA (readingA d) bh in
  let bh :=
    if negb (Bool.eqb (readingB d) (lastStateB bh)) then
      let bh := set_lastDebounceB (t_changeB d) bh in
      if negb (readingB d) && lastStateB bh
      then set_buttonBPressed true bh else bh
    else bh in
  let debounceElapsedB := ulong_sub (currentTime d) (lastDebounceB bh) in
  let bh :=
    if BUTTON_DEBOUNCE_DELAY <? debounceElapsedB then
      if negb (readingB d) && lastStateB bh
      then set_buttonBPressed true bh else bh
    else bh in
  set_lastStateB (readingB d) bh.

(** [isButtonAPressed]. *)
Definition isButtonAPressed (bh : t) : bool * t :=
  if buttonAPressed bh then (true, set_buttonAPressed false bh)
  else (false, bh).

(** [isButtonBPressed]. *)
Definition isButtonBPressed (bh : t) : bool * t :=
  if buttonBPressed bh then (true, set_buttonBPressed false bh)
  else (false, bh).

End ButtonHandler.

(** *** The scanner as [loop] polls it *)

Module MainLoop.

(** The scanner, the detector and the [lastBLEScan] static of [loop]. *)
Record t : Set := {
  lastBLEScan : Z;
  adaptiveScanner : AdaptiveBLEScanner.t;
  presenceDetector : BooleanPresenceDetector.t
}.

(** The clock readings and the scan result of one pass: [millis()] in
    the test of line 2053, the readings and result inside
    [adaptiveScanner.update()], and [millis()] at line 2055. *)
Record Pass : Set := {
  t_gate : Z;
  t_update : Z;
  beaconFound : bool;
  t_check : Z;
  t_end : Z;
  t_after : Z
}.

(** Lines 2052-2056 of [loop]. *)
Definition pollScanner (c : Pass) (st : t)
    : t * list BooleanPresenceDetector.Effect :=
  if 8000 <? ulong_sub (t_gate c) (lastBLEScan st) then
    let '(sc, pd, fx) :=
      AdaptiveBLEScanner.update (t_update c) (beaconFound c) (t_check c)
        (t_end c) (adaptiveScanner st) (presenceDetector st) in
    (Build_t (t_after c) sc pd, fx)
  else (st, []).

End MainLoop.

End Sketch.

(* ===================================================================== *)
(** ** Well-formed states and runs *)
(* ===================================================================== *)

(** Shape invariants of the manager's queue and repeated calls into it. *)
Module ManagerRuns.
Import NetworkManager.

(** A slot whose buffers have their declared sizes. *)
Definition slot_ok (m : QueuedMessage) : Prop :=
  length (topic m) = TOPIC_SIZE /\ length (payload m) = PAYLOAD_SIZE.

(** The array has [MAX_QUEUE_SIZE] well-sized slots and the fill count
    is within it. *)
Definition queue_ok (nm : t) : Prop :=
  length (_message_queue nm) = Z.to_nat MAX_QUEUE_SIZE
  /\ 0 <= _message_queue_size nm <= MAX_QUEUE_SIZE
  /\ Forall slot_ok (_message_queue nm).

(** One call of [queueMessage] with the driver answers of its moment. *)
Record Request : Type := {
  req_driver : Driver;
  req_topic : list byte;
  req_payload : list byte;
  req_retained : bool;
  req_qos : Z
}.

Definition enqueue (nm : t) (r : Request) : t :=
  snd (queueMessage (req_driver r) (req_topic r) (req_payload r)
         (req_retained r) (req_qos r) nm).

Definition enqueue_all (nm : t) (rs : list Request) : t :=
  fold_left enqueue rs nm.

(** [n] calls of [processMessageQueue] in a row. *)
Fixpoint drains (d : Driver) (n : nat) (nm : t) : t :=
  match n with
  | O => nm
  | S k => drains d k (processMessageQueue d nm)
  end.

(** [buildNetworkConfig] of [config_robust.h]. *)
Definition buildNetworkConfig : NetworkConfig :=
  {| wifi_timeout_ms := 30000;
     wifi_retry_interval_ms := 10000;
     wifi_max_retries := 5;
     mqtt_timeout_ms := 15000;
     mqtt_retry_interval_ms := 8000;
     mqtt_max_retries := 3;
     enable_diagnostics := true;
     enable_watchdog := true;
     health_check_interval_ms := 30000 |}.

(** Driver answers at clock reading [now] with link and session up and a
    broker that accepts, or refuses, every publish. *)
Definition online (now : Z) (accepts : bool) : Driver :=
  {| millis := now;
     wifi_status := WL_CONNECTED;
     wifi_RSSI := -60;
     client_connected := true;
     client_connect := true;
     client_state := 0;
     client_publish := fun _ _ _ => accepts;
     random := fun lo _ => lo |}.

(** Driver answers at [now] with the access point gone. *)
Definition link_lost (now : Z) : Driver :=
  {| millis := now;
     wifi_status := WL_CONNECTION_LOST;
     wifi_RSSI := -100;
     client_connected := false;
     client_connect := false;
     client_state := -3;
     client_publish := fun _ _ _ => false;
     random := fun lo _ => lo |}.

(** A manager whose link and session are both up. *)
Definition connected_manager : t :=
  set_mqtt_state MQTT_CONNECTED
    (set_wifi_state WIFI_CONNECTED (new buildNetworkConfig)).

(** The bytes of "status/1" and of "{}". *)
Definition topic_status : list byte :=
  [x73; x74; x61; x74; x75; x73; x2f; x31].
Definition payload_empty : list byte := [x7b; x7d].

Definition request_at (now : Z) : Request :=
  Build_Request (online now true) topic_status payload_empty true 0.

(** The connected manager after one message was queued at clock
    reading 1. *)
Definition one_queued : t := enqueue connected_manager (request_at 1).

(** The driver refuses the head entry. *)
Definition head_refused (d : Driver) (nm : t) : Prop :=
  client_publish d (c_str (topic (slot nm 0))) (c_str (payload (slot nm 0)))
    (retained (slot nm 0)) = false.

End ManagerRuns.

(** The same for the sketch's own queue. *)
Module SketchRuns.
Import Sketch.OfflineQueue.

Definition slot_ok (m : SimpleMessage) : Prop :=
  length (topic m) = 64%nat /\ length (payload m) = 512%nat.

Definition queue_ok (q : t) : Prop :=
  length (messageQueue q) = 10%nat
  /\ 0 <= queueCount q <= 10
  /\ Forall slot_ok (messageQueue q).

(** [n] calls of [processQueuedMessages] in a row. *)
Fixpoint drains (d : Driver) (n : nat) (q : t) : t :=
  match n with
  | O => q
  | S k => drains d k (snd (processQueuedMessages d q))
  end.

Definition head_refused (d : Driver) (q : t) : Prop :=
  client_publish d (c_str (topic (slot q 0))) (c_str (payload (slot q 0)))
    false = false.

(** Client answers at [now] with the session up and a broker that
    accepts, or refuses, every publish. *)
Definition online (now : Z) (accepts : bool) : Driver :=
  {| millis := now;
     client_connected := true;
     client_state := 0;
     client_publish := fun _ _ _ => accepts;
     client_state_after := if accepts then 0 else -3 |}.

(** The queue after one response was queued at clock reading 1. *)
Definition one_queued : t :=
  snd (queueMessage (online 1 false) ManagerRuns.topic_status
         ManagerRuns.payload_empty true initOfflineQueue).

End SketchRuns.

(** Scan outcomes fed to the presence detector. *)
Module DetectorRuns.
Import Sketch Sketch.BooleanPresenceDetector.

(** One call of [checkBeacon]: its arguments and the two clock readings. *)
Record Scan : Set := {
  found : bool;
  rssi : Z;
  t_now : Z;
  t_later : Z
}.

Definition observe (pd : t) (s : Scan) : t :=
  fst (checkBeacon (found s) (rssi s) (t_now s) (t_later s) pd).

Definition effects_of (pd : t) (s : Scan) : list Effect :=
  snd (checkBeacon (found s) (rssi s) (t_now s) (t_later s) pd).

(** The detector after a sequence of scans, oldest first. *)
Definition feed (pd : t) (scans : list Scan) : t := fold_left observe scans pd.

(** All the effects fired along a sequence of scans. *)
Fixpoint feed_effects (pd : t) (scans : list Scan) : list Effect :=
  match scans with
  | [] => []
  | s :: rest => effects_of pd s ++ feed_effects (observe pd s) rest
  end.

(** Length of the run of outcomes equal to [b] that ends the sequence. *)
Definition run_length (b : bool) (scans : list Scan) : nat :=
  fold_left (fun n s => if Bool.eqb (found s) b then S n else O) scans O.

(** A found result passes the signal filter of [checkBeacon]. *)
Definition accepted (r : Z) : bool :=
  (r =? 0) || (BLE_SIGNAL_STRENGTH_THRESHOLD <=? r).

(** The grace period of a detector is over at clock reading [now] on its
    next attempt: the test of [updateGracePeriod]. *)
Definition expires (pd : t) (now : Z) : bool :=
  (BLE_GRACE_PERIOD_MS <=? ulong_sub now (gracePeriodStartTime pd))
  || (BLE_RECONNECT_MAX_ATTEMPTS <=? int_incr (gracePeriodAttempts pd)).

Definition hit (now : Z) : Scan := Build_Scan true 0 now now.
Definition weak_hit (now : Z) : Scan := Build_Scan true (-90) now now.
Definition miss (now : Z) : Scan := Build_Scan false 0 now now.

(** Two detections, then three misses: the detector is present and its
    grace period has just started, at clock reading 4000. *)
Definition grace_just_started : t :=
  feed new [hit 0; hit 1000; miss 2000; miss 3000; miss 4000].

End DetectorRuns.

(** Scan outcomes fed to the adaptive scanner. *)
Module ScannerRuns.
Import Sketch Sketch.AdaptiveBLEScanner.

(** The scanner after a sequence of scans (outcome, clock reading). *)
Definition scans (sc : t) (l : list (bool * Z)) : t :=
  fold_left (fun sc x => recordScan (fst x) (snd x) sc) l sc.

(** The mode is [m] before every scan of the sequence and after the last:
    no mode switch happens along it. *)
Fixpoint stays (m : ScanMode) (sc : t) (l : list (bool * Z)) : Prop :=
  match l with
  | [] => currentMode sc = m
  | x :: rest =>
      currentMode sc = m /\ stays m (recordScan (fst x) (snd x) sc) rest
  end.

(** Length of the run of outcomes equal to [b] that ends the sequence. *)
Definition run_length (b : bool) (l : list (bool * Z)) : nat :=
  fold_left (fun n x => if Bool.eqb (fst x) b then S n else O) l O.

End ScannerRuns.

(** What the further properties observe of the manager: queue contents,
    published messages and the moves of the two state machines. *)
Module ManagerObservations.
Import NetworkManager ManagerRuns.

(** What a queued entry will hand to the driver. *)
Definition content (m : QueuedMessage) : list byte * list byte * bool :=
  (c_str (topic m), c_str (payload m), retained m).

(** What a request leaves in the queue: its strings cut to buffer size. *)
Definition truncated (r : Request) : list byte * list byte * bool :=
  (take 127 (c_str (req_topic r)), take 511 (c_str (req_payload r)),
   req_retained r).

(** The trace entry of an accepted publish of a queued entry. *)
Definition sent (m : QueuedMessage) : Event :=
  Publish (c_str (topic m)) (c_str (payload m)) (retained m) true.

(** The broker takes every message. *)
Definition accepts_all (d : Driver) : Prop :=
  forall t p r, client_publish d t p r = true.

(** The manager after the statistics update of a sequence of ticks. *)
Definition stat_ticks (nm : t) (ds : list Driver) : t :=
  fold_left (fun nm d => updateStats d nm) ds nm.

(** The sum of the times since the link came up, over the ticks. *)
Definition elapsed_sum (connect_time : Z) (ds : list Driver) : Z :=
  fold_right Z.add 0 (map (fun d => millis d - connect_time) ds).

(** The arrows of the link state machine, and staying put. *)
Definition wifi_moves (a b : WiFiState) : bool :=
  match a, b with
  | WIFI_CONNECTING, (WIFI_CONNECTED | WIFI_RECONNECTING) => true
  | WIFI_CONNECTED, WIFI_RECONNECTING => true
  | WIFI_RECONNECTING, (WIFI_CONNECTING | WIFI_FAILED) => true
  | WIFI_FAILED, WIFI_RECONNECTING => true
  | _, _ => bool_decide (a = b)
  end.

(** The arrows of the session state machine while the link is up, and
    staying put. *)
Definition mqtt_moves (a b : MQTTState) : bool :=
  match a, b with
  | MQTT_IDLE, (MQTT_CONNECTED | MQTT_RECONNECTING) => true
  | MQTT_CONNECTING, (MQTT_CONNECTED | MQTT_RECONNECTING) => true
  | MQTT_CONNECTED, MQTT_RECONNECTING => true
  | MQTT_RECONNECTING, (MQTT_CONNECTED | MQTT_FAILED) => true
  | MQTT_FAILED, MQTT_RECONNECTING => true
  | _, _ => bool_decide (a = b)
  end.

End ManagerObservations.

(** What the further properties observe of the sketch's queue. *)
Module SketchObservations.
Import Sketch.OfflineQueue.

(** What a queued entry holds for the driver, and its kind. *)
Definition content (m : SimpleMessage) : list byte * list byte * bool :=
  (c_str (topic m), c_str (payload m), is_response m).

(** The broker takes every publish without the retained flag. *)
Definition accepts_all (d : Driver) : Prop :=
  forall t p, client_publish d t p false = true.

End SketchObservations.

(** What the further properties observe of the presence detector. *)
Module DetectorObservations.
Import Sketch Sketch.BooleanPresenceDetector DetectorRuns.

(** How the fields of the detector hang together: a grace period is
    open only for a present detector whose remembered presence is true,
    attempts are counted only inside it and stay below the maximum, and
    a present detector has a small miss counter. *)
Definition coherent (pd : t) : Prop :=
  (inGracePeriod pd = true ->
     currentPresence pd = true /\ lastKnownPresence pd = true)
  /\ (inGracePeriod pd = false -> gracePeriodAttempts pd = 0)
  /\ 0 <= gracePeriodAttempts pd < BLE_RECONNECT_MAX_ATTEMPTS
  /\ (currentPresence pd = true ->
      0 <= consecutiveMisses pd
      /\ consecutiveMisses pd
         <= if inGracePeriod pd then 3 + gracePeriodAttempts pd else 2).

(** The number of further misses a present detector can take at most
    before presence is withdrawn. *)
Definition misses_left (pd : t) : Z :=
  if currentPresence pd then
    if inGracePeriod pd
    then Z.max 0 (2 - consecutiveMisses pd)
         + (BLE_RECONNECT_MAX_ATTEMPTS - gracePeriodAttempts pd)
    else (3 - consecutiveMisses pd) + BLE_RECONNECT_MAX_ATTEMPTS
  else 0.

(** The effects a scan must fire, judged by the visible presence before
    and after it. *)
Definition expected_effects (before after : bool) : list Effect :=
  if Bool.eqb before after then []
  else [PublishPresenceUpdate after; UpdateMainDisplay].

End DetectorObservations.

(** What the further properties observe of the scanner, the buttons and
    the polling of the main loop. *)
Module ScannerObservations.
Import Sketch Sketch.AdaptiveBLEScanner.

(** One call of [update]: its clock reading, the scan result and the
    clock readings inside the detector. *)
Record Tick : Set := {
  now : Z;
  found : bool;
  t_check : Z;
  t_end : Z
}.

Definition step (x : t * BooleanPresenceDetector.t) (k : Tick)
    : t * BooleanPresenceDetector.t :=
  fst (update (now k) (found k) (t_check k) (t_end k) (fst x) (snd x)).

(** Scanner and detector after a sequence of calls of [update]. *)
Definition run (x : t * BooleanPresenceDetector.t) (ticks : list Tick)
    : t * BooleanPresenceDetector.t :=
  fold_left step ticks x.

(** The time the three mode counters account for, as an [unsigned long]. *)
Definition accounted (st : ScanStats) : Z :=
  wrap_ulong (timeInSearching st + timeInMonitoring st + timeInVerifying st).

End ScannerObservations.

Module ButtonObservations.
Import Sketch.ButtonHandler.

(** One round of the button loop for button A: [update], then
    [isButtonAPressed]. *)
Definition pollA (d : Driver) (bh : t) : bool * t :=
  isButtonAPressed (update d bh).

(** The answers of [isButtonAPressed] along a sequence of rounds. *)
Fixpoint pollsA (ds : list Driver) (bh : t) : list bool :=
  match ds with
  | [] => []
  | d :: rest => fst (pollA d bh) :: pollsA rest (snd (pollA d bh))
  end.

(** For each level of a sequence, whether it is LOW right after HIGH,
    [prev] being the level before the first. *)
Fixpoint falling_edges (prev : bool) (levels : list bool) : list bool :=
  match levels with
  | [] => []
  | l :: rest => (prev && negb l) :: falling_edges l rest
  end.

End ButtonObservations.

(** Runs of the scanner polling of the main loop. *)
Module LoopObservations.
Import Sketch Sketch.MainLoop.

(** The state [loop] starts from, [setup] having called [init] at clock
    reading [t0]. *)
Definition initial (t0 : Z) : t :=
  Build_t 0 (AdaptiveBLEScanner.init t0 AdaptiveBLEScanner.new)
    BooleanPresenceDetector.new.

(** The passes of a run read a clock that does not go back and has not
    wrapped; [prev] is the last reading before the first pass. *)
Fixpoint ordered (prev : Z) (cs : list Pass) : Prop :=
  match cs with
  | [] => True
  | c :: rest =>
      prev <= t_gate c /\ t_gate c <= t_update c
      /\ t_update c <= t_after c < 4294967296
      /\ ordered (t_after c) rest
  end.

(** The state after a sequence of passes. *)
Definition polls (st : t) (cs : list Pass) : t :=
  fold_left (fun st c => fst (pollScanner c st)) cs st.

(** What holds of the loop state between passes, [last] being the latest
    clock reading: the last scan was stamped no later than the last poll,
    and a scanner that is Verifying has just entered that mode. *)
Definition settled (last : Z) (st : t) : Prop :=
  let sc := adaptiveScanner st in
  AdaptiveBLEScanner.presenceDetectorPtr sc = true
  /\ 0 <= AdaptiveBLEScanner.lastScanTime sc <= lastBLEScan st
  /\ lastBLEScan st <= last
  /\ (AdaptiveBLEScanner.currentMode sc = AdaptiveBLEScanner.VERIFYING ->
      AdaptiveBLEScanner.consecutiveDetections sc = 0
      /\ AdaptiveBLEScanner.consecutiveMisses sc = 0
      /\ AdaptiveBLEScanner.modeChangeTime sc
         = AdaptiveBLEScanner.lastScanTime sc).

End LoopObservations.

(* ===================================================================== *)
(** * Properties *)
(* ===================================================================== *)

Lemma wrap_int_id z : INT_MIN <= z <= INT_MAX -> wrap_int z = z.
Proof.
  unfold wrap_int, INT_MIN, INT_MAX. intros H.
  rewrite Z.mod_small by lia. lia.
Qed.

Lemma wrap_int_range z : INT_MIN <= wrap_int z <= INT_MAX.
Proof.
  unfold wrap_int, INT_MIN, INT_MAX.
  pose proof (Z.mod_pos_bound (z + 2147483648) 4294967296 ltac:(lia)). lia.
Qed.

Lemma wrap_ulong_id z : 0 <= z < 4294967296 -> wrap_ulong z = z.
Proof. unfold wrap_ulong. intros H. now rewrite Z.mod_small. Qed.

Lemma wrap_ulong_range z : 0 <= wrap_ulong z < 4294967296.
Proof. unfold wrap_ulong. apply Z.mod_pos_bound. lia. Qed.

(** *** Backoff *)

Section Backoff.
Import NetworkManager.

(** The power of two of line 617 for an in-range exponent. *)
Lemma shl_one_small k : 0 <= k <= 6 -> int_shl 1 k = 2 ^ k.
Proof.
  intros Hk. unfold int_shl. rewrite Z.shiftl_1_l.
  apply wrap_int_id. unfold INT_MIN, INT_MAX.
  assert (2 ^ k <= 2 ^ 6) by (apply Z.pow_le_mono_r; lia).
  assert (0 < 2 ^ k) by (apply Z.pow_pos_nonneg; lia).
  change (2 ^ 6) with 64 in *. lia.
Qed.

Lemma cappedDelay_eq b r m :
  0 < b -> 0 <= r -> 64 * b <= INT_MAX ->
  cappedDelay b r m = Z.min (b * 2 ^ Z.min r 6) m.
Proof.
  intros Hb Hr Hov. unfold cappedDelay. cbv zeta.
  rewrite shl_one_small by lia.
  unfold int_mul. rewrite wrap_int_id; [reflexivity|].
  assert (2 ^ Z.min r 6 <= 2 ^ 6) by (apply Z.pow_le_mono_r; lia).
  assert (0 < 2 ^ Z.min r 6) by (apply Z.pow_pos_nonneg; lia).
  change (2 ^ 6) with 64 in *. unfold INT_MIN, INT_MAX in *. nia.
Qed.

Lemma cappedDelay_range b r m :
  0 < b -> b <= m -> 0 <= r -> 64 * b <= INT_MAX ->
  b <= cappedDelay b r m <= m.
Proof.
  intros Hb Hm Hr Hov. rewrite cappedDelay_eq by assumption.
  assert (0 < 2 ^ Z.min r 6) by (apply Z.pow_pos_nonneg; lia).
  split; [apply Z.min_glb; nia | apply Z.le_min_r].
Qed.

Lemma cappedDelay_mono b r r' m :
  0 < b -> 0 <= r -> r <= r' -> 64 * b <= INT_MAX ->
  cappedDelay b r m <= cappedDelay b r' m.
Proof.
  intros Hb Hr Hrr Hov. rewrite !cappedDelay_eq by lia.
  apply Z.min_le_compat_r.
  apply Z.mul_le_mono_nonneg_l; [lia|].
  apply Z.pow_le_mono_r; lia.
Qed.

Lemma cappedDelay_capped b r m :
  0 < b -> 6 <= r -> 64 * b <= INT_MAX ->
  cappedDelay b r m = Z.min (64 * b) m.
Proof.
  intros Hb Hr Hov. rewrite cappedDelay_eq by lia.
  rewrite (Z.min_r r 6) by lia. change (2 ^ 6) with 64. f_equal. lia.
Qed.

Lemma jitterOf_eq d : 0 <= d -> 10 * d <= INT_MAX -> jitterOf d = d / 10.
Proof.
  intros Hd Hov. unfold jitterOf, int_div, int_mul.
  rewrite (wrap_int_id (d * 10)) by (unfold INT_MIN, INT_MAX in *; lia).
  rewrite Z.quot_div_nonneg by lia.
  assert (d * 10 / 100 = d / 10) as ->.
  { change 100 with (10 * 10). apply Z.div_mul_cancel_r; lia. }
  apply wrap_int_id.
  assert (0 <= d / 10) by (apply Z.div_pos; lia).
  assert (d / 10 <= d) by (apply Z.div_le_upper_bound; lia).
  unfold INT_MIN, INT_MAX in *. lia.
Qed.

Variable random : Z -> Z -> Z.
Hypothesis random_range : forall lo hi, lo < hi -> lo <= random lo hi < hi.

(** With no overflow, the returned delay is the capped delay plus a draw
    of at most a tenth of it, floored at the base. *)
Lemma calculateBackoffDelay_eq b r m :
  0 < b -> b <= m -> 0 <= r -> 64 * b <= INT_MAX -> 10 * m <= INT_MAX ->
  let d := cappedDelay b r m in
  exists j, - (d / 10) <= j <= d / 10 /\
            calculateBackoffDelay random b r m = Z.max (d + j) b.
Proof.
  intros Hb Hm Hr Hov Hov' d.
  pose proof (cappedDelay_range b r m Hb Hm Hr Hov) as Hd. fold d in Hd.
  assert (0 <= d / 10 <= d) as Hq.
  { split; [apply Z.div_pos; lia | apply Z.div_le_upper_bound; lia]. }
  unfold calculateBackoffDelay. cbv zeta. fold d.
  rewrite jitterOf_eq by lia.
  unfold int_neg, int_add.
  rewrite (wrap_int_id (- (d / 10))) by (unfold INT_MIN, INT_MAX in *; lia).
  rewrite (wrap_int_id (d / 10 + 1)) by (unfold INT_MIN, INT_MAX in *; lia).
  pose proof (random_range (- (d / 10)) (d / 10 + 1) ltac:(lia)) as Hj.
  exists (random (- (d / 10)) (d / 10 + 1)). split; [lia|].
  rewrite wrap_int_id by (unfold INT_MIN, INT_MAX in *; lia). reflexivity.
Qed.

(** The same with the draw named: the jitter is the driver's draw from
    [[-(d / 10), d / 10]], [d] being the capped delay. *)
Lemma calculateBackoffDelay_draw b r m :
  0 < b -> b <= m -> 0 <= r -> 64 * b <= INT_MAX -> 10 * m <= INT_MAX ->
  let d := cappedDelay b r m in
  let j := random (- (d / 10)) (d / 10 + 1) in
  - (d / 10) <= j <= d / 10
  /\ calculateBackoffDelay random b r m = Z.max (d + j) b.
Proof.
  intros Hb Hm Hr Hov Hov' d j.
  pose proof (cappedDelay_range b r m Hb Hm Hr Hov) as Hd. fold d in Hd.
  assert (0 <= d / 10 <= d) as Hq.
  { split; [apply Z.div_pos; lia | apply Z.div_le_upper_bound; lia]. }
  pose proof (random_range (- (d / 10)) (d / 10 + 1) ltac:(lia)) as Hj.
  fold j in Hj. split; [lia|].
  unfold calculateBackoffDelay. cbv zeta. fold d.
  rewrite jitterOf_eq by lia.
  unfold int_neg, int_add.
  rewrite (wrap_int_id (- (d / 10))) by (unfold INT_MIN, INT_MAX in *; lia).
  rewrite (wrap_int_id (d / 10 + 1)) by (unfold INT_MIN, INT_MAX in *; lia).
  fold j.
  rewrite wrap_int_id by (unfold INT_MIN, INT_MAX in *; lia). reflexivity.
Qed.

(** C1 (as amended).  For a base interval [b > 0], a maximum [m >= b] and
    a retry count [r >= 0] in the range where the 32-bit arithmetic does
    not overflow: the delay before jitter is [min (b * 2^min(r,6)) m], lies
    in [[b, m]], is non-decreasing in the retry count and, from retry
    count 6 on, is the constant [min (64 b) m] (which is [m] when
    [64 b >= m]); the delay returned is exactly that value plus the jitter
    draw, floored at [b], the draw being the driver's draw from
    [[-(d / 10), d / 10]]; so it lies within a tenth of the capped delay
    on either side (and not below [b]), and in [[b, m + m / 10]]. *)
Theorem backoff_delay_bounds b r m :
  0 < b -> b <= m -> 0 <= r -> 64 * b <= INT_MAX -> 10 * m <= INT_MAX ->
  let d := cappedDelay b r m in
  let j := random (- (d / 10)) (d / 10 + 1) in
  let delay := calculateBackoffDelay random b r m in
  d = Z.min (b * 2 ^ Z.min r 6) m
  /\ b <= d <= m
  /\ (forall r', r <= r' -> d <= cappedDelay b r' m)
  /\ (6 <= r -> d = Z.min (64 * b) m)
  /\ (6 <= r -> m <= 64 * b -> d = m)
  /\ - (d / 10) <= j <= d / 10
  /\ delay = Z.max (d + j) b
  /\ Z.max (d - d / 10) b <= delay <= d + d / 10
  /\ b <= delay <= m + m / 10.
Proof.
  intros Hb Hm Hr Hov Hov' d j delay.
  pose proof (cappedDelay_range b r m Hb Hm Hr Hov) as Hd. fold d in Hd.
  destruct (calculateBackoffDelay_draw b r m Hb Hm Hr Hov Hov') as (Hj & E).
  fold d in Hj, E. fold j in Hj, E. fold delay in E.
  assert (0 <= d / 10) by (apply Z.div_pos; lia).
  assert (d / 10 <= m / 10) by (apply Z.div_le_mono; lia).
  split; [apply cappedDelay_eq; assumption|].
  split; [exact Hd|].
  split; [intros r' Hr'; apply cappedDelay_mono; assumption|].
  split; [intros H6; apply cappedDelay_capped; assumption|].
  split; [intros H6 Hcap; unfold d;
          rewrite cappedDelay_capped by assumption; lia|].
  split; [exact Hj|]. split; [exact E|]. split; lia.
Qed.

End Backoff.

Lemma backoff_delay_bounds_witness :
  let random := fun lo _ : Z => lo in
  let d := NetworkManager.cappedDelay 5000 3 60000 in
  let j := random (- (d / 10)) (d / 10 + 1) in
  let delay := NetworkManager.calculateBackoffDelay random 5000 3 60000 in
  d = Z.min (5000 * 2 ^ Z.min 3 6) 60000
  /\ 5000 <= d <= 60000
  /\ (forall r', 3 <= r' -> d <= NetworkManager.cappedDelay 5000 r' 60000)
  /\ (6 <= 3 -> d = Z.min (64 * 5000) 60000)
  /\ (6 <= 3 -> 60000 <= 64 * 5000 -> d = 60000)
  /\ - (d / 10) <= j <= d / 10
  /\ delay = Z.max (d + j) 5000
  /\ Z.max (d - d / 10) 5000 <= delay <= d + d / 10
  /\ 5000 <= delay <= 60000 + 60000 / 10.
Proof.
  apply (backoff_delay_bounds (fun lo _ => lo)).
  - intros lo hi H. lia.
  - lia.
  - lia.
  - lia.
  - unfold INT_MAX. lia.
  - unfold INT_MAX. lia.
Defined.

(** C1 as stated fails: with the configured session retry interval of
    8000 ms, the default maximum of 60000 ms and retry count 6, the largest
    jitter draw gives 66000 ms, above the maximum. *)
Lemma backoff_delay_exceeds_max :
  ~ (forall random : Z -> Z -> Z,
        (forall lo hi, lo < hi -> lo <= random lo hi < hi) ->
        forall b m r, 0 < b -> b <= m -> 0 <= r ->
          b <= NetworkManager.calculateBackoffDelay random b r m <= m
          /\ (6 <= r -> NetworkManager.calculateBackoffDelay random b r m = m)).
Proof.
  intros H.
  specialize (H (fun _ hi => hi - 1) ltac:(intros; cbv beta; lia) 8000 60000 6
                ltac:(lia) ltac:(lia) ltac:(lia)).
  vm_compute in H. destruct H as [[_ H] _]. apply H. reflexivity.
Qed.

Example backoff_above_max :
  NetworkManager.calculateBackoffDelay (fun _ hi => hi - 1) 8000 6
    NetworkManager.DEFAULT_MAX_DELAY = 66000.
Proof. reflexivity. Qed.

(** The returned delay is not monotone in the retry count: with a base
    of 5000 ms and a maximum of 42000 ms, retry 3 with the largest draw
    gives 44000 ms and retry 4 with the smallest gives 37800 ms. *)
Example backoff_jitter_not_monotone :
  let random := fun lo hi : Z => if hi =? 4001 then hi - 1 else lo in
  (forall lo hi, lo < hi -> lo <= random lo hi < hi)
  /\ NetworkManager.calculateBackoffDelay random 5000 3 42000 = 44000
  /\ NetworkManager.calculateBackoffDelay random 5000 4 42000 = 37800.
Proof.
  cbv zeta. split; [|split; reflexivity].
  intros lo hi H. destruct (hi =? 4001); lia.
Qed.

(** With a base of 100 ms the capped delay is 6400 ms from retry count 6
    on: beyond the cap exponent the delay does not reach the maximum. *)
Example backoff_small_base :
  NetworkManager.cappedDelay 100 9 NetworkManager.DEFAULT_MAX_DELAY = 6400
  /\ NetworkManager.calculateBackoffDelay (fun _ hi => hi - 1) 100 9
       NetworkManager.DEFAULT_MAX_DELAY = 7040.
Proof. split; reflexivity. Qed.

(** *** The shift loop *)

Section ShiftLoop.
Context {A : Type}.
Implicit Types (q : list A) (i j k : nat).

Lemma copy_down_length q i : length (copy_down q i) = length q.
Proof.
  unfold copy_down. destruct (q !! S i); [apply length_insert | reflexivity].
Qed.

Lemma copy_down_lookup q i j :
  (S i < length q)%nat ->
  copy_down q i !! j = if decide (j = i) then q !! S i else q !! j.
Proof.
  intros Hi. unfold copy_down.
  destruct (lookup_lt_is_Some_2 q (S i) Hi) as [x Hx]. rewrite Hx.
  destruct (decide (j = i)) as [->|Hne].
  - apply list_lookup_insert_eq. lia.
  - apply list_lookup_insert_ne. congruence.
Qed.

Lemma shift_from_length q i k : length (shift_from q i k) = length q.
Proof.
  revert q i. induction k as [|k IH]; intros q i; simpl; [reflexivity|].
  rewrite IH. apply copy_down_length.
Qed.

(** Slots [i .. i + k - 1] receive their right neighbour, the others keep
    their value. *)
Lemma shift_from_lookup q i k j :
  (i + k < length q)%nat ->
  shift_from q i k !! j =
    if decide (i <= j < i + k)%nat then q !! S j else q !! j.
Proof.
  revert q i. induction k as [|k IH]; intros q i Hlen; simpl.
  - destruct (decide _); [lia | reflexivity].
  - rewrite IH by (rewrite copy_down_length; lia).
    rewrite !copy_down_lookup by lia.
    repeat destruct (decide _); subst; try reflexivity; lia.
Qed.

(** The first [n - 1] slots after the loop are the old slots [1 .. n - 1]. *)
Lemma shift_queue_take q n :
  (0 < n <= length q)%nat ->
  take (n - 1) (shift_queue q (Z.of_nat n - 1)) = drop 1 (take n q).
Proof.
  intros Hn. unfold shift_queue.
  replace (Z.to_nat (Z.of_nat n - 1)) with (n - 1)%nat by lia.
  apply list_eq. intros j.
  rewrite lookup_drop.
  destruct (decide (j < n - 1)%nat) as [Hj|Hj].
  - rewrite lookup_take_lt by assumption.
    rewrite shift_from_lookup by lia.
    rewrite lookup_take_lt by lia.
    destruct (decide _); [reflexivity | lia].
  - rewrite !lookup_take_ge by lia. reflexivity.
Qed.

Lemma shift_queue_length q n : length (shift_queue q n) = length q.
Proof. apply shift_from_length. Qed.

End ShiftLoop.

(** *** Bounded string copies *)

Section BoundedCopy.

Lemma strncpy_bytes_length src n : length (strncpy_bytes src n) = n.
Proof.
  revert src. induction n as [|n IH]; intros src; [reflexivity|].
  cbn [strncpy_bytes]. destruct src as [|c rest].
  - apply length_replicate.
  - destruct (is_nul c); [apply length_replicate|]. simpl. now rewrite IH.
Qed.

Lemma c_str_nul rest : c_str (NUL :: rest) = [].
Proof. reflexivity. Qed.

Lemma c_str_replicate_nul n rest : c_str (replicate n NUL ++ NUL :: rest) = [].
Proof. destruct n; reflexivity. Qed.

(** What a reader of the buffer sees after [strncpy] of [n] bytes and a
    terminator right behind them: the first [n] characters of the source. *)
Lemma c_str_strncpy_bytes src n rest :
  c_str (strncpy_bytes src n ++ NUL :: rest) = take n (c_str src).
Proof.
  revert src. induction n as [|n IH]; intros src.
  - simpl. now rewrite take_0.
  - cbn [strncpy_bytes]. destruct src as [|c tl].
    + now rewrite c_str_replicate_nul.
    + cbn [c_str]. destruct (is_nul c) eqn:E.
      * now rewrite c_str_replicate_nul.
      * simpl. rewrite E. f_equal. apply IH.
Qed.

(** Lines 313 and 315 (resp. 314 and 316) on a buffer of [n + 1] bytes:
    the old contents do not survive. *)
Lemma terminated_copy dst src n :
  length dst = S n ->
  poke (strncpy dst src n) n NUL = strncpy_bytes src n ++ [NUL].
Proof.
  intros Hlen. unfold poke, strncpy.
  assert (exists y, drop n dst = [y]) as [y Hy].
  { destruct (drop n dst) as [|y [|z l]] eqn:E.
    - apply (f_equal length) in E. rewrite length_drop in E. simpl in E. lia.
    - eauto.
    - apply (f_equal length) in E. rewrite length_drop in E. simpl in E. lia. }
  rewrite Hy.
  pose proof (insert_app_r (strncpy_bytes src n) [y] 0 NUL) as H.
  rewrite strncpy_bytes_length, Nat.add_0_r in H. exact H.
Qed.

Lemma c_str_length_le src : (length (c_str src) <= length src)%nat.
Proof.
  induction src as [|c tl IH]; simpl; [lia|].
  destruct (is_nul c); simpl; lia.
Qed.

(** No NUL inside the characters of a C string. *)
Lemma c_str_no_nul src : Forall (fun c => is_nul c = false) (c_str src).
Proof.
  induction src as [|c tl IH]; simpl; [constructor|].
  destruct (is_nul c) eqn:E; constructor; assumption.
Qed.

End BoundedCopy.

(** *** The manager's offline queue *)

Section ManagerQueue.
Import NetworkManager ManagerRuns.

Lemma int_incr_small n : 0 <= n <= 1000 -> int_incr n = n + 1.
Proof.
  intros H. unfold int_incr, int_add. apply wrap_int_id.
  unfold INT_MIN, INT_MAX. lia.
Qed.

Lemma int_decr_small n : 0 <= n <= 1000 -> int_decr n = n - 1.
Proof.
  intros H. unfold int_decr, int_sub. apply wrap_int_id.
  unfold INT_MIN, INT_MAX. lia.
Qed.

Lemma blank_message_ok : slot_ok blank_message.
Proof. split; reflexivity. Qed.

Lemma new_queue_ok config : queue_ok (new config).
Proof.
  split; [reflexivity|]. split; [unfold MAX_QUEUE_SIZE; simpl; lia|].
  apply Forall_replicate, blank_message_ok.
Qed.

Lemma slot_ok_slot nm i : queue_ok nm -> slot_ok (slot nm i).
Proof.
  intros (_ & _ & Hall). unfold slot.
  destruct (_message_queue nm !! Z.to_nat i) as [m|] eqn:E; simpl.
  - eapply Forall_lookup_1; eassumption.
  - apply blank_message_ok.
Qed.

Lemma fill_slot_topic old tp pl r qo now :
  slot_ok old ->
  topic (fill_slot old tp pl r qo now) = strncpy_bytes tp 127 ++ [NUL].
Proof. intros [Ht _]. simpl. now apply terminated_copy. Qed.

Lemma fill_slot_payload old tp pl r qo now :
  slot_ok old ->
  payload (fill_slot old tp pl r qo now) = strncpy_bytes pl 511 ++ [NUL].
Proof. intros [_ Hp]. simpl. now apply terminated_copy. Qed.

Lemma fill_slot_ok old tp pl r qo now :
  slot_ok old -> slot_ok (fill_slot old tp pl r qo now).
Proof.
  intros Hok. split.
  - rewrite fill_slot_topic by assumption.
    rewrite length_app, strncpy_bytes_length. reflexivity.
  - rewrite fill_slot_payload by assumption.
    rewrite length_app, strncpy_bytes_length. reflexivity.
Qed.

Lemma Forall_shift_from {A} (P : A -> Prop) (q : list A) i k :
  Forall P q -> Forall P (shift_from q i k).
Proof.
  revert q i. induction k as [|k IH]; intros q i Hq; simpl; [assumption|].
  apply IH. unfold copy_down.
  destruct (q !! S i) as [m|] eqn:E; [|assumption].
  apply Forall_insert; [assumption|].
  eapply Forall_lookup_1; eassumption.
Qed.

(** One enqueue: with room the entry is appended; at capacity the head is
    shifted out first.  The shape invariant is kept either way. *)
Lemma queueMessage_pending d tp pl r qo nm :
  queue_ok nm ->
  let nm' := snd (queueMessage d tp pl r qo nm) in
  queue_ok nm'
  /\ exists old, slot_ok old /\
       let msg := fill_slot old tp pl r qo (millis d) in
       (_message_queue_size nm < MAX_QUEUE_SIZE ->
          _message_queue_size nm' = _message_queue_size nm + 1
          /\ pending nm' = pending nm ++ [msg])
       /\ (_message_queue_size nm = MAX_QUEUE_SIZE ->
          _message_queue_size nm' = MAX_QUEUE_SIZE
          /\ pending nm' = drop 1 (pending nm) ++ [msg]).
Proof.
  intros Hok. pose proof Hok as (Hlen & Hsz & Hall).
  unfold queueMessage, queue_ok. cbv zeta.
  unfold MAX_QUEUE_SIZE in *. change (Z.to_nat 10) with 10%nat in *.
  change (10 - 1) with 9.
  destruct (10 <=? _message_queue_size nm) eqn:Hfull.
  - apply Z.leb_le in Hfull. assert (_message_queue_size nm = 10) as Hten by lia.
    cbn. change (Z.to_nat 9) with 9%nat.
    set (q' := shift_queue (_message_queue nm) 9).
    set (old := default blank_message (q' !! 9%nat)).
    assert (Forall slot_ok q') as Hall'
      by (apply Forall_shift_from; assumption).
    assert (length q' = 10%nat) as Hlen'
      by (unfold q'; rewrite shift_queue_length; assumption).
    assert (slot_ok old) as Hold.
    { unfold old. destruct (q' !! 9%nat) eqn:E; simpl.
      - eapply Forall_lookup_1; eassumption.
      - apply blank_message_ok. }
    split.
    + repeat split; cbn.
      * rewrite length_insert. assumption.
      * rewrite int_incr_small; lia.
      * rewrite int_incr_small; lia.
      * apply Forall_insert; [assumption | apply fill_slot_ok; assumption].
    + exists old. split; [assumption|]. cbv zeta. split; [lia|].
      intros _. split; [rewrite int_incr_small; lia|].
      unfold pending. cbn. rewrite int_incr_small by lia. rewrite Hten.
      change (Z.to_nat (9 + 1)) with 10%nat. change (Z.to_nat 10) with 10%nat.
      rewrite (take_S_r _ 9 (fill_slot old tp pl r qo (millis d)))
        by (apply list_lookup_insert_eq; lia).
      rewrite take_insert_ge by lia.
      f_equal. unfold q'.
      exact (shift_queue_take (_message_queue nm) 10 ltac:(lia)).
  - apply Z.leb_gt in Hfull.
    set (n := _message_queue_size nm) in *.
    set (old := slot nm n).
    assert (slot_ok old) as Hold by (apply slot_ok_slot; assumption).
    split.
    + repeat split; cbn; fold n.
      * rewrite length_insert. assumption.
      * rewrite int_incr_small; lia.
      * rewrite int_incr_small; lia.
      * apply Forall_insert; [assumption | apply fill_slot_ok; assumption].
    + exists old. split; [assumption|]. cbv zeta. split; [|lia].
      intros _. cbn. fold n. split; [rewrite int_incr_small; lia|].
      unfold pending. cbn. fold n. rewrite int_incr_small by lia.
      replace (Z.to_nat (n + 1)) with (S (Z.to_nat n)) by lia.
      rewrite (take_S_r _ _ (fill_slot old tp pl r qo (millis d)))
        by (apply list_lookup_insert_eq; lia).
      rewrite take_insert_ge by lia. reflexivity.
Qed.

End ManagerQueue.

Section ManagerQueueBound.
Import NetworkManager ManagerRuns.

Lemma enqueue_all_ok rs nm : queue_ok nm -> queue_ok (enqueue_all nm rs).
Proof.
  revert nm. induction rs as [|r rs IH]; intros nm Hok; simpl; [assumption|].
  apply IH. unfold enqueue.
  apply (queueMessage_pending (req_driver r) (req_topic r) (req_payload r)
           (req_retained r) (req_qos r) nm Hok).
Qed.

Lemma pending_length nm :
  queue_ok nm -> length (pending nm) = Z.to_nat (_message_queue_size nm).
Proof.
  intros (Hlen & Hsz & _). unfold pending.
  rewrite length_take_le; [reflexivity|].
  rewrite Hlen. unfold MAX_QUEUE_SIZE in *. lia.
Qed.

(** The last live slot is the last element of [pending]. *)
Lemma last_pending_slot nm l msg :
  queue_ok nm -> pending nm = l ++ [msg] ->
  slot nm (_message_queue_size nm - 1) = msg.
Proof.
  intros Hok Hp. pose proof (pending_length nm Hok) as Hlen.
  rewrite Hp, length_app in Hlen. simpl in Hlen.
  assert (pending nm !! length l = Some msg) as Hl
    by (rewrite Hp; apply list_lookup_middle; reflexivity).
  unfold pending in Hl. rewrite lookup_take_lt in Hl by lia.
  unfold slot.
  replace (Z.to_nat (_message_queue_size nm - 1)) with (length l) by lia.
  now rewrite Hl.
Qed.

(** The fill count after a history of enqueues. *)
Lemma enqueue_all_size rs :
  forall nm0, queue_ok nm0 ->
    _message_queue_size (enqueue_all nm0 rs)
    = Z.min (_message_queue_size nm0 + Z.of_nat (length rs)) 10.
Proof.
  induction rs as [|r rs IH]; intros nm0 Hok.
  - pose proof Hok as (_ & Hsz & _). unfold MAX_QUEUE_SIZE in Hsz.
    cbn. lia.
  - change (enqueue_all nm0 (r :: rs)) with (enqueue_all (enqueue nm0 r) rs).
    destruct (queueMessage_pending (req_driver r) (req_topic r) (req_payload r)
                (req_retained r) (req_qos r) nm0 Hok)
      as (Hok' & old & _ & Hroom & Hfull).
    fold (enqueue nm0 r) in Hok', Hroom, Hfull. cbv zeta in Hroom, Hfull.
    rewrite (IH _ Hok'). pose proof Hok as (_ & Hsz & _).
    unfold MAX_QUEUE_SIZE in *. cbn [length].
    destruct (decide (_message_queue_size nm0 < 10)) as [Hlt | Hge].
    + destruct (Hroom Hlt) as [-> _]. lia.
    + destruct (Hfull ltac:(lia)) as [-> _]. lia.
Qed.

(** C3.  Starting from an empty queue, after any sequence of enqueues the
    fill count, which is the number of pending entries, is the number of
    enqueues made as long as that is below [MAX_QUEUE_SIZE = 10] and 10
    from then on, so at most 10; and an enqueue into any well-formed queue
    that holds 10 entries, whatever their retry counts, leaves 10: the old
    entries without their head, in order, followed by the new message. *)
Theorem queue_bound nm0 rs full r :
  queue_ok nm0 -> _message_queue_size nm0 = 0 ->
  queue_ok full -> _message_queue_size full = 10 ->
  let nm := enqueue_all nm0 rs in
  let nm' := enqueue full r in
  _message_queue_size nm = Z.of_nat (min (length rs) 10)
  /\ 0 <= _message_queue_size nm <= 10
  /\ length (pending nm) = Z.to_nat (_message_queue_size nm)
  /\ _message_queue_size nm' = 10
  /\ length (pending nm') = 10%nat
  /\ exists msg,
       pending nm' = drop 1 (pending full) ++ [msg]
       /\ c_str (topic msg) = take 127 (c_str (req_topic r))
       /\ c_str (payload msg) = take 511 (c_str (req_payload r))
       /\ retained msg = req_retained r
       /\ qos msg = req_qos r
       /\ retry_count msg = 0.
Proof.
  intros Hok0 Hz Hokf Hfull nm nm'.
  assert (queue_ok nm) as Hok by (apply enqueue_all_ok; assumption).
  split; [unfold nm; rewrite enqueue_all_size, Hz by assumption; lia|].
  split; [apply Hok|]. split; [apply pending_length; assumption|].
  destruct (queueMessage_pending (req_driver r) (req_topic r) (req_payload r)
              (req_retained r) (req_qos r) full Hokf)
    as (Hok' & old & Hold & _ & Hcase).
  destruct (Hcase Hfull) as [Hsz Hp]. subst nm'. unfold enqueue.
  split; [exact Hsz|].
  split; [rewrite pending_length by assumption; rewrite Hsz; reflexivity|].
  eexists. split; [exact Hp|].
  rewrite fill_slot_topic, fill_slot_payload by assumption.
  change [NUL] with (NUL :: []). rewrite !c_str_strncpy_bytes.
  repeat split; reflexivity.
Qed.

(** C10.  Whatever the topic and payload, [queueMessage] returns true and
    signals no error; the entry it stores holds, in buffers of 128 and 512
    bytes whose last byte is NUL, the first 127 characters of the topic
    and the first 511 characters of the payload. *)
Theorem queueMessage_truncates d tp pl r qo nm :
  queue_ok nm ->
  let res := queueMessage d tp pl r qo nm in
  let nm' := snd res in
  let stored := slot nm' (_message_queue_size nm' - 1) in
  fst res = true
  /\ _last_error nm' = _last_error nm
  /\ length (topic stored) = 128%nat
  /\ topic stored !! 127%nat = Some NUL
  /\ c_str (topic stored) = take 127 (c_str tp)
  /\ (length (c_str (topic stored)) <= 127)%nat
  /\ length (payload stored) = 512%nat
  /\ payload stored !! 511%nat = Some NUL
  /\ c_str (payload stored) = take 511 (c_str pl)
  /\ (length (c_str (payload stored)) <= 511)%nat.
Proof.
  intros Hok res nm' stored.
  destruct (queueMessage_pending d tp pl r qo nm Hok)
    as (Hok' & old & Hold & Hroom & Hfull).
  fold res in Hok', Hroom, Hfull. fold nm' in Hok', Hroom, Hfull.
  cbv zeta in Hroom, Hfull.
  assert (exists l, pending nm' = l ++ [fill_slot old tp pl r qo (millis d)])
    as [l Hl].
  { destruct Hok as (_ & Hsz & _). unfold MAX_QUEUE_SIZE in *.
    destruct (decide (_message_queue_size nm < 10)) as [Hlt|Hge].
    - destruct (Hroom Hlt) as [_ Hp]. eauto.
    - destruct (Hfull ltac:(lia)) as [_ Hp]. eauto. }
  assert (stored = fill_slot old tp pl r qo (millis d)) as ->
    by (eapply last_pending_slot; eassumption).
  rewrite fill_slot_topic, fill_slot_payload by assumption.
  change [NUL] with (NUL :: []). rewrite !c_str_strncpy_bytes.
  rewrite !length_app, !strncpy_bytes_length, !length_take.
  split; [reflexivity|]. split.
  { unfold nm', res, queueMessage. cbv zeta.
    destruct (MAX_QUEUE_SIZE <=? _message_queue_size nm); reflexivity. }
  repeat split; try reflexivity; try lia.
  - pose proof (list_lookup_middle (strncpy_bytes tp 127) [] NUL 127) as H.
    apply H. now rewrite strncpy_bytes_length.
  - pose proof (list_lookup_middle (strncpy_bytes pl 511) [] NUL 511) as H.
    apply H. now rewrite strncpy_bytes_length.
Qed.

End ManagerQueueBound.

Lemma queue_bound_witness :
  let nm0 := NetworkManager.new ManagerRuns.buildNetworkConfig in
  let rs := map ManagerRuns.request_at [1; 2; 3; 4; 5; 6; 7; 8; 9; 10; 11; 12] in
  let full := ManagerRuns.enqueue_all nm0 rs in
  let r := ManagerRuns.request_at 13 in
  let nm := ManagerRuns.enqueue_all nm0 rs in
  let nm' := ManagerRuns.enqueue full r in
  NetworkManager._message_queue_size nm = Z.of_nat (min (length rs) 10)
  /\ 0 <= NetworkManager._message_queue_size nm <= 10
  /\ length (NetworkManager.pending nm)
     = Z.to_nat (NetworkManager._message_queue_size nm)
  /\ NetworkManager._message_queue_size nm' = 10
  /\ length (NetworkManager.pending nm') = 10%nat
  /\ exists msg,
       NetworkManager.pending nm'
       = drop 1 (NetworkManager.pending full) ++ [msg]
       /\ c_str (NetworkManager.topic msg)
          = take 127 (c_str (ManagerRuns.req_topic r))
       /\ c_str (NetworkManager.payload msg)
          = take 511 (c_str (ManagerRuns.req_payload r))
       /\ NetworkManager.retained msg = ManagerRuns.req_retained r
       /\ NetworkManager.qos msg = ManagerRuns.req_qos r
       /\ NetworkManager.retry_count msg = 0.
Proof.
  apply (queue_bound (NetworkManager.new ManagerRuns.buildNetworkConfig)
           (map ManagerRuns.request_at [1; 2; 3; 4; 5; 6; 7; 8; 9; 10; 11; 12])
           (ManagerRuns.enqueue_all
              (NetworkManager.new ManagerRuns.buildNetworkConfig)
              (map ManagerRuns.request_at
                 [1; 2; 3; 4; 5; 6; 7; 8; 9; 10; 11; 12]))
           (ManagerRuns.request_at 13)).
  - apply new_queue_ok.
  - reflexivity.
  - apply enqueue_all_ok, new_queue_ok.
  - vm_compute. reflexivity.
Defined.

Lemma queueMessage_truncates_witness :
  let long_topic := replicate 200 x61 in
  let res := NetworkManager.queueMessage (ManagerRuns.online 5 true)
               long_topic ManagerRuns.payload_empty false 0
               (NetworkManager.new ManagerRuns.buildNetworkConfig) in
  fst res = true
  /\ c_str (NetworkManager.topic (NetworkManager.slot (snd res) 0))
     = replicate 127 x61.
Proof.
  pose proof (queueMessage_truncates (ManagerRuns.online 5 true)
                (replicate 200 x61) ManagerRuns.payload_empty false 0
                (NetworkManager.new ManagerRuns.buildNetworkConfig)
                (new_queue_ok _)) as H.
  cbv zeta in H. destruct H as (H1 & _ & _ & _ & H5 & _).
  split; [exact H1|]. exact H5.
Defined.

(** *** Draining the manager's queue *)

Section ManagerDrain.
Import NetworkManager ManagerRuns.

Lemma insert_head {A} (l : list A) x :
  (0 < length l)%nat -> <[0%nat := x]> l = x :: drop 1 l.
Proof. destruct l; simpl; [lia | reflexivity]. Qed.

Lemma slot_head_pending nm :
  queue_ok nm -> 0 < _message_queue_size nm ->
  pending nm = slot nm 0 :: drop 1 (pending nm).
Proof.
  intros Hok Hpos. pose proof (pending_length nm Hok) as Hlen.
  destruct Hok as (Hq & Hsz & _). unfold slot, pending in *.
  destruct (_message_queue nm) as [|m q] eqn:E; [simpl in Hq; discriminate|].
  destruct (Z.to_nat (_message_queue_size nm)) eqn:En; [lia|]. reflexivity.
Qed.

(** Dropping the head by the shift loop. *)
Lemma remove_head_pending nm :
  queue_ok nm -> 0 < _message_queue_size nm ->
  queue_ok (remove_head nm)
  /\ _message_queue_size (remove_head nm) = _message_queue_size nm - 1
  /\ pending (remove_head nm) = drop 1 (pending nm).
Proof.
  intros (Hlen & Hsz & Hall) Hpos. unfold MAX_QUEUE_SIZE in *.
  change (Z.to_nat 10) with 10%nat in Hlen.
  unfold remove_head, queue_ok, pending. cbn.
  rewrite int_decr_small by lia. unfold MAX_QUEUE_SIZE.
  rewrite shift_queue_length. repeat split; try assumption; try lia.
  - apply Forall_shift_from. assumption.
  - pose proof (shift_queue_take (_message_queue nm)
                  (Z.to_nat (_message_queue_size nm)) ltac:(lia)) as H.
    rewrite Z2Nat.id in H by lia.
    replace (Z.to_nat (_message_queue_size nm - 1))
      with (Z.to_nat (_message_queue_size nm) - 1)%nat by lia.
    exact H.
Qed.

(** A refused drain: the head's [retry_count] is incremented in place and
    the head is shifted out when the new count has reached 3. *)
Lemma processMessageQueue_refused d nm :
  queue_ok nm -> 0 < _message_queue_size nm ->
  isMQTTConnected nm = true -> head_refused d nm ->
  let head := slot nm 0 in
  let head' := set_retry_count (int_incr (retry_count head)) head in
  let nm' := processMessageQueue d nm in
  queue_ok nm'
  /\ isMQTTConnected nm' = true
  /\ (int_incr (retry_count head) < 3 ->
      _message_queue_size nm' = _message_queue_size nm
      /\ pending nm' = head' :: drop 1 (pending nm))
  /\ (3 <= int_incr (retry_count head) ->
      _message_queue_size nm' = _message_queue_size nm - 1
      /\ pending nm' = drop 1 (pending nm)).
Proof.
  intros Hok Hpos Hconn Href head head' nm'.
  pose proof Hok as (Hlen & Hsz & Hall). unfold MAX_QUEUE_SIZE in *.
  change (Z.to_nat 10) with 10%nat in Hlen.
  unfold head_refused in Href. fold head in Href.
  subst nm'. unfold processMessageQueue.
  rewrite Hconn. replace (_message_queue_size nm =? 0) with false
    by (symmetry; apply Z.eqb_neq; lia).
  cbn [orb negb]. cbv zeta. fold head. rewrite Href.
  set (nm1 := upd_stats _ (set_message_queue _ (emit _ nm))).
  assert (_message_queue nm1 = <[0%nat := head']> (_message_queue nm)) as Hq1
    by reflexivity.
  assert (_message_queue_size nm1 = _message_queue_size nm) as Hs1
    by reflexivity.
  assert (isMQTTConnected nm1 = true) as Hc1 by exact Hconn.
  assert (slot_ok head') as Hh'.
  { pose proof (slot_ok_slot nm 0 Hok) as [Ht Hp]. split; [exact Ht | exact Hp]. }
  assert (queue_ok nm1) as Hok1.
  { unfold queue_ok. rewrite Hq1, Hs1, length_insert.
    unfold MAX_QUEUE_SIZE. repeat split; try assumption; try lia.
    apply Forall_insert; assumption. }
  assert (pending nm1 = head' :: drop 1 (pending nm)) as Hp1.
  { unfold pending. rewrite Hq1, Hs1.
    rewrite take_insert_lt by lia. apply insert_head.
    rewrite length_take_le; lia. }
  change (retry_count (set_retry_count (int_incr (retry_count head)) head))
    with (int_incr (retry_count head)).
  destruct (3 <=? int_incr (retry_count head)) eqn:E.
  - apply Z.leb_le in E.
    destruct (remove_head_pending nm1 Hok1 ltac:(lia)) as (Hok2 & Hs2 & Hp2).
    split; [assumption|]. split; [exact Hc1|]. split; [lia|].
    intros _. split; [lia|]. rewrite Hp2, Hp1. reflexivity.
  - apply Z.leb_gt in E.
    split; [assumption|]. split; [exact Hc1|]. split; [|lia].
    intros _. split; [exact Hs1 | exact Hp1].
Qed.

End ManagerDrain.

(** *** Draining the sketch's queue *)

Section SketchDrain.
Import Sketch.OfflineQueue SketchRuns.

Lemma sketch_blank_ok : slot_ok blank_message.
Proof. split; reflexivity. Qed.

Lemma sketch_init_ok : queue_ok initOfflineQueue.
Proof.
  split; [reflexivity|]. split; [simpl; lia|].
  apply Forall_replicate, sketch_blank_ok.
Qed.

Lemma sketch_slot_ok q i : queue_ok q -> slot_ok (slot q i).
Proof.
  intros (_ & _ & Hall). unfold slot.
  destruct (messageQueue q !! Z.to_nat i) as [m|] eqn:E; simpl.
  - eapply Forall_lookup_1; eassumption.
  - apply sketch_blank_ok.
Qed.

Lemma sketch_pending_length q :
  queue_ok q -> length (pending q) = Z.to_nat (queueCount q).
Proof.
  intros (Hlen & Hsz & _). unfold pending.
  rewrite length_take_le; [reflexivity | lia].
Qed.

Lemma sketch_head_pending q :
  queue_ok q -> 0 < queueCount q ->
  pending q = slot q 0 :: drop 1 (pending q).
Proof.
  intros (Hq & Hsz & _) Hpos. unfold slot, pending in *.
  destruct (messageQueue q) as [|m l] eqn:E; [simpl in Hq; discriminate|].
  destruct (Z.to_nat (queueCount q)) eqn:En; [lia|]. reflexivity.
Qed.

Lemma sketch_remove_head q :
  queue_ok q -> 0 < queueCount q ->
  queue_ok (remove_head q)
  /\ queueCount (remove_head q) = queueCount q - 1
  /\ pending (remove_head q) = drop 1 (pending q).
Proof.
  intros (Hlen & Hsz & Hall) Hpos.
  unfold remove_head, queue_ok, pending. cbn.
  rewrite int_decr_small by lia.
  rewrite shift_queue_length. repeat split; try assumption; try lia.
  - apply Forall_shift_from. assumption.
  - pose proof (shift_queue_take (messageQueue q)
                  (Z.to_nat (queueCount q)) ltac:(lia)) as H.
    rewrite Z2Nat.id in H by lia.
    replace (Z.to_nat (queueCount q - 1))
      with (Z.to_nat (queueCount q) - 1)%nat by lia.
    exact H.
Qed.

(** A refused drain in the sketch: the head is shifted out only when the
    incremented [retry_count] is above 3. *)
Lemma processQueuedMessages_refused d q :
  queue_ok q -> 0 < queueCount q ->
  isMqttReallyConnected d = true -> head_refused d q ->
  let head := slot q 0 in
  let head' := set_retry_count (int_incr (retry_count head)) head in
  let q' := snd (processQueuedMessages d q) in
  queue_ok q'
  /\ fst (processQueuedMessages d q) = false
  /\ (int_incr (retry_count head) <= 3 ->
      queueCount q' = queueCount q
      /\ pending q' = head' :: drop 1 (pending q))
  /\ (3 < int_incr (retry_count head) ->
      queueCount q' = queueCount q - 1
      /\ pending q' = drop 1 (pending q)).
Proof.
  intros Hok Hpos Hconn Href head head' q'.
  pose proof Hok as (Hlen & Hsz & Hall).
  unfold head_refused in Href. fold head in Href.
  subst q'. unfold processQueuedMessages.
  rewrite Hconn. replace (queueCount q =? 0) with false
    by (symmetry; apply Z.eqb_neq; lia).
  cbn [orb negb]. cbv zeta. fold head. rewrite Href.
  change (retry_count (set_retry_count (int_incr (retry_count head)) head))
    with (int_incr (retry_count head)).
  set (q1 := if negb (client_state_after d =? 0) then _ else _).
  assert (messageQueue q1 = <[0%nat := head']> (messageQueue q)) as Hq1
    by (unfold q1; destruct (negb _); reflexivity).
  assert (queueCount q1 = queueCount q) as Hs1
    by (unfold q1; destruct (negb _); reflexivity).
  assert (slot_ok head') as Hh'.
  { pose proof (sketch_slot_ok q 0 Hok) as [Ht Hp].
    split; [exact Ht | exact Hp]. }
  assert (queue_ok q1) as Hok1.
  { unfold queue_ok. rewrite Hq1, Hs1, length_insert.
    repeat split; try assumption; try lia.
    apply Forall_insert; assumption. }
  assert (pending q1 = head' :: drop 1 (pending q)) as Hp1.
  { unfold pending. rewrite Hq1, Hs1.
    rewrite take_insert_lt by lia. apply insert_head.
    rewrite length_take_le; lia. }
  destruct (3 <? int_incr (retry_count head)) eqn:E; cbn [fst snd].
  - apply Z.ltb_lt in E.
    destruct (sketch_remove_head q1 Hok1 ltac:(lia)) as (Hok2 & Hs2 & Hp2).
    split; [assumption|]. split; [reflexivity|]. split; [lia|].
    intros _. split; [lia|]. rewrite Hp2, Hp1. reflexivity.
  - apply Z.ltb_ge in E.
    split; [assumption|]. split; [reflexivity|]. split; [|lia].
    intros _. split; [exact Hs1 | exact Hp1].
Qed.

End SketchDrain.

(** *** Retry exhaustion *)

Section RetryExhaustion.

Lemma manager_drains_last d k nm :
  ManagerRuns.drains d (S k) nm
  = NetworkManager.processMessageQueue d (ManagerRuns.drains d k nm).
Proof.
  revert nm. induction k as [|k IH]; intros nm; [reflexivity|].
  change (ManagerRuns.drains d (S (S k)) nm)
    with (ManagerRuns.drains d (S k) (NetworkManager.processMessageQueue d nm)).
  rewrite IH. reflexivity.
Qed.

Lemma sketch_drains_last d k q :
  SketchRuns.drains d (S k) q
  = snd (Sketch.OfflineQueue.processQueuedMessages d (SketchRuns.drains d k q)).
Proof.
  revert q. induction k as [|k IH]; intros q; [reflexivity|].
  change (SketchRuns.drains d (S (S k)) q)
    with (SketchRuns.drains d (S k)
            (snd (Sketch.OfflineQueue.processQueuedMessages d q))).
  rewrite IH. reflexivity.
Qed.

(** While the count stays below 3 the manager keeps a refused entry at the
    head, one retry further each time. *)
Lemma manager_refusals d k :
  forall nm c,
    ManagerRuns.queue_ok nm -> 0 < NetworkManager._message_queue_size nm ->
    NetworkManager.isMQTTConnected nm = true ->
    ManagerRuns.head_refused d nm ->
    NetworkManager.retry_count (NetworkManager.slot nm 0) = c -> 0 <= c ->
    c + Z.of_nat k < 3 ->
    let nm' := ManagerRuns.drains d k nm in
    ManagerRuns.queue_ok nm'
    /\ NetworkManager._message_queue_size nm'
       = NetworkManager._message_queue_size nm
    /\ NetworkManager.isMQTTConnected nm' = true
    /\ NetworkManager.pending nm'
       = NetworkManager.set_retry_count (c + Z.of_nat k)
           (NetworkManager.slot nm 0)
         :: drop 1 (NetworkManager.pending nm).
Proof.
  induction k as [|k IH]; intros nm c Hok Hpos Hconn Href Hc Hc0 Hlt nm'.
  - subst nm'. cbn [ManagerRuns.drains].
    replace (c + Z.of_nat 0) with c by lia.
    split; [assumption|]. split; [reflexivity|]. split; [assumption|].
    rewrite <- Hc.
    rewrite (slot_head_pending nm Hok Hpos) at 1. f_equal.
    destruct (NetworkManager.slot nm 0); reflexivity.
  - subst nm'. cbn [ManagerRuns.drains].
    destruct (processMessageQueue_refused d nm Hok Hpos Hconn Href)
      as (Hok1 & Hconn1 & Hkeep & _).
    rewrite Hc in Hkeep. rewrite int_incr_small in Hkeep by lia.
    destruct (Hkeep ltac:(lia)) as [Hs1 Hp1].
    set (nm1 := NetworkManager.processMessageQueue d nm) in *.
    assert (NetworkManager.slot nm1 0
            = NetworkManager.set_retry_count (c + 1)
                (NetworkManager.slot nm 0)) as Hhead.
    { pose proof (slot_head_pending nm1 Hok1 ltac:(lia)) as H.
      rewrite Hp1 in H. congruence. }
    destruct (IH nm1 (c + 1) Hok1 ltac:(lia) Hconn1) as (Hok' & Hs' & Hc' & Hp').
    + unfold ManagerRuns.head_refused. rewrite Hhead. exact Href.
    + rewrite Hhead. reflexivity.
    + lia.
    + lia.
    + split; [assumption|]. split; [lia|]. split; [assumption|].
      rewrite Hp', Hhead, Hp1. cbn [drop].
      replace (c + 1 + Z.of_nat k) with (c + Z.of_nat (S k)) by lia.
      reflexivity.
Qed.

(** The sketch keeps it while the count stays at or below 3. *)
Lemma sketch_refusals d k :
  forall q c,
    SketchRuns.queue_ok q -> 0 < Sketch.OfflineQueue.queueCount q ->
    Sketch.OfflineQueue.isMqttReallyConnected d = true ->
    SketchRuns.head_refused d q ->
    Sketch.OfflineQueue.retry_count (Sketch.OfflineQueue.slot q 0) = c ->
    0 <= c -> c + Z.of_nat k <= 3 ->
    let q' := SketchRuns.drains d k q in
    SketchRuns.queue_ok q'
    /\ Sketch.OfflineQueue.queueCount q' = Sketch.OfflineQueue.queueCount q
    /\ Sketch.OfflineQueue.pending q'
       = Sketch.OfflineQueue.set_retry_count (c + Z.of_nat k)
           (Sketch.OfflineQueue.slot q 0)
         :: drop 1 (Sketch.OfflineQueue.pending q).
Proof.
  induction k as [|k IH]; intros q c Hok Hpos Hconn Href Hc Hc0 Hlt q'.
  - subst q'. cbn [SketchRuns.drains].
    replace (c + Z.of_nat 0) with c by lia.
    split; [assumption|]. split; [reflexivity|].
    rewrite <- Hc.
    rewrite (sketch_head_pending q Hok Hpos) at 1. f_equal.
    destruct (Sketch.OfflineQueue.slot q 0); reflexivity.
  - subst q'. cbn [SketchRuns.drains].
    destruct (processQueuedMessages_refused d q Hok Hpos Hconn Href)
      as (Hok1 & _ & Hkeep & _).
    rewrite Hc in Hkeep. rewrite int_incr_small in Hkeep by lia.
    destruct (Hkeep ltac:(lia)) as [Hs1 Hp1].
    set (q1 := snd (Sketch.OfflineQueue.processQueuedMessages d q)) in *.
    assert (Sketch.OfflineQueue.slot q1 0
            = Sketch.OfflineQueue.set_retry_count (c + 1)
                (Sketch.OfflineQueue.slot q 0)) as Hhead.
    { pose proof (sketch_head_pending q1 Hok1 ltac:(lia)) as H.
      rewrite Hp1 in H. congruence. }
    destruct (IH q1 (c + 1) Hok1 ltac:(lia) Hconn) as (Hok' & Hs' & Hp').
    + unfold SketchRuns.head_refused. rewrite Hhead. exact Href.
    + rewrite Hhead. reflexivity.
    + lia.
    + lia.
    + split; [assumption|]. split; [lia|].
      rewrite Hp', Hhead, Hp1. cbn [drop].
      replace (c + 1 + Z.of_nat k) with (c + Z.of_nat (S k)) by lia.
      reflexivity.
Qed.

(** C2 (as amended).  A fresh entry at the head of the queue that the
    driver keeps refusing stays at the head with its [retry_count]
    incremented by every failed drain.  [NetworkManager::processMessageQueue]
    removes it when the count reaches 3, that is by the third failed
    drain; [processQueuedMessages] of the sketch removes it when the count
    exceeds 3, that is by the fourth.  Each removal takes out the head
    only. *)
Theorem drain_retry_exhaustion d nm d' q :
  ManagerRuns.queue_ok nm -> 0 < NetworkManager._message_queue_size nm ->
  NetworkManager.isMQTTConnected nm = true ->
  ManagerRuns.head_refused d nm ->
  NetworkManager.retry_count (NetworkManager.slot nm 0) = 0 ->
  SketchRuns.queue_ok q -> 0 < Sketch.OfflineQueue.queueCount q ->
  Sketch.OfflineQueue.isMqttReallyConnected d' = true ->
  SketchRuns.head_refused d' q ->
  Sketch.OfflineQueue.retry_count (Sketch.OfflineQueue.slot q 0) = 0 ->
  (forall k, (k < 3)%nat ->
     NetworkManager.pending (ManagerRuns.drains d k nm)
     = NetworkManager.set_retry_count (Z.of_nat k) (NetworkManager.slot nm 0)
       :: drop 1 (NetworkManager.pending nm))
  /\ NetworkManager.pending (ManagerRuns.drains d 3 nm)
     = drop 1 (NetworkManager.pending nm)
  /\ (forall k, (k < 4)%nat ->
     Sketch.OfflineQueue.pending (SketchRuns.drains d' k q)
     = Sketch.OfflineQueue.set_retry_count (Z.of_nat k)
         (Sketch.OfflineQueue.slot q 0)
       :: drop 1 (Sketch.OfflineQueue.pending q))
  /\ Sketch.OfflineQueue.pending (SketchRuns.drains d' 4 q)
     = drop 1 (Sketch.OfflineQueue.pending q).
Proof.
  intros Hok Hpos Hconn Href Hrc Hok' Hpos' Hconn' Href' Hrc'.
  split; [|split; [|split]].
  - intros k Hk.
    apply (manager_refusals d k nm 0 Hok Hpos Hconn Href Hrc); lia.
  - rewrite manager_drains_last.
    destruct (manager_refusals d 2 nm 0 Hok Hpos Hconn Href Hrc)
      as (Hok2 & Hs2 & Hc2 & Hp2); [lia | lia |].
    set (nm2 := ManagerRuns.drains d 2 nm) in *.
    assert (NetworkManager.slot nm2 0
            = NetworkManager.set_retry_count 2 (NetworkManager.slot nm 0))
      as Hhead.
    { pose proof (slot_head_pending nm2 Hok2 ltac:(lia)) as H.
      rewrite Hp2 in H. injection H as H. rewrite <- H. reflexivity. }
    destruct (processMessageQueue_refused d nm2 Hok2 ltac:(lia) Hc2)
      as (_ & _ & _ & Hdrop).
    + unfold ManagerRuns.head_refused. rewrite Hhead. exact Href.
    + rewrite Hhead in Hdrop. cbn [NetworkManager.retry_count
        NetworkManager.set_retry_count] in Hdrop.
      destruct (Hdrop ltac:(vm_compute; discriminate)) as [_ Hp3].
      rewrite Hp3, Hp2. reflexivity.
  - intros k Hk.
    apply (sketch_refusals d' k q 0 Hok' Hpos' Hconn' Href' Hrc'); lia.
  - rewrite sketch_drains_last.
    destruct (sketch_refusals d' 3 q 0 Hok' Hpos' Hconn' Href' Hrc')
      as (Hok3 & Hs3 & Hp3); [lia | lia |].
    set (q3 := SketchRuns.drains d' 3 q) in *.
    assert (Sketch.OfflineQueue.slot q3 0
            = Sketch.OfflineQueue.set_retry_count 3
                (Sketch.OfflineQueue.slot q 0)) as Hhead.
    { pose proof (sketch_head_pending q3 Hok3 ltac:(lia)) as H.
      rewrite Hp3 in H. injection H as H. rewrite <- H. reflexivity. }
    destruct (processQueuedMessages_refused d' q3 Hok3 ltac:(lia) Hconn')
      as (_ & _ & _ & Hdrop).
    + unfold SketchRuns.head_refused. rewrite Hhead. exact Href'.
    + rewrite Hhead in Hdrop. cbn [Sketch.OfflineQueue.retry_count
        Sketch.OfflineQueue.set_retry_count] in Hdrop.
      destruct (Hdrop ltac:(vm_compute; reflexivity)) as [_ Hp4].
      rewrite Hp4, Hp3. reflexivity.
Qed.

End RetryExhaustion.

Lemma one_queued_ok : ManagerRuns.queue_ok ManagerRuns.one_queued.
Proof.
  apply (queueMessage_pending _ _ _ _ _ ManagerRuns.connected_manager).
  exact (new_queue_ok ManagerRuns.buildNetworkConfig).
Qed.

Lemma sketch_one_queued_ok : SketchRuns.queue_ok SketchRuns.one_queued.
Proof.
  split; [reflexivity|]. split; [vm_compute; split; discriminate|].
  repeat constructor.
Qed.

Lemma drain_retry_exhaustion_witness :
  let d := ManagerRuns.online 2 false in
  let nm := ManagerRuns.one_queued in
  let d' := SketchRuns.online 2 false in
  let q := SketchRuns.one_queued in
  (forall k, (k < 3)%nat ->
     NetworkManager.pending (ManagerRuns.drains d k nm)
     = NetworkManager.set_retry_count (Z.of_nat k) (NetworkManager.slot nm 0)
       :: drop 1 (NetworkManager.pending nm))
  /\ NetworkManager.pending (ManagerRuns.drains d 3 nm)
     = drop 1 (NetworkManager.pending nm)
  /\ (forall k, (k < 4)%nat ->
     Sketch.OfflineQueue.pending (SketchRuns.drains d' k q)
     = Sketch.OfflineQueue.set_retry_count (Z.of_nat k)
         (Sketch.OfflineQueue.slot q 0)
       :: drop 1 (Sketch.OfflineQueue.pending q))
  /\ Sketch.OfflineQueue.pending (SketchRuns.drains d' 4 q)
     = drop 1 (Sketch.OfflineQueue.pending q).
Proof.
  apply (drain_retry_exhaustion (ManagerRuns.online 2 false)
           ManagerRuns.one_queued (SketchRuns.online 2 false)
           SketchRuns.one_queued).
  - exact one_queued_ok.
  - vm_compute. reflexivity.
  - reflexivity.
  - reflexivity.
  - reflexivity.
  - exact sketch_one_queued_ok.
  - vm_compute. reflexivity.
  - reflexivity.
  - reflexivity.
  - reflexivity.
Defined.

(** C2 as stated fails on the manager: a message queued once and refused
    by the driver shows retry counts 0, 1 and 2 at the head and is gone
    after the third failed drain, its count never having exceeded 3. *)
Lemma manager_drops_on_third_failure :
  let d := ManagerRuns.online 2 false in
  let nm := ManagerRuns.one_queued in
  map NetworkManager.retry_count (NetworkManager.pending nm) = [0]
  /\ map NetworkManager.retry_count
       (NetworkManager.pending (ManagerRuns.drains d 1 nm)) = [1]
  /\ map NetworkManager.retry_count
       (NetworkManager.pending (ManagerRuns.drains d 2 nm)) = [2]
  /\ NetworkManager.pending (ManagerRuns.drains d 3 nm) = []
  /\ NetworkManager._message_queue_size (ManagerRuns.drains d 3 nm) = 0.
Proof. vm_compute. repeat split; reflexivity. Qed.

(** *** Publishing *)

Section Publish.
Import NetworkManager ManagerRuns.

(** C4 (as amended).  Not connected, [publish] is [queueMessage]: the
    message is queued and the result of the enqueue is returned.
    Connected with the driver refusing the send, the message is queued as
    well, but [publish] returns the send result, false, and not the true
    of the enqueue.  Connected with the driver accepting, it returns true
    and the queue is untouched. *)
Theorem publish_outcomes d tp pl r qo nm :
  (isMQTTConnected nm = false ->
     publish d tp pl r qo nm = queueMessage d tp pl r qo nm)
  /\ (isMQTTConnected nm = true ->
      client_publish d (c_str tp) (c_str pl) r = false ->
      fst (publish d tp pl r qo nm) = false
      /\ fst (queueMessage d tp pl r qo nm) = true
      /\ pending (snd (publish d tp pl r qo nm))
         = pending (snd (queueMessage d tp pl r qo nm))
      /\ _message_queue_size (snd (publish d tp pl r qo nm))
         = _message_queue_size (snd (queueMessage d tp pl r qo nm)))
  /\ (isMQTTConnected nm = true ->
      client_publish d (c_str tp) (c_str pl) r = true ->
      fst (publish d tp pl r qo nm) = true
      /\ pending (snd (publish d tp pl r qo nm)) = pending nm
      /\ _message_queue_size (snd (publish d tp pl r qo nm))
         = _message_queue_size nm).
Proof.
  split; [|split].
  - intros Hc. unfold publish. rewrite Hc. reflexivity.
  - intros Hc Hsend. unfold publish. rewrite Hc. cbn [negb].
    assert ((if qo =? 0
             then client_publish d (c_str tp) (c_str pl) r
             else client_publish d (c_str tp) (c_str pl) r) = false) as ->
      by (destruct (qo =? 0); exact Hsend).
    cbv zeta. cbn [fst snd].
    split; [reflexivity|]. split; [reflexivity|].
    unfold queueMessage. cbv zeta. cbn.
    destruct (MAX_QUEUE_SIZE <=? _message_queue_size nm); split; reflexivity.
  - intros Hc Hsend. unfold publish. rewrite Hc. cbn [negb].
    assert ((if qo =? 0
             then client_publish d (c_str tp) (c_str pl) r
             else client_publish d (c_str tp) (c_str pl) r) = true) as ->
      by (destruct (qo =? 0); exact Hsend).
    cbv zeta. cbn [fst snd]. repeat split; reflexivity.
Qed.

End Publish.

Lemma publish_outcomes_witness :
  let d := ManagerRuns.online 7 false in
  let nm := ManagerRuns.connected_manager in
  let res := NetworkManager.publish d ManagerRuns.topic_status
               ManagerRuns.payload_empty true 0 nm in
  fst res = false
  /\ fst (NetworkManager.queueMessage d ManagerRuns.topic_status
            ManagerRuns.payload_empty true 0 nm) = true
  /\ NetworkManager.pending (snd res)
     = NetworkManager.pending
         (snd (NetworkManager.queueMessage d ManagerRuns.topic_status
                 ManagerRuns.payload_empty true 0 nm))
  /\ NetworkManager._message_queue_size (snd res)
     = NetworkManager._message_queue_size
         (snd (NetworkManager.queueMessage d ManagerRuns.topic_status
                 ManagerRuns.payload_empty true 0 nm)).
Proof.
  pose proof (publish_outcomes (ManagerRuns.online 7 false)
                ManagerRuns.topic_status ManagerRuns.payload_empty true 0
                ManagerRuns.connected_manager) as (_ & H & _).
  apply H; reflexivity.
Defined.

(** C4 as stated fails: with the session connected and the driver refusing
    the send, the message is queued (one entry pending), the enqueue
    itself returns true, and [publish] returns false. *)
Lemma publish_returns_send_result :
  let d := ManagerRuns.online 7 false in
  let nm := ManagerRuns.connected_manager in
  NetworkManager.isMQTTConnected nm = true
  /\ fst (NetworkManager.publish d ManagerRuns.topic_status
            ManagerRuns.payload_empty true 0 nm) = false
  /\ fst (NetworkManager.queueMessage d ManagerRuns.topic_status
            ManagerRuns.payload_empty true 0 nm) = true
  /\ NetworkManager._message_queue_size
       (snd (NetworkManager.publish d ManagerRuns.topic_status
               ManagerRuns.payload_empty true 0 nm)) = 1.
Proof. vm_compute. repeat split; reflexivity. Qed.

(** *** Session follows link *)

(** Case split on the conditions a function body branches on. *)
Ltac split_branches :=
  repeat match goal with
         | |- context [if ?c then _ else _] => destruct c
         | |- context [match ?x with _ => _ end] => destruct x
         end.

Section SessionDependency.
Import NetworkManager ManagerRuns.

Lemma setMQTTState_state state error nm :
  _mqtt_state (setMQTTState state error nm) = state.
Proof.
  unfold setMQTTState, setError.
  destruct (bool_decide (_mqtt_state nm <> state)) eqn:E.
  - split_branches; reflexivity.
  - apply bool_decide_eq_false in E.
    destruct (decide (_mqtt_state nm = state)); [assumption | contradiction].
Qed.

Lemma setWiFiState_state state error nm :
  _wifi_state (setWiFiState state error nm) = state.
Proof.
  unfold setWiFiState, setError.
  destruct (bool_decide (_wifi_state nm <> state)) eqn:E.
  - split_branches; reflexivity.
  - apply bool_decide_eq_false in E.
    destruct (decide (_wifi_state nm = state)); [assumption | contradiction].
Qed.

Lemma setWiFiState_session state error nm :
  _mqtt_state (setWiFiState state error nm) = _mqtt_state nm.
Proof. unfold setWiFiState, setError. split_branches; reflexivity. Qed.

Lemma remove_head_session nm : _mqtt_state (remove_head nm) = _mqtt_state nm.
Proof. reflexivity. Qed.

Lemma processMessageQueue_session d nm :
  _mqtt_state (processMessageQueue d nm) = _mqtt_state nm.
Proof. unfold processMessageQueue. split_branches; reflexivity. Qed.

Lemma updateStats_session d nm :
  _mqtt_state (updateStats d nm) = _mqtt_state nm.
Proof. unfold updateStats. cbv zeta. split_branches; reflexivity. Qed.

Lemma feedWatchdog_guarded d nm :
  (if _watchdog_enabled nm then feedWatchdog d nm else nm) = feedWatchdog d nm.
Proof. unfold feedWatchdog. destruct (_watchdog_enabled nm); reflexivity. Qed.

(** The guard at the top of [updateMQTT]. *)
Lemma updateMQTT_link_down d nm :
  isWiFiConnected nm = false -> _mqtt_state (updateMQTT d nm) = MQTT_IDLE.
Proof.
  intros Hdown. unfold updateMQTT. rewrite Hdown. cbn [negb].
  destruct (bool_decide (_mqtt_state nm <> MQTT_IDLE)) eqn:E.
  - apply setMQTTState_state.
  - apply bool_decide_eq_false in E.
    destruct (decide (_mqtt_state nm = MQTT_IDLE)); [assumption | contradiction].
Qed.

(** A link that was up and whose driver no longer reports it up leaves
    [updateWiFi] in [WIFI_RECONNECTING]. *)
Lemma updateWiFi_loss d nm :
  _wifi_state nm = WIFI_CONNECTED -> wifi_status d <> WL_CONNECTED ->
  _wifi_state (updateWiFi d nm) = WIFI_RECONNECTING.
Proof.
  intros Hup Hlost. unfold updateWiFi. rewrite Hup. cbv zeta.
  rewrite bool_decide_eq_true_2 by assumption.
  apply setWiFiState_state.
Qed.

Variable updateHealthCheck : Driver -> t -> t.

(** The health check, whose body is not part of the sources, is taken
    not to write the session state. *)
Hypothesis health_check_keeps_session :
  forall d nm, _mqtt_state (updateHealthCheck d nm) = _mqtt_state nm.

Lemma update_session d nm :
  _mqtt_state (update updateHealthCheck d nm)
  = _mqtt_state (updateMQTT d (updateWiFi d (feedWatchdog d nm))).
Proof.
  unfold update. cbv zeta. rewrite feedWatchdog_guarded.
  set (nm2 := updateMQTT d (updateWiFi d (feedWatchdog d nm))).
  set (nm3 := if isMQTTConnected nm2 then emit Loop nm2 else nm2).
  assert (_mqtt_state nm3 = _mqtt_state nm2) as H3
    by (unfold nm3; destruct (isMQTTConnected nm2); reflexivity).
  set (nm4 := processMessageQueue d nm3).
  assert (_mqtt_state nm4 = _mqtt_state nm2) as H4
    by (unfold nm4; rewrite processMessageQueue_session; exact H3).
  set (nm5 := if _ <? _ then _ else nm4).
  assert (_mqtt_state nm5 = _mqtt_state nm2) as H5.
  { unfold nm5. destruct (_ <? _); [|exact H4].
    cbn. rewrite health_check_keeps_session. exact H4. }
  set (nm6 := updateStats d nm5).
  assert (_mqtt_state nm6 = _mqtt_state nm2) as H6
    by (unfold nm6; rewrite updateStats_session; exact H5).
  split_branches; exact H6.
Qed.

(** C5.  In one call of [update]: when the link state machine leaves the
    link not Connected, the session state is [MQTT_IDLE] when the call
    returns; in particular when the link was Connected and the driver
    reports it lost during this call. *)
Theorem session_idle_when_link_down d nm :
  (isWiFiConnected (updateWiFi d (feedWatchdog d nm)) = false ->
     _mqtt_state (update updateHealthCheck d nm) = MQTT_IDLE)
  /\ (_wifi_state nm = WIFI_CONNECTED -> wifi_status d <> WL_CONNECTED ->
      _wifi_state (updateWiFi d (feedWatchdog d nm)) = WIFI_RECONNECTING
      /\ _mqtt_state (update updateHealthCheck d nm) = MQTT_IDLE).
Proof.
  split.
  - intros Hdown. rewrite update_session. now apply updateMQTT_link_down.
  - intros Hup Hlost.
    assert (_wifi_state (updateWiFi d (feedWatchdog d nm)) = WIFI_RECONNECTING)
      as Hre.
    { apply updateWiFi_loss; [|assumption].
      unfold feedWatchdog. destruct (_watchdog_enabled nm); exact Hup. }
    split; [exact Hre|].
    rewrite update_session. apply updateMQTT_link_down.
    unfold isWiFiConnected. rewrite Hre. reflexivity.
Qed.

End SessionDependency.

Lemma session_idle_when_link_down_witness :
  let d := ManagerRuns.link_lost 1000 in
  let nm := ManagerRuns.connected_manager in
  NetworkManager._wifi_state
    (NetworkManager.updateWiFi d (NetworkManager.feedWatchdog d nm))
  = NetworkManager.WIFI_RECONNECTING
  /\ NetworkManager._mqtt_state (NetworkManager.update (fun _ nm => nm) d nm)
     = NetworkManager.MQTT_IDLE.
Proof.
  pose proof (session_idle_when_link_down (fun _ nm => nm)
                (fun _ _ => eq_refl) (ManagerRuns.link_lost 1000)
                ManagerRuns.connected_manager) as [_ H].
  apply H; [reflexivity | discriminate].
Defined.

(** *** Presence detector *)

(** Unfold one call of [checkBeacon] and split on every test it makes. *)
Ltac run_checkBeacon :=
  unfold DetectorRuns.observe, DetectorRuns.effects_of,
    Sketch.BooleanPresenceDetector.checkBeacon,
    Sketch.BooleanPresenceDetector.updateGracePeriod,
    Sketch.BooleanPresenceDetector.endGracePeriod,
    Sketch.BooleanPresenceDetector.startGracePeriod,
    Sketch.BooleanPresenceDetector.updatePresenceStatus,
    Sketch.BooleanPresenceDetector.getPresence;
  cbv zeta; cbn;
  repeat (match goal with
          | |- context [if ?c then _ else _] => destruct c eqn:?
          end; cbn).

(** Turn the recorded outcomes of boolean tests into propositions. *)
Ltac bool_facts :=
  repeat match goal with
         | H : _ && _ = true |- _ => apply andb_true_iff in H; destruct H
         | H : _ && _ = false |- _ => apply andb_false_iff in H; destruct H
         | H : _ || _ = true |- _ => apply orb_true_iff in H; destruct H
         | H : _ || _ = false |- _ => apply orb_false_iff in H; destruct H
         | H : negb _ = true |- _ => apply negb_true_iff in H
         | H : negb _ = false |- _ => apply negb_false_iff in H
         | H : (_ <=? _) = true |- _ => apply Z.leb_le in H
         | H : (_ <=? _) = false |- _ => apply Z.leb_gt in H
         | H : (_ <? _) = true |- _ => apply Z.ltb_lt in H
         | H : (_ <? _) = false |- _ => apply Z.ltb_ge in H
         | H : (_ =? _) = true |- _ => apply Z.eqb_eq in H
         | H : (_ =? _) = false |- _ => apply Z.eqb_neq in H
         end.

(** Replace the configuration names by their values. *)
Ltac config_values :=
  unfold Sketch.BooleanPresenceDetector.CONFIRM_SCANS,
    Sketch.BooleanPresenceDetector.CONFIRM_ABSENCE_SCANS,
    Sketch.BLE_GRACE_PERIOD_MS, Sketch.BLE_RECONNECT_MAX_ATTEMPTS,
    Sketch.BLE_SIGNAL_STRENGTH_THRESHOLD in *.

Section Detector.
Import Sketch Sketch.BooleanPresenceDetector DetectorRuns.

Lemma int_incr_le x : INT_MIN <= x -> INT_MIN <= int_incr x <= x + 1.
Proof.
  intros Hx. split; [apply wrap_int_range|].
  unfold int_incr, int_add.
  destruct (decide (x + 1 <= INT_MAX)) as [Hle|Hgt].
  - rewrite wrap_int_id by lia. lia.
  - pose proof (wrap_int_range (x + 1)). lia.
Qed.

Lemma int_incr_exact x : INT_MIN <= x < INT_MAX -> int_incr x = x + 1.
Proof. intros Hx. unfold int_incr, int_add. apply wrap_int_id. lia. Qed.

(** A found result below the signal threshold: the detection counter is
    incremented and the miss counter reset before the filter returns. *)
Lemma checkBeacon_weak pd r now later :
  r <> 0 -> r < BLE_SIGNAL_STRENGTH_THRESHOLD ->
  checkBeacon true r now later pd
  = (set_consecutiveMisses 0
       (set_consecutiveDetections (int_incr (consecutiveDetections pd))
          (set_lastDetectionTime now pd)), []).
Proof.
  intros Hr Hweak. unfold checkBeacon. cbv zeta.
  replace (r =? 0) with false by (symmetry; apply Z.eqb_neq; assumption).
  replace (r <? BLE_SIGNAL_STRENGTH_THRESHOLD) with true
    by (symmetry; apply Z.ltb_lt; assumption).
  reflexivity.
Qed.

(** The counters never run ahead of the current run of equal outcomes. *)
Lemma observe_counters pd s n m :
  INT_MIN <= consecutiveDetections pd <= Z.of_nat n ->
  INT_MIN <= consecutiveMisses pd <= Z.of_nat m ->
  INT_MIN <= consecutiveDetections (observe pd s)
          <= Z.of_nat (if found s then S n else O)
  /\ INT_MIN <= consecutiveMisses (observe pd s)
             <= Z.of_nat (if found s then O else S m).
Proof.
  intros Hd Hm.
  pose proof (int_incr_le (consecutiveDetections pd) ltac:(lia)).
  pose proof (int_incr_le (consecutiveMisses pd) ltac:(lia)).
  destruct s as [f r tn tl]. destruct f; run_checkBeacon;
    unfold INT_MIN in *; lia.
Qed.

Lemma feed_snoc pd pre s : feed pd (pre ++ [s]) = observe (feed pd pre) s.
Proof. unfold feed. now rewrite fold_left_app. Qed.

Lemma run_length_snoc b pre s :
  run_length b (pre ++ [s])
  = if Bool.eqb (found s) b then S (run_length b pre) else O.
Proof. unfold run_length. now rewrite fold_left_app. Qed.

Lemma feed_counters pre :
  INT_MIN <= consecutiveDetections (feed new pre)
          <= Z.of_nat (run_length true pre)
  /\ INT_MIN <= consecutiveMisses (feed new pre)
             <= Z.of_nat (run_length false pre).
Proof.
  induction pre as [|s pre IH] using rev_ind.
  - simpl. unfold INT_MIN. lia.
  - rewrite feed_snoc, !run_length_snoc. destruct IH as [Hd Hm].
    pose proof (observe_counters _ s _ _ Hd Hm) as H.
    destruct (found s); exact H.
Qed.

(** Presence is confirmed only by a found result that brings the detection
    counter to [CONFIRM_SCANS]. *)
Lemma arrival_step pd s :
  currentPresence pd = false -> currentPresence (observe pd s) = true ->
  found s = true /\ 2 <= int_incr (consecutiveDetections pd).
Proof.
  destruct pd as [cp lk ld lc gs ig ga cd cm], s as [f r tn tl].
  cbn. intros ->. destruct f; run_checkBeacon; intros; bool_facts;
    try discriminate; split; try reflexivity; assumption.
Qed.

(** Presence is withdrawn only inside a grace period, by a miss that finds
    the miss counter at [CONFIRM_ABSENCE_SCANS] or more. *)
Lemma departure_step pd s :
  currentPresence pd = true -> currentPresence (observe pd s) = false ->
  inGracePeriod pd = true /\ found s = false
  /\ 3 <= int_incr (consecutiveMisses pd).
Proof.
  destruct pd as [cp lk ld lc gs ig ga cd cm], s as [f r tn tl].
  cbn. intros ->. destruct f; run_checkBeacon; intros; bool_facts;
    try discriminate; repeat split; try reflexivity; assumption.
Qed.

(** A grace period starts only for a present detector, on such a miss, and
    leaves presence as it is. *)
Lemma grace_entry_step pd s :
  inGracePeriod pd = false -> inGracePeriod (observe pd s) = true ->
  currentPresence pd = true /\ currentPresence (observe pd s) = true
  /\ found s = false /\ 3 <= int_incr (consecutiveMisses pd).
Proof.
  destruct pd as [cp lk ld lc gs ig ga cd cm], s as [f r tn tl].
  cbn. intros ->. destruct f; run_checkBeacon; intros; bool_facts;
    try discriminate; repeat split; try reflexivity; assumption.
Qed.

(** C7.  Fed any sequence of scan outcomes from its initial state, the
    detector confirms presence (false to true) only on a found result that
    completes a run of at least 2 consecutive found results; it withdraws
    presence (true to false) only when a grace period is already active,
    on a miss that completes a run of at least 3 consecutive misses; and a
    grace period starts only for a present detector, on such a miss,
    without changing presence. *)
Theorem presence_hysteresis (pre : list Scan) (s : Scan) :
  let before := feed new pre in
  let after := feed new (pre ++ [s]) in
  (currentPresence before = false -> currentPresence after = true ->
     found s = true /\ (2 <= run_length true (pre ++ [s]))%nat)
  /\ (currentPresence before = true -> currentPresence after = false ->
      inGracePeriod before = true /\ found s = false
      /\ (3 <= run_length false (pre ++ [s]))%nat)
  /\ (inGracePeriod before = false -> inGracePeriod after = true ->
      currentPresence before = true /\ currentPresence after = true
      /\ found s = false /\ (3 <= run_length false (pre ++ [s]))%nat).
Proof.
  intros before after. subst after. rewrite feed_snoc. fold before.
  destruct (feed_counters pre) as [Hd Hm]. fold before in Hd, Hm.
  pose proof (int_incr_le (consecutiveDetections before) ltac:(lia)) as Hid.
  pose proof (int_incr_le (consecutiveMisses before) ltac:(lia)) as Him.
  rewrite !run_length_snoc.
  split; [|split].
  - intros Hb Ha. destruct (arrival_step before s Hb Ha) as [Hf H2].
    split; [assumption|]. rewrite Hf. simpl. lia.
  - intros Hb Ha. destruct (departure_step before s Hb Ha) as (Hg & Hf & H3).
    repeat split; try assumption. rewrite Hf. simpl. lia.
  - intros Hb Ha.
    destruct (grace_entry_step before s Hb Ha) as (Hp & Hp' & Hf & H3).
    repeat split; try assumption. rewrite Hf. simpl. lia.
Qed.

End Detector.

Lemma presence_hysteresis_witness :
  let pre := [DetectorRuns.miss 0; DetectorRuns.hit 2000] in
  let s := DetectorRuns.hit 4000 in
  DetectorRuns.found s = true
  /\ (2 <= DetectorRuns.run_length true (pre ++ [s]))%nat.
Proof.
  pose proof (presence_hysteresis
                [DetectorRuns.miss 0; DetectorRuns.hit 2000]
                (DetectorRuns.hit 4000)) as (H & _ & _).
  apply H; reflexivity.
Defined.

(** C6, evaluated.  A found result at -90 dBm, below the threshold of
    -80 dBm, does advance the detection counter (0 to 1) and resets the
    miss counter (2 to 0); confirmed presence and the grace-period flag are
    left as they were.  As a consequence a single accepted detection that
    follows a weak one confirms presence, which two accepted detections
    are meant to do. *)
Theorem weak_signal_advances_detection_counter :
  let weak := Sketch.BooleanPresenceDetector.checkBeacon true (-90) 1000 1000
                Sketch.BooleanPresenceDetector.new in
  Sketch.BooleanPresenceDetector.consecutiveDetections
    Sketch.BooleanPresenceDetector.new = 0
  /\ Sketch.BooleanPresenceDetector.consecutiveDetections (fst weak) = 1
  /\ Sketch.BooleanPresenceDetector.currentPresence (fst weak) = false
  /\ Sketch.BooleanPresenceDetector.inGracePeriod (fst weak) = false
  /\ snd weak = []
  /\ Sketch.BooleanPresenceDetector.currentPresence
       (DetectorRuns.feed Sketch.BooleanPresenceDetector.new
          [DetectorRuns.weak_hit 1000; DetectorRuns.hit 3000]) = true
  /\ Sketch.BooleanPresenceDetector.currentPresence
       (DetectorRuns.feed Sketch.BooleanPresenceDetector.new
          [DetectorRuns.hit 3000]) = false
  /\ Sketch.BooleanPresenceDetector.consecutiveMisses
       (DetectorRuns.feed Sketch.BooleanPresenceDetector.new
          [DetectorRuns.hit 0; DetectorRuns.hit 1; DetectorRuns.miss 2;
           DetectorRuns.miss 3]) = 2
  /\ Sketch.BooleanPresenceDetector.consecutiveMisses
       (DetectorRuns.feed Sketch.BooleanPresenceDetector.new
          [DetectorRuns.hit 0; DetectorRuns.hit 1; DetectorRuns.miss 2;
           DetectorRuns.miss 3; DetectorRuns.weak_hit 4]) = 0.
Proof. vm_compute. repeat split; reflexivity. Qed.

(** *** Grace period *)

Section GracePeriod.
Import Sketch Sketch.BooleanPresenceDetector DetectorRuns.

Lemma feed_effects_app pd a b :
  feed_effects pd (a ++ b) = feed_effects pd a ++ feed_effects (feed pd a) b.
Proof.
  revert pd. induction a as [|s a IH]; intros pd; simpl; [reflexivity|].
  rewrite IH, app_assoc. reflexivity.
Qed.

Lemma feed_app pd a b : feed pd (a ++ b) = feed (feed pd a) b.
Proof. unfold feed. apply fold_left_app. Qed.

(** An accepted found result during a grace period ends it: presence stays
    confirmed and nothing is published. *)
Lemma reconnect_step pd r now later :
  inGracePeriod pd = true -> currentPresence pd = true -> accepted r = true ->
  currentPresence (fst (checkBeacon true r now later pd)) = true
  /\ inGracePeriod (fst (checkBeacon true r now later pd)) = false
  /\ getPresence (fst (checkBeacon true r now later pd)) = true
  /\ snd (checkBeacon true r now later pd) = [].
Proof.
  destruct pd as [cp lk ld lc gs ig ga cd cm]. cbn. intros -> -> Hacc.
  unfold accepted in Hacc. run_checkBeacon; bool_facts; config_values;
    try lia; try discriminate; repeat split; reflexivity.
Qed.

(** A miss during a grace period that is not over yet: one more attempt is
    counted and nothing else changes. *)
Lemma waiting_step pd s :
  inGracePeriod pd = true -> currentPresence pd = true ->
  3 <= int_incr (consecutiveMisses pd) ->
  found s = false -> expires pd (t_now s) = false ->
  inGracePeriod (observe pd s) = true
  /\ currentPresence (observe pd s) = true
  /\ gracePeriodStartTime (observe pd s) = gracePeriodStartTime pd
  /\ gracePeriodAttempts (observe pd s) = int_incr (gracePeriodAttempts pd)
  /\ consecutiveMisses (observe pd s) = int_incr (consecutiveMisses pd)
  /\ effects_of pd s = [].
Proof.
  destruct pd as [cp lk ld lc gs ig ga cd cm], s as [f r tn tl].
  unfold expires. cbn. intros -> -> Hcm -> Hexp.
  run_checkBeacon; bool_facts; config_values; try lia; try discriminate;
    repeat split; reflexivity.
Qed.

(** The miss at which the grace period is over: presence is withdrawn and
    the change is published, once. *)
Lemma expiry_step pd s :
  inGracePeriod pd = true -> currentPresence pd = true ->
  3 <= int_incr (consecutiveMisses pd) ->
  found s = false -> expires pd (t_now s) = true ->
  inGracePeriod (observe pd s) = false
  /\ currentPresence (observe pd s) = false
  /\ effects_of pd s = [PublishPresenceUpdate false; UpdateMainDisplay].
Proof.
  destruct pd as [cp lk ld lc gs ig ga cd cm], s as [f r tn tl].
  unfold expires. cbn. intros -> -> Hcm -> Hexp.
  run_checkBeacon; bool_facts; config_values; try lia; try discriminate;
    repeat split; reflexivity.
Qed.

(** Misses while absent change nothing that is visible. *)
Lemma absent_misses rest :
  forall pd, currentPresence pd = false ->
             Forall (fun m => found m = false) rest ->
             currentPresence (feed pd rest) = false
             /\ feed_effects pd rest = [].
Proof.
  induction rest as [|s rest IH]; intros pd Hp Hall; [split; [exact Hp | reflexivity]|].
  inversion Hall as [|? ? Hs Hrest]; subst.
  assert (currentPresence (observe pd s) = false /\ effects_of pd s = [])
    as [Hp' He].
  { destruct pd as [cp lk ld lc gs ig ga cd cm], s as [f r tn tl].
    cbn in Hp, Hs. subst. run_checkBeacon; split; reflexivity. }
  destruct (IH (observe pd s) Hp' Hrest) as [Hfin Hfx].
  split; [exact Hfin|]. simpl. rewrite He, Hfx. reflexivity.
Qed.

(** A run of misses, none of which ends the grace period. *)
Lemma waiting_misses ms :
  forall pd,
    inGracePeriod pd = true -> currentPresence pd = true ->
    2 <= consecutiveMisses pd ->
    consecutiveMisses pd + Z.of_nat (length ms) < INT_MAX ->
    0 <= gracePeriodAttempts pd ->
    gracePeriodAttempts pd + Z.of_nat (length ms) < BLE_RECONNECT_MAX_ATTEMPTS ->
    Forall (fun m => found m = false
                     /\ ulong_sub (t_now m) (gracePeriodStartTime pd)
                        < BLE_GRACE_PERIOD_MS) ms ->
    inGracePeriod (feed pd ms) = true
    /\ currentPresence (feed pd ms) = true
    /\ gracePeriodStartTime (feed pd ms) = gracePeriodStartTime pd
    /\ gracePeriodAttempts (feed pd ms)
       = gracePeriodAttempts pd + Z.of_nat (length ms)
    /\ consecutiveMisses (feed pd ms)
       = consecutiveMisses pd + Z.of_nat (length ms)
    /\ feed_effects pd ms = [].
Proof.
  unfold BLE_RECONNECT_MAX_ATTEMPTS, BLE_GRACE_PERIOD_MS.
  induction ms as [|s ms IH]; intros pd Hg Hp Hcm Hcmax Ha Hamax Hall.
  - simpl. repeat split; try assumption; lia.
  - inversion Hall as [|? ? [Hs Ht] Hrest]; subst.
    cbn [length] in *.
    assert (int_incr (consecutiveMisses pd) = consecutiveMisses pd + 1) as Hic
      by (apply int_incr_exact; unfold INT_MIN, INT_MAX in *; lia).
    assert (int_incr (gracePeriodAttempts pd) = gracePeriodAttempts pd + 1)
      as Hia by (apply int_incr_exact; unfold INT_MIN, INT_MAX in *; lia).
    assert (expires pd (t_now s) = false) as Hexp.
    { unfold expires, BLE_RECONNECT_MAX_ATTEMPTS, BLE_GRACE_PERIOD_MS.
      rewrite Hia. apply orb_false_iff. split.
      - apply Z.leb_gt. assumption.
      - apply Z.leb_gt. lia. }
    destruct (waiting_step pd s Hg Hp ltac:(lia) Hs Hexp)
      as (Hg' & Hp' & Hst & Hat & Hcm' & Hfx).
    destruct (IH (observe pd s) Hg' Hp') as (H1 & H2 & H3 & H4 & H5 & H6).
    + lia.
    + lia.
    + lia.
    + lia.
    + rewrite Hst. exact Hrest.
    + change (feed pd (s :: ms)) with (feed (observe pd s) ms).
      split; [exact H1|]. split; [exact H2|].
      split; [rewrite H3; exact Hst|].
      split; [rewrite H4, Hat, Hia; lia|].
      split; [rewrite H5, Hcm', Hic; lia|].
      simpl. rewrite Hfx, H6. reflexivity.
Qed.

(** C8 (as amended).  From a detector whose grace period is active
    (present, with the miss counter at 2 or more): as long as every scan is
    a miss taken less than 60000 ms after the start of the grace period and
    fewer than 12 attempts are counted, presence stays confirmed, the
    grace period stays active and nothing is published; an accepted found
    result at that point keeps presence true and clears the grace-period
    flag, publishing nothing; the first miss at which 60000 ms have elapsed
    or the 12th attempt is counted withdraws presence and publishes the
    change; over the whole run, whatever misses follow, the change is
    published exactly once and presence stays false. *)
Theorem grace_period_boundary pd ms s rest r now later :
  inGracePeriod pd = true -> currentPresence pd = true ->
  2 <= consecutiveMisses pd ->
  consecutiveMisses pd + Z.of_nat (length ms) + 1 < INT_MAX ->
  0 <= gracePeriodAttempts pd ->
  gracePeriodAttempts pd + Z.of_nat (length ms) < BLE_RECONNECT_MAX_ATTEMPTS ->
  Forall (fun m => found m = false
                   /\ ulong_sub (t_now m) (gracePeriodStartTime pd)
                      < BLE_GRACE_PERIOD_MS) ms ->
  found s = false ->
  (BLE_GRACE_PERIOD_MS <= ulong_sub (t_now s) (gracePeriodStartTime pd)
   \/ BLE_RECONNECT_MAX_ATTEMPTS
      <= gracePeriodAttempts pd + Z.of_nat (length ms) + 1) ->
  Forall (fun m => found m = false) rest ->
  accepted r = true ->
  (currentPresence (feed pd ms) = true
   /\ inGracePeriod (feed pd ms) = true
   /\ feed_effects pd ms = [])
  /\ (currentPresence (fst (checkBeacon true r now later (feed pd ms))) = true
      /\ inGracePeriod (fst (checkBeacon true r now later (feed pd ms))) = false
      /\ snd (checkBeacon true r now later (feed pd ms)) = [])
  /\ (currentPresence (feed pd (ms ++ [s])) = false
      /\ inGracePeriod (feed pd (ms ++ [s])) = false)
  /\ feed_effects pd (ms ++ s :: rest)
     = [PublishPresenceUpdate false; UpdateMainDisplay]
  /\ currentPresence (feed pd (ms ++ s :: rest)) = false.
Proof.
  intros Hg Hp Hcm Hcmax Ha Hamax Hall Hs Hexp Hrest Hacc.
  destruct (waiting_misses ms pd Hg Hp Hcm ltac:(lia) Ha Hamax Hall)
    as (Hg1 & Hp1 & Hst & Hat & Hcm1 & Hfx1).
  set (pd1 := feed pd ms) in *.
  unfold BLE_RECONNECT_MAX_ATTEMPTS, BLE_GRACE_PERIOD_MS in *.
  assert (int_incr (consecutiveMisses pd1) = consecutiveMisses pd1 + 1) as Hic
    by (apply int_incr_exact; unfold INT_MIN, INT_MAX in *; lia).
  assert (int_incr (gracePeriodAttempts pd1) = gracePeriodAttempts pd1 + 1)
    as Hia by (apply int_incr_exact; unfold INT_MIN, INT_MAX in *; lia).
  assert (expires pd1 (t_now s) = true) as Hexp1.
  { unfold expires, BLE_RECONNECT_MAX_ATTEMPTS, BLE_GRACE_PERIOD_MS.
    rewrite Hia, Hst, Hat. apply orb_true_iff.
    destruct Hexp; [left | right]; apply Z.leb_le; lia. }
  destruct (expiry_step pd1 s Hg1 Hp1 ltac:(lia) Hs Hexp1) as (Hg2 & Hp2 & Hfx2).
  destruct (absent_misses rest (observe pd1 s) Hp2 Hrest) as [Hp3 Hfx3].
  destruct (reconnect_step pd1 r now later Hg1 Hp1 Hacc) as (R1 & R2 & _ & R4).
  split; [repeat split; assumption|].
  split; [repeat split; assumption|].
  split; [rewrite feed_snoc; fold pd1; split; assumption|].
  split.
  - rewrite feed_effects_app. fold pd1. rewrite Hfx1. simpl.
    rewrite Hfx2, Hfx3. reflexivity.
  - rewrite feed_app. fold pd1. exact Hp3.
Qed.

End GracePeriod.

Lemma grace_period_boundary_witness :
  let pd := DetectorRuns.grace_just_started in
  let ms := [DetectorRuns.miss 9000; DetectorRuns.miss 14000] in
  let s := DetectorRuns.miss 64000 in
  let rest := [DetectorRuns.miss 70000] in
  Sketch.BooleanPresenceDetector.currentPresence
    (DetectorRuns.feed pd (ms ++ [s])) = false
  /\ DetectorRuns.feed_effects pd (ms ++ s :: rest)
     = [Sketch.BooleanPresenceDetector.PublishPresenceUpdate false;
        Sketch.BooleanPresenceDetector.UpdateMainDisplay].
Proof.
  pose proof (grace_period_boundary DetectorRuns.grace_just_started
                [DetectorRuns.miss 9000; DetectorRuns.miss 14000]
                (DetectorRuns.miss 64000) [DetectorRuns.miss 70000]
                0 20000 20000) as H.
  destruct H as (_ & _ & [H3 _] & H4 & _).
  - reflexivity.
  - reflexivity.
  - vm_compute. discriminate.
  - vm_compute. reflexivity.
  - vm_compute. discriminate.
  - vm_compute. reflexivity.
  - repeat constructor.
  - reflexivity.
  - left. vm_compute. discriminate.
  - repeat constructor.
  - reflexivity.
  - split; [exact H3 | exact H4].
Defined.

(** C8 as stated fails: with the grace period started at 4000 ms and a miss
    every second, presence is still confirmed after eleven misses and is
    withdrawn by the twelfth, 12000 ms after the start, long before the
    60000 ms window is over.  And a found result below the signal threshold
    leaves the grace-period flag set. *)
Lemma grace_ends_before_window :
  let pd := DetectorRuns.grace_just_started in
  let early := map DetectorRuns.miss
                 [5000; 6000; 7000; 8000; 9000; 10000; 11000; 12000; 13000;
                  14000; 15000] in
  Sketch.BooleanPresenceDetector.inGracePeriod pd = true
  /\ Sketch.BooleanPresenceDetector.gracePeriodStartTime pd = 4000
  /\ Sketch.BooleanPresenceDetector.currentPresence
       (DetectorRuns.feed pd early) = true
  /\ Sketch.BooleanPresenceDetector.currentPresence
       (DetectorRuns.feed pd (early ++ [DetectorRuns.miss 16000])) = false
  /\ ulong_sub 16000 4000 = 12000
  /\ 12000 < Sketch.BLE_GRACE_PERIOD_MS
  /\ Sketch.BooleanPresenceDetector.inGracePeriod
       (DetectorRuns.feed pd [DetectorRuns.weak_hit 5000]) = true.
Proof. vm_compute. repeat split; reflexivity. Qed.

(** *** Adaptive scanner modes *)

(** Unfold one scan of the scanner and split on every test it makes. *)
Ltac run_recordScan :=
  unfold Sketch.AdaptiveBLEScanner.recordScan,
    Sketch.AdaptiveBLEScanner.updateScanMode,
    Sketch.AdaptiveBLEScanner.countScan,
    Sketch.AdaptiveBLEScanner.updateStats;
  cbv zeta; cbn;
  repeat (match goal with
          | |- context [?a <=? ?b] => destruct (a <=? b) eqn:?
          | |- context [?a <? ?b] => destruct (a <? b) eqn:?
          end; cbn);
  repeat (match goal with
          | |- context [bool_decide ?P] =>
              first [ rewrite (bool_decide_eq_true_2 P) by discriminate
                    | rewrite (bool_decide_eq_false_2 P) by congruence ]
          end; cbn).

Section Scanner.
Import Sketch Sketch.AdaptiveBLEScanner ScannerRuns.

Lemma scans_snoc sc l x :
  scans sc (l ++ [x]) = recordScan (fst x) (snd x) (scans sc l).
Proof. unfold scans. now rewrite fold_left_app. Qed.

Lemma scan_run_snoc b l x :
  run_length b (l ++ [x])
  = if Bool.eqb (fst x) b then S (run_length b l) else O.
Proof. unfold run_length. now rewrite fold_left_app. Qed.

Lemma stays_last m l : forall sc, stays m sc l -> currentMode (scans sc l) = m.
Proof.
  induction l as [|x l IH]; intros sc H; simpl in *; [exact H|].
  apply IH, H.
Qed.

Lemma stays_snoc m l x :
  forall sc, stays m sc (l ++ [x]) -> stays m sc l.
Proof.
  induction l as [|y l IH]; intros sc H; simpl in *; [apply H|].
  destruct H as [H1 H2]. split; [exact H1 | apply IH, H2].
Qed.

(** One scan while Searching with fewer than two detections in a row so
    far: the switch to Verifying happens exactly when this scan is the
    second detection in a row. *)
Lemma searching_step f now sc :
  currentMode sc = SEARCHING -> 0 <= consecutiveDetections sc < 2 ->
  (currentMode (recordScan f now sc) = VERIFYING
   /\ f = true /\ consecutiveDetections sc = 1)
  \/ (currentMode (recordScan f now sc) = SEARCHING
      /\ consecutiveDetections (recordScan f now sc)
         = (if f then consecutiveDetections sc + 1 else 0)
      /\ consecutiveDetections (recordScan f now sc) < 2).
Proof.
  destruct sc as [m ls mc sr cd cm ptr st]. cbn. intros -> Hcd.
  assert (int_incr cd = cd + 1) as Hi
    by (apply int_incr_exact; unfold INT_MIN, INT_MAX; lia).
  destruct f; run_recordScan; bool_facts; rewrite ?Hi in *;
    try (left; repeat split; (reflexivity || lia));
    try (right; repeat split; (reflexivity || lia)).
Qed.

(** The same while Monitoring, for misses. *)
Lemma monitoring_step f now sc :
  currentMode sc = MONITORING -> 0 <= consecutiveMisses sc < 2 ->
  (currentMode (recordScan f now sc) = VERIFYING
   /\ f = false /\ consecutiveMisses sc = 1)
  \/ (currentMode (recordScan f now sc) = MONITORING
      /\ consecutiveMisses (recordScan f now sc)
         = (if f then 0 else consecutiveMisses sc + 1)
      /\ consecutiveMisses (recordScan f now sc) < 2).
Proof.
  destruct sc as [m ls mc sr cd cm ptr st]. cbn. intros -> Hcm.
  assert (int_incr cm = cm + 1) as Hi
    by (apply int_incr_exact; unfold INT_MIN, INT_MAX; lia).
  destruct f; run_recordScan; bool_facts; rewrite ?Hi in *;
    try (left; repeat split; (reflexivity || lia));
    try (right; repeat split; (reflexivity || lia)).
Qed.

(** Without a mode switch the detection counter of a Searching scanner is
    the length of the current run of detections, and that is below 2. *)
Lemma searching_counter l :
  forall sc, consecutiveDetections sc = 0 -> stays SEARCHING sc l ->
             consecutiveDetections (scans sc l) = Z.of_nat (run_length true l)
             /\ (run_length true l < 2)%nat.
Proof.
  induction l as [|x l IH] using rev_ind; intros sc Hz Hst.
  - split; [exact Hz | unfold run_length; simpl; lia].
  - pose proof (stays_last _ _ _ Hst) as Hend.
    apply stays_snoc in Hst.
    destruct (IH sc Hz Hst) as [Hcd Hlt].
    pose proof (stays_last _ _ _ Hst) as Hmode.
    rewrite scans_snoc in *. rewrite scan_run_snoc.
    destruct (searching_step (fst x) (snd x) (scans sc l) Hmode ltac:(lia))
      as [(Hv & _) | (_ & Hc & Hc2)]; [congruence|].
    rewrite Hc in *. destruct (fst x); simpl; lia.
Qed.

Lemma monitoring_counter l :
  forall sc, consecutiveMisses sc = 0 -> stays MONITORING sc l ->
             consecutiveMisses (scans sc l) = Z.of_nat (run_length false l)
             /\ (run_length false l < 2)%nat.
Proof.
  induction l as [|x l IH] using rev_ind; intros sc Hz Hst.
  - split; [exact Hz | unfold run_length; simpl; lia].
  - pose proof (stays_last _ _ _ Hst) as Hend.
    apply stays_snoc in Hst.
    destruct (IH sc Hz Hst) as [Hcm Hlt].
    pose proof (stays_last _ _ _ Hst) as Hmode.
    rewrite scans_snoc in *. rewrite scan_run_snoc.
    destruct (monitoring_step (fst x) (snd x) (scans sc l) Hmode ltac:(lia))
      as [(Hv & _) | (_ & Hc & Hc2)]; [congruence|].
    rewrite Hc in *. destruct (fst x); simpl; lia.
Qed.

(** While Verifying, the mode after a scan is decided by the time since
    the mode was entered and, once that exceeds the confirmation time, by
    the two counters. *)
Lemma verifying_step f now sc :
  currentMode sc = VERIFYING ->
  let counted := countScan f now sc in
  currentMode (recordScan f now sc)
  = if PRESENCE_CONFIRM_TIME <? ulong_sub now (modeChangeTime sc) then
      if consecutiveMisses counted <? consecutiveDetections counted
      then MONITORING else SEARCHING
    else VERIFYING.
Proof.
  destruct sc as [m ls mc sr cd cm ptr st]. cbn. intros ->.
  destruct f; run_recordScan; bool_facts; try reflexivity; congruence.
Qed.

(** A scan that changes the mode stamps the change with the scan's clock
    reading and clears both counters. *)
Lemma mode_switch_resets f now sc :
  currentMode (recordScan f now sc) <> currentMode sc ->
  modeChangeTime (recordScan f now sc) = now
  /\ consecutiveDetections (recordScan f now sc) = 0
  /\ consecutiveMisses (recordScan f now sc) = 0.
Proof.
  destruct sc as [m ls mc sr cd cm ptr st]. cbn.
  destruct m, f; run_recordScan; intros H; try congruence;
    repeat split; reflexivity.
Qed.

(** C9.  From a scanner whose counters are clear (as after [init] and
    after every mode change): while no mode switch has happened, a scan
    takes Searching to Verifying exactly when it completes a run of at
    least 2 consecutive detections, and Monitoring to Verifying exactly
    when it completes a run of at least 2 consecutive misses, and the entry
    is stamped with that scan's clock reading; once Verifying, the mode is
    kept by every scan taken no more than [PRESENCE_CONFIRM_TIME] after the
    entry, and a later scan resolves it to Monitoring when the detection
    counter is larger than the miss counter and to Searching otherwise. *)
Theorem verifying_mode_rules sc l f now :
  consecutiveDetections sc = 0 -> consecutiveMisses sc = 0 ->
  let before := scans sc l in
  let counted := countScan f now before in
  let after := scans sc (l ++ [(f, now)]) in
  (stays SEARCHING sc l ->
     (currentMode after = VERIFYING
      <-> (2 <= run_length true (l ++ [(f, now)]))%nat)
     /\ (currentMode after = VERIFYING -> modeChangeTime after = now)
     /\ (currentMode after <> VERIFYING -> currentMode after = SEARCHING))
  /\ (stays MONITORING sc l ->
      (currentMode after = VERIFYING
       <-> (2 <= run_length false (l ++ [(f, now)]))%nat)
      /\ (currentMode after = VERIFYING -> modeChangeTime after = now)
      /\ (currentMode after <> VERIFYING -> currentMode after = MONITORING))
  /\ (currentMode before = VERIFYING ->
      ulong_sub now (modeChangeTime before) <= PRESENCE_CONFIRM_TIME ->
      currentMode after = VERIFYING)
  /\ (currentMode before = VERIFYING ->
      PRESENCE_CONFIRM_TIME < ulong_sub now (modeChangeTime before) ->
      (consecutiveMisses counted < consecutiveDetections counted ->
         currentMode after = MONITORING)
      /\ (consecutiveDetections counted <= consecutiveMisses counted ->
         currentMode after = SEARCHING)).
Proof.
  intros Hd Hm before counted after.
  subst after. rewrite scans_snoc, !scan_run_snoc. cbn [fst snd]. fold before.
  split; [|split; [|split]].
  - intros Hst. pose proof (stays_last _ _ _ Hst) as Hmode. fold before in Hmode.
    destruct (searching_counter l sc Hd Hst) as [Hcd Hlt]. fold before in Hcd.
    destruct (searching_step f now before Hmode ltac:(lia))
      as [(Hv & Hf & Hone) | (Hs & Hc & Hc2)].
    + split; [|split].
      * split; [intros _; subst f; simpl; lia | intros _; exact Hv].
      * intros _. apply mode_switch_resets. congruence.
      * congruence.
    + split; [|split].
      * split; [congruence|].
        intros H2. destruct f; simpl in H2; lia.
      * congruence.
      * intros _. exact Hs.
  - intros Hst. pose proof (stays_last _ _ _ Hst) as Hmode. fold before in Hmode.
    destruct (monitoring_counter l sc Hm Hst) as [Hcm Hlt]. fold before in Hcm.
    destruct (monitoring_step f now before Hmode ltac:(lia))
      as [(Hv & Hf & Hone) | (Hs & Hc & Hc2)].
    + split; [|split].
      * split; [intros _; subst f; simpl; lia | intros _; exact Hv].
      * intros _. apply mode_switch_resets. congruence.
      * congruence.
    + split; [|split].
      * split; [congruence|].
        intros H2. destruct f; simpl in H2; lia.
      * congruence.
      * intros _. exact Hs.
  - intros Hv Hearly. rewrite (verifying_step f now before Hv).
    replace (PRESENCE_CONFIRM_TIME <? ulong_sub now (modeChangeTime before))
      with false by (symmetry; apply Z.ltb_ge; exact Hearly).
    reflexivity.
  - intros Hv Hlate. rewrite (verifying_step f now before Hv).
    replace (PRESENCE_CONFIRM_TIME <? ulong_sub now (modeChangeTime before))
      with true by (symmetry; apply Z.ltb_lt; exact Hlate).
    fold counted. split; intros Hcmp.
    + replace (consecutiveMisses counted <? consecutiveDetections counted)
        with true by (symmetry; apply Z.ltb_lt; exact Hcmp).
      reflexivity.
    + replace (consecutiveMisses counted <? consecutiveDetections counted)
        with false by (symmetry; apply Z.ltb_ge; exact Hcmp).
      reflexivity.
Qed.

End Scanner.

Lemma verifying_mode_rules_witness :
  let sc := Sketch.AdaptiveBLEScanner.init 0 Sketch.AdaptiveBLEScanner.new in
  let l := [(false, 2000); (true, 4000)] in
  let after := ScannerRuns.scans sc (l ++ [(true, 6000)]) in
  Sketch.AdaptiveBLEScanner.currentMode after
  = Sketch.AdaptiveBLEScanner.VERIFYING
  /\ Sketch.AdaptiveBLEScanner.modeChangeTime after = 6000.
Proof.
  pose proof (verifying_mode_rules
                (Sketch.AdaptiveBLEScanner.init 0 Sketch.AdaptiveBLEScanner.new)
                [(false, 2000); (true, 4000)] true 6000
                eq_refl eq_refl) as (H & _ & _ & _).
  destruct H as (Hiff & Hstamp & _).
  - repeat split.
  - assert (Sketch.AdaptiveBLEScanner.currentMode
              (ScannerRuns.scans
                 (Sketch.AdaptiveBLEScanner.init 0 Sketch.AdaptiveBLEScanner.new)
                 ([(false, 2000); (true, 4000)] ++ [(true, 6000)]))
            = Sketch.AdaptiveBLEScanner.VERIFYING) as Hv
      by (apply Hiff; vm_compute; lia).
    split; [exact Hv | exact (Hstamp Hv)].
Defined.

(* ===================================================================== *)
(** * Further properties of the modelled code *)
(* ===================================================================== *)

(** *** The manager's queue keeps the latest messages *)

Section ManagerQueueContents.
Import NetworkManager ManagerRuns ManagerObservations.

Lemma enqueue_all_snoc nm rs r :
  enqueue_all nm (rs ++ [r]) = enqueue (enqueue_all nm rs) r.
Proof. unfold enqueue_all. now rewrite fold_left_app. Qed.

Lemma content_fill_slot old r :
  slot_ok old ->
  content (fill_slot old (req_topic r) (req_payload r) (req_retained r)
             (req_qos r) (millis (req_driver r)))
  = truncated r.
Proof.
  intros Hok. unfold content, truncated.
  rewrite fill_slot_topic, fill_slot_payload by assumption.
  change [NUL] with (NUL :: []). rewrite !c_str_strncpy_bytes. reflexivity.
Qed.

(** The queue after a history of enqueues: its fill count and contents. *)
Lemma enqueue_all_contents rs :
  forall nm0, queue_ok nm0 -> _message_queue_size nm0 = 0 ->
    _message_queue_size (enqueue_all nm0 rs) = Z.of_nat (min (length rs) 10)
    /\ map content (pending (enqueue_all nm0 rs))
       = map truncated (drop (length rs - 10) rs).
Proof.
  induction rs as [|r rs IH] using rev_ind; intros nm0 Hok Hz.
  - simpl. split; [exact Hz|]. unfold pending. rewrite Hz. reflexivity.
  - destruct (IH nm0 Hok Hz) as [Hsz Hct].
    rewrite enqueue_all_snoc.
    pose proof (enqueue_all_ok rs nm0 Hok) as Hok'.
    set (nm := enqueue_all nm0 rs) in *.
    destruct (queueMessage_pending (req_driver r) (req_topic r) (req_payload r)
                (req_retained r) (req_qos r) nm Hok')
      as (_ & old & Hold & Hroom & Hfull).
    fold (enqueue nm r) in Hroom, Hfull. cbv zeta in Hroom, Hfull.
    unfold MAX_QUEUE_SIZE in *. rewrite length_app. cbn [length].
    destruct (decide (length rs < 10)%nat) as [Hlt|Hge].
    + destruct (Hroom ltac:(lia)) as [Hs Hp].
      split; [lia|]. rewrite Hp, map_app, Hct. cbn [map].
      rewrite content_fill_slot by assumption.
      replace (length rs - 10)%nat with 0%nat by lia.
      replace (length rs + 1 - 10)%nat with 0%nat by lia.
      rewrite !drop_0, map_app. reflexivity.
    + destruct (Hfull ltac:(lia)) as [Hs Hp].
      split; [lia|]. rewrite Hp, map_app, <- List.skipn_map, Hct. cbn [map].
      rewrite content_fill_slot by assumption.
      rewrite List.skipn_map, drop_drop.
      rewrite drop_app_le by lia. rewrite map_app.
      replace (length rs + 1 - 10)%nat with (length rs - 10 + 1)%nat by lia.
      reflexivity.
Qed.

(** X1.  After any history of enqueues into an empty queue, the pending
    entries are, in order, the latest 10 requests of the history (all of
    them when there are fewer), each with its topic cut to 127 and its
    payload to 511 characters. *)
Theorem queue_keeps_latest nm0 rs :
  queue_ok nm0 -> _message_queue_size nm0 = 0 ->
  map content (pending (enqueue_all nm0 rs))
  = map truncated (drop (length rs - 10) rs).
Proof. intros Hok Hz. now apply enqueue_all_contents. Qed.

End ManagerQueueContents.

Lemma queue_keeps_latest_witness :
  let rs := map ManagerRuns.request_at [1; 2; 3; 4; 5; 6; 7; 8; 9; 10; 11; 12] in
  map ManagerObservations.content
    (NetworkManager.pending
       (ManagerRuns.enqueue_all
          (NetworkManager.new ManagerRuns.buildNetworkConfig) rs))
  = map ManagerObservations.truncated (drop (length rs - 10) rs).
Proof.
  apply (queue_keeps_latest (NetworkManager.new ManagerRuns.buildNetworkConfig)).
  - apply new_queue_ok.
  - reflexivity.
Defined.

(** *** Replaying the manager's queue *)

Section ManagerReplay.
Import NetworkManager ManagerRuns ManagerObservations.

(** An accepted drain: the head is handed to the driver as it is stored,
    counted as sent and shifted out. *)
Lemma processMessageQueue_accepted d nm :
  queue_ok nm -> 0 < _message_queue_size nm ->
  isMQTTConnected nm = true ->
  client_publish d (c_str (topic (slot nm 0))) (c_str (payload (slot nm 0)))
    (retained (slot nm 0)) = true ->
  let nm' := processMessageQueue d nm in
  queue_ok nm'
  /\ isMQTTConnected nm' = true
  /\ _message_queue_size nm' = _message_queue_size nm - 1
  /\ pending nm' = drop 1 (pending nm)
  /\ trace nm' = trace nm ++ [sent (slot nm 0)]
  /\ messages_sent (_stats nm') = ulong_incr (messages_sent (_stats nm)).
Proof.
  intros Hok Hpos Hconn Hacc nm'. subst nm'. unfold processMessageQueue.
  rewrite Hconn. replace (_message_queue_size nm =? 0) with false
    by (symmetry; apply Z.eqb_neq; lia).
  cbn [orb negb]. cbv zeta. rewrite Hacc.
  set (nm1 := upd_stats _ (emit _ nm)).
  assert (queue_ok nm1) as Hok1 by exact Hok.
  destruct (remove_head_pending nm1 Hok1 Hpos) as (Hok2 & Hs2 & Hp2).
  split; [exact Hok2|]. split; [exact Hconn|]. split; [exact Hs2|].
  split; [exact Hp2|]. split; reflexivity.
Qed.

Lemma processMessageQueue_empty d nm :
  _message_queue_size nm = 0 -> processMessageQueue d nm = nm.
Proof. intros Hz. unfold processMessageQueue. rewrite Hz. reflexivity. Qed.

Lemma pending_empty nm : _message_queue_size nm = 0 -> pending nm = [].
Proof. intros Hz. unfold pending. rewrite Hz. reflexivity. Qed.

Lemma drains_accepting d k :
  forall nm, queue_ok nm -> isMQTTConnected nm = true -> accepts_all d ->
    queue_ok (drains d k nm)
    /\ pending (drains d k nm) = drop k (pending nm)
    /\ trace (drains d k nm) = trace nm ++ map sent (take k (pending nm)).
Proof.
  induction k as [|k IH]; intros nm Hok Hconn Hacc.
  - cbn [drains take map]. rewrite drop_0, app_nil_r. auto.
  - cbn [drains].
    destruct (decide (_message_queue_size nm = 0)) as [Hz|Hnz].
    + rewrite processMessageQueue_empty by assumption.
      destruct (IH nm Hok Hconn Hacc) as (H1 & H2 & H3).
      pose proof (pending_empty nm Hz) as He. rewrite He in H2, H3 |- *.
      split; [exact H1|]. split.
      * rewrite H2. now rewrite !drop_nil.
      * rewrite H3. now rewrite !take_nil.
    + assert (0 < _message_queue_size nm) as Hpos
        by (destruct Hok as (_ & ? & _); lia).
      destruct (processMessageQueue_accepted d nm Hok Hpos Hconn (Hacc _ _ _))
        as (Hok1 & Hc1 & _ & Hp1 & Ht1 & _).
      destruct (IH _ Hok1 Hc1 Hacc) as (H1 & H2 & H3).
      split; [exact H1|].
      rewrite H2, H3, Hp1, Ht1.
      pose proof (slot_head_pending nm Hok Hpos) as Eh.
      destruct (pending nm) as [|h tl]; [discriminate|].
      injection Eh as Eh. rewrite <- Eh.
      cbn [drop take map]. rewrite drop_0, <- app_assoc. split; reflexivity.
Qed.

(** X2.  With the session connected and a broker that takes every message,
    [k] drains hand the first [k] pending entries to the driver, in queue
    order and exactly as stored, and leave the others pending; as many
    drains as there are entries empty the queue. *)
Theorem offline_replay_in_order d k nm :
  queue_ok nm -> isMQTTConnected nm = true -> accepts_all d ->
  pending (drains d k nm) = drop k (pending nm)
  /\ trace (drains d k nm) = trace nm ++ map sent (take k (pending nm))
  /\ (k = length (pending nm) ->
      pending (drains d k nm) = []
      /\ _message_queue_size (drains d k nm) = 0).
Proof.
  intros Hok Hconn Hacc.
  destruct (drains_accepting d k nm Hok Hconn Hacc) as (Hok' & Hp & Ht).
  split; [exact Hp|]. split; [exact Ht|].
  intros Hk. assert (pending (drains d k nm) = []) as Hnil
    by (rewrite Hp, Hk; apply drop_all).
  split; [exact Hnil|].
  pose proof (pending_length _ Hok') as Hlen. rewrite Hnil in Hlen.
  destruct Hok' as (_ & Hsz & _). simpl in Hlen. lia.
Qed.

End ManagerReplay.

Lemma offline_replay_in_order_witness :
  let nm := ManagerRuns.enqueue_all ManagerRuns.connected_manager
              (map ManagerRuns.request_at [1; 2; 3]) in
  let d := ManagerRuns.online 50 true in
  NetworkManager.pending (ManagerRuns.drains d 3 nm) = []
  /\ NetworkManager._message_queue_size (ManagerRuns.drains d 3 nm) = 0.
Proof.
  pose proof (offline_replay_in_order (ManagerRuns.online 50 true) 3
                (ManagerRuns.enqueue_all ManagerRuns.connected_manager
                   (map ManagerRuns.request_at [1; 2; 3]))) as H.
  destruct H as (_ & _ & H).
  - apply enqueue_all_ok. exact (new_queue_ok ManagerRuns.buildNetworkConfig).
  - reflexivity.
  - intros t p r. reflexivity.
  - apply H. reflexivity.
Defined.

(** *** Moves of the two state machines *)

Section StateMachines.
Import NetworkManager ManagerRuns ManagerObservations.

Lemma setMQTTState_same state error nm :
  _mqtt_state nm = state -> setMQTTState state error nm = nm.
Proof.
  intros H. unfold setMQTTState.
  rewrite bool_decide_eq_false_2; [reflexivity|]. intros Hne. now apply Hne.
Qed.

Lemma setWiFiState_same state error nm :
  _wifi_state nm = state -> setWiFiState state error nm = nm.
Proof.
  intros H. unfold setWiFiState.
  rewrite bool_decide_eq_false_2; [reflexivity|]. intros Hne. now apply Hne.
Qed.

(** X3.  [updateWiFi] moves the link state only along the arrows of the
    link state machine: Connecting to Connected or Reconnecting, Connected
    to Reconnecting, Reconnecting to Connecting or Failed, Failed to
    Reconnecting; Idle and Disabled are left alone. *)
Theorem link_moves_along_arrows d nm :
  wifi_moves (_wifi_state nm) (_wifi_state (updateWiFi d nm)) = true.
Proof.
  unfold updateWiFi, startWiFiConnection. cbv zeta.
  destruct (_wifi_state nm) eqn:E;
    repeat match goal with
           | |- context [if ?c then _ else _] => destruct c
           end;
    cbn [snd]; rewrite ?setWiFiState_state, ?E; reflexivity.
Qed.

Lemma startMQTTConnection_state d nm :
  _mqtt_state (snd (startMQTTConnection d nm))
  = if client_connect d then MQTT_CONNECTED else MQTT_RECONNECTING.
Proof.
  unfold startMQTTConnection. cbv zeta.
  destruct (client_connect d); cbn [snd]; apply setMQTTState_state.
Qed.

Lemma connectMQTT_state d nm :
  _mqtt_state (snd (connectMQTT d nm)) = _mqtt_state nm
  \/ (isWiFiConnected nm = true
      /\ _mqtt_state (snd (connectMQTT d nm))
         = if client_connect d then MQTT_CONNECTED else MQTT_RECONNECTING).
Proof.
  unfold connectMQTT.
  destruct (bool_decide (_mqtt_state nm = MQTT_CONNECTED)); [now left|].
  destruct (isWiFiConnected nm); [|now left]. cbn [negb].
  destruct (_ || _); [now left|].
  right. split; [reflexivity|]. apply startMQTTConnection_state.
Qed.

(** The session state after [updateMQTT] with the link up, by cases on the
    state before. *)
Lemma updateMQTT_state d nm :
  isWiFiConnected nm = true ->
  _mqtt_state (updateMQTT d nm) = _mqtt_state nm
  \/ (_mqtt_state nm <> MQTT_DISABLED
      /\ _mqtt_state nm <> MQTT_CONNECTED
      /\ _mqtt_state (updateMQTT d nm)
         = (if client_connect d then MQTT_CONNECTED else MQTT_RECONNECTING)
      /\ (_mqtt_state nm = MQTT_IDLE \/ _mqtt_state nm = MQTT_RECONNECTING))
  \/ (_mqtt_state nm = MQTT_CONNECTING
      /\ (_mqtt_state (updateMQTT d nm) = MQTT_CONNECTED
          \/ _mqtt_state (updateMQTT d nm) = MQTT_RECONNECTING))
  \/ (_mqtt_state nm = MQTT_CONNECTED
      /\ _mqtt_state (updateMQTT d nm) = MQTT_RECONNECTING)
  \/ (_mqtt_state nm = MQTT_RECONNECTING
      /\ _mqtt_state (updateMQTT d nm) = MQTT_FAILED)
  \/ (_mqtt_state nm = MQTT_FAILED
      /\ _mqtt_state (updateMQTT d nm) = MQTT_RECONNECTING).
Proof.
  intros Hup. unfold updateMQTT. cbv zeta. rewrite Hup. cbn [negb].
  destruct (_mqtt_state nm) eqn:E.
  - (* Idle *)
    cbn [bool_decide decide_rel andb].
    rewrite bool_decide_eq_true_2 by reflexivity. cbn [andb].
    destruct (connectMQTT_state d nm) as [H | [_ H]].
    + left. rewrite H. exact E.
    + right. left. rewrite H.
      repeat split; try discriminate. now left.
  - (* Connecting *)
    destruct (client_connected d).
    + right. right. left. split; [reflexivity|]. left. apply setMQTTState_state.
    + destruct (_ <? _).
      * right. right. left. split; [reflexivity|]. right.
        apply setMQTTState_state.
      * left. exact E.
  - (* Connected *)
    destruct (client_connected d); cbn [negb].
    + left. exact E.
    + do 3 right. left. split; [reflexivity|]. apply setMQTTState_state.
  - (* Reconnecting *)
    destruct (isTimeToRetry _ _ _); [|left; exact E].
    destruct (_ <? _).
    + right. left. rewrite startMQTTConnection_state.
      repeat split; try discriminate. now right.
    + do 4 right. left. split; [reflexivity|]. apply setMQTTState_state.
  - (* Failed *)
    destruct (_ <? _); [|left; exact E].
    do 5 right. split; [reflexivity|]. apply setMQTTState_state.
  - (* Disabled *)
    rewrite bool_decide_eq_false_2 by discriminate. left. exact E.
Qed.

(** X4.  With the link up, [updateMQTT] moves the session state only along
    the arrows of the session state machine (a connection attempt is made
    within the call, so Idle and Reconnecting lead straight to Connected or
    stay in or enter Reconnecting).  Neither [updateMQTT] nor [connectMQTT]
    ever leaves the session in Connecting unless it was there before. *)
Theorem session_moves_along_arrows d nm :
  (isWiFiConnected nm = true ->
     mqtt_moves (_mqtt_state nm) (_mqtt_state (updateMQTT d nm)) = true)
  /\ (_mqtt_state nm <> MQTT_CONNECTING ->
      _mqtt_state (updateMQTT d nm) <> MQTT_CONNECTING
      /\ _mqtt_state (snd (connectMQTT d nm)) <> MQTT_CONNECTING).
Proof.
  split.
  - intros Hup.
    destruct (updateMQTT_state d nm Hup)
      as [H | [(_ & _ & H & Hs) | [(E & H) | [(E & H) | [(E & H) | (E & H)]]]]].
    + rewrite H. destruct (_mqtt_state nm); reflexivity.
    + rewrite H. destruct Hs as [-> | ->], (client_connect d); reflexivity.
    + rewrite E. destruct H as [-> | ->]; reflexivity.
    + rewrite E, H. reflexivity.
    + rewrite E, H. reflexivity.
    + rewrite E, H. reflexivity.
  - intros Hnc. split.
    + destruct (isWiFiConnected nm) eqn:Hup.
      * destruct (updateMQTT_state d nm Hup)
          as [H | [(_ & _ & H & _) | [(E & _) | [(_ & H) | [(_ & H) | (_ & H)]]]]];
          try congruence.
        rewrite H. destruct (client_connect d); discriminate.
      * rewrite (updateMQTT_link_down d nm Hup). discriminate.
    + destruct (connectMQTT_state d nm) as [H | [_ H]]; rewrite H;
        [assumption | destruct (client_connect d); discriminate].
Qed.

End StateMachines.

Lemma session_moves_along_arrows_witness :
  let d := ManagerRuns.online 100 true in
  let nm := NetworkManager.set_wifi_state NetworkManager.WIFI_CONNECTED
              (NetworkManager.new ManagerRuns.buildNetworkConfig) in
  ManagerObservations.mqtt_moves (NetworkManager._mqtt_state nm)
    (NetworkManager._mqtt_state (NetworkManager.updateMQTT d nm)) = true
  /\ NetworkManager._mqtt_state (NetworkManager.updateMQTT d nm)
     <> NetworkManager.MQTT_CONNECTING.
Proof.
  pose proof (session_moves_along_arrows (ManagerRuns.online 100 true)
                (NetworkManager.set_wifi_state NetworkManager.WIFI_CONNECTED
                   (NetworkManager.new ManagerRuns.buildNetworkConfig)))
    as [H1 H2].
  split; [apply H1; reflexivity | apply H2; discriminate].
Defined.


(** *** Retry counters and retry timing *)

Section RetryPolicy.
Import NetworkManager ManagerRuns ManagerObservations.

(** What a state change leaves alone. *)
Lemma setWiFiState_frame state error nm :
  _config (setWiFiState state error nm) = _config nm
  /\ _wifi_retry_count (setWiFiState state error nm) = _wifi_retry_count nm
  /\ _mqtt_retry_count (setWiFiState state error nm) = _mqtt_retry_count nm
  /\ _wifi_last_attempt (setWiFiState state error nm) = _wifi_last_attempt nm
  /\ _mqtt_state (setWiFiState state error nm) = _mqtt_state nm
  /\ pending (setWiFiState state error nm) = pending nm.
Proof.
  unfold setWiFiState, setError.
  repeat match goal with
         | |- context [if ?c then _ else _] => destruct c
         end; repeat split; reflexivity.
Qed.

Lemma setMQTTState_frame state error nm :
  _config (setMQTTState state error nm) = _config nm
  /\ _wifi_retry_count (setMQTTState state error nm) = _wifi_retry_count nm
  /\ _mqtt_retry_count (setMQTTState state error nm) = _mqtt_retry_count nm
  /\ _mqtt_last_attempt (setMQTTState state error nm) = _mqtt_last_attempt nm
  /\ _wifi_state (setMQTTState state error nm) = _wifi_state nm
  /\ pending (setMQTTState state error nm) = pending nm.
Proof.
  unfold setMQTTState, setError.
  repeat match goal with
         | |- context [if ?c then _ else _] => destruct c
         end; repeat split; reflexivity.
Qed.

Lemma updateWiFi_retry d nm :
  wifi_max_retries (_config nm) <= INT_MAX ->
  0 <= _wifi_retry_count nm <= wifi_max_retries (_config nm) ->
  _config (updateWiFi d nm) = _config nm
  /\ _mqtt_retry_count (updateWiFi d nm) = _mqtt_retry_count nm
  /\ 0 <= _wifi_retry_count (updateWiFi d nm) <= wifi_max_retries (_config nm).
Proof.
  intros Hmax Hc.
  unfold updateWiFi, startWiFiConnection. cbv zeta.
  destruct (_wifi_state nm);
    repeat match goal with
           | |- context [if ?c then _ else _] => destruct c eqn:?
           end;
    cbn [snd];
    repeat match goal with
           | |- context [setWiFiState ?s ?e ?x] =>
               let H := fresh in
               pose proof (setWiFiState_frame s e x) as H;
               destruct H as (-> & -> & -> & _)
           end;
    cbn; bool_facts; repeat split; try reflexivity; try lia.
  all: rewrite int_incr_exact by (unfold INT_MIN, INT_MAX in *; lia); lia.
Qed.

Lemma startMQTTConnection_frame d nm :
  _config (snd (startMQTTConnection d nm)) = _config nm
  /\ _wifi_retry_count (snd (startMQTTConnection d nm)) = _wifi_retry_count nm
  /\ _mqtt_retry_count (snd (startMQTTConnection d nm)) = _mqtt_retry_count nm.
Proof.
  unfold startMQTTConnection. cbv zeta.
  destruct (client_connect d); cbn [snd];
    match goal with
    | |- context [setMQTTState ?s ?e ?x] =>
        destruct (setMQTTState_frame s e x) as (-> & -> & -> & _)
    end; repeat split; reflexivity.
Qed.

Lemma connectMQTT_frame d nm :
  _config (snd (connectMQTT d nm)) = _config nm
  /\ _wifi_retry_count (snd (connectMQTT d nm)) = _wifi_retry_count nm
  /\ _mqtt_retry_count (snd (connectMQTT d nm)) = _mqtt_retry_count nm.
Proof.
  unfold connectMQTT.
  repeat match goal with
         | |- context [if ?c then _ else _] => destruct c
         end; cbn [snd]; try (repeat split; reflexivity).
  destruct (startMQTTConnection_frame d
              (setMQTTState MQTT_CONNECTING ERROR_NONE nm)) as (-> & -> & ->).
  destruct (setMQTTState_frame MQTT_CONNECTING ERROR_NONE nm)
    as (-> & -> & -> & _).
  repeat split; reflexivity.
Qed.

Lemma updateMQTT_retry d nm :
  mqtt_max_retries (_config nm) <= INT_MAX ->
  0 <= _mqtt_retry_count nm <= mqtt_max_retries (_config nm) ->
  _config (updateMQTT d nm) = _config nm
  /\ _wifi_retry_count (updateMQTT d nm) = _wifi_retry_count nm
  /\ 0 <= _mqtt_retry_count (updateMQTT d nm) <= mqtt_max_retries (_config nm).
Proof.
  intros Hmax Hc.
  unfold updateMQTT. cbv zeta.
  destruct (negb (isWiFiConnected nm)).
  { destruct (bool_decide _); [|repeat split; (reflexivity || lia)].
    destruct (setMQTTState_frame MQTT_IDLE ERROR_NONE nm) as (-> & -> & -> & _).
    repeat split; (reflexivity || lia). }
  destruct (_mqtt_state nm);
    repeat match goal with
           | |- context [if ?c then _ else _] => destruct c eqn:?
           end;
    repeat match goal with
           | |- context [snd (connectMQTT ?dd ?x)] =>
               destruct (connectMQTT_frame dd x) as (-> & -> & ->)
           | |- context [snd (startMQTTConnection ?dd ?x)] =>
               destruct (startMQTTConnection_frame dd x) as (-> & -> & ->)
           | |- context [setMQTTState ?s ?e ?x] =>
               destruct (setMQTTState_frame s e x) as (-> & -> & -> & _)
           end;
    cbn; bool_facts; repeat split; try reflexivity; try lia.
  all: rewrite int_incr_exact by (unfold INT_MIN, INT_MAX in *; lia); lia.
Qed.

(** X5.  The two retry counters stay between 0 and their configured
    maximum through the link and session updates of a tick, and the
    configuration is not written. *)
Theorem retry_counts_stay_bounded d nm :
  wifi_max_retries (_config nm) <= INT_MAX ->
  mqtt_max_retries (_config nm) <= INT_MAX ->
  0 <= _wifi_retry_count nm <= wifi_max_retries (_config nm) ->
  0 <= _mqtt_retry_count nm <= mqtt_max_retries (_config nm) ->
  let nm' := updateMQTT d (updateWiFi d nm) in
  _config nm' = _config nm
  /\ 0 <= _wifi_retry_count nm' <= wifi_max_retries (_config nm)
  /\ 0 <= _mqtt_retry_count nm' <= mqtt_max_retries (_config nm).
Proof.
  intros Hw Hm Hcw Hcm nm'.
  destruct (updateWiFi_retry d nm Hw Hcw) as (Hcfg & Hmq & Hwb).
  destruct (updateMQTT_retry d (updateWiFi d nm)) as (Hcfg' & Hwf & Hmb).
  - rewrite Hcfg. exact Hm.
  - rewrite Hcfg, Hmq. exact Hcm.
  - subst nm'. rewrite Hcfg', Hwf. rewrite Hcfg in Hmb.
    split; [exact Hcfg|]. split; assumption.
Qed.

End RetryPolicy.

Lemma retry_counts_stay_bounded_witness :
  let d := ManagerRuns.link_lost 400000 in
  let nm := NetworkManager.set_wifi_retry_count 5
              (NetworkManager.set_wifi_state NetworkManager.WIFI_RECONNECTING
                 (NetworkManager.new ManagerRuns.buildNetworkConfig)) in
  let nm' := NetworkManager.updateMQTT d (NetworkManager.updateWiFi d nm) in
  NetworkManager._config nm' = NetworkManager._config nm
  /\ 0 <= NetworkManager._wifi_retry_count nm'
     <= NetworkManager.wifi_max_retries (NetworkManager._config nm)
  /\ 0 <= NetworkManager._mqtt_retry_count nm'
     <= NetworkManager.mqtt_max_retries (NetworkManager._config nm).
Proof.
  apply (retry_counts_stay_bounded (ManagerRuns.link_lost 400000)
           (NetworkManager.set_wifi_retry_count 5
              (NetworkManager.set_wifi_state NetworkManager.WIFI_RECONNECTING
                 (NetworkManager.new ManagerRuns.buildNetworkConfig))));
    repeat split; vm_compute; discriminate.
Defined.

(** *** No retry before the base interval *)

Section RetryTiming.
Import NetworkManager ManagerRuns.

Lemma calculateBackoffDelay_floor random b r m :
  INT_MIN <= b <= INT_MAX ->
  b <= calculateBackoffDelay random b r m <= INT_MAX.
Proof.
  intros Hb. unfold calculateBackoffDelay. cbv zeta.
  match goal with
  | |- _ <= Z.max ?x _ <= _ =>
      assert (INT_MIN <= x <= INT_MAX) by (unfold int_add; apply wrap_int_range)
  end.
  lia.
Qed.

Lemma isTimeToRetry_early d last interval base :
  0 <= base <= interval -> interval <= INT_MAX ->
  ulong_sub (millis d) last < base ->
  isTimeToRetry d last interval = false.
Proof.
  intros Hb Hi Hlt. unfold isTimeToRetry, int_to_ulong.
  rewrite wrap_ulong_id by (unfold INT_MAX in *; lia).
  apply Z.leb_gt. lia.
Qed.

(** X6.  While less than the configured base retry interval has passed
    since the last attempt, a reconnecting link, and a reconnecting session
    over a connected link, are left exactly as they are, whatever the
    retry count and whatever the jitter draw. *)
Theorem no_retry_before_base_interval d nm :
  0 <= wifi_retry_interval_ms (_config nm) <= INT_MAX ->
  0 <= mqtt_retry_interval_ms (_config nm) <= INT_MAX ->
  (_wifi_state nm = WIFI_RECONNECTING ->
   ulong_sub (millis d) (_wifi_last_attempt nm)
     < wifi_retry_interval_ms (_config nm) ->
   updateWiFi d nm = nm)
  /\ (_wifi_state nm = WIFI_CONNECTED ->
      _mqtt_state nm = MQTT_RECONNECTING ->
      ulong_sub (millis d) (_mqtt_last_attempt nm)
        < mqtt_retry_interval_ms (_config nm) ->
      updateMQTT d nm = nm).
Proof.
  intros Hw Hm. split.
  - intros Hs Hlt. unfold updateWiFi. rewrite Hs. cbv zeta.
    rewrite (isTimeToRetry_early d _ _ (wifi_retry_interval_ms (_config nm)));
      [reflexivity | | | assumption].
    + split; [lia|]. apply calculateBackoffDelay_floor.
      unfold INT_MIN in *. lia.
    + apply calculateBackoffDelay_floor. unfold INT_MIN in *. lia.
  - intros Hl Hs Hlt. unfold updateMQTT, isWiFiConnected.
    rewrite Hl, Hs. cbv zeta.
    rewrite bool_decide_eq_true_2 by reflexivity. cbn [negb].
    rewrite (isTimeToRetry_early d _ _ (mqtt_retry_interval_ms (_config nm)));
      [reflexivity | | | assumption].
    + split; [lia|]. apply calculateBackoffDelay_floor.
      unfold INT_MIN in *. lia.
    + apply calculateBackoffDelay_floor. unfold INT_MIN in *. lia.
Qed.

End RetryTiming.

Lemma no_retry_before_base_interval_witness :
  let d := ManagerRuns.link_lost 9999 in
  let nm := NetworkManager.set_wifi_state NetworkManager.WIFI_RECONNECTING
              (NetworkManager.new ManagerRuns.buildNetworkConfig) in
  NetworkManager.updateWiFi d nm = nm.
Proof.
  refine (proj1 (no_retry_before_base_interval (ManagerRuns.link_lost 9999)
            (NetworkManager.set_wifi_state NetworkManager.WIFI_RECONNECTING
               (NetworkManager.new ManagerRuns.buildNetworkConfig)) _ _) _ _).
  - vm_compute. split; discriminate.
  - vm_compute. split; discriminate.
  - reflexivity.
  - reflexivity.
Defined.

(** *** How connection failures are reported *)

Section FailureReports.
Import NetworkManager ManagerRuns.

Lemma mapMQTTError_error s : mapMQTTError s <> ERROR_NONE.
Proof. unfold mapMQTTError. split_branches; discriminate. Qed.

Lemma mapWiFiError_error s : mapWiFiError s <> ERROR_NONE.
Proof. destruct s; discriminate. Qed.

Lemma setError_none nm : setError ERROR_NONE nm = nm.
Proof.
  unfold setError. rewrite bool_decide_eq_false_2; [reflexivity|]. congruence.
Qed.

Lemma setError_error error nm :
  error <> ERROR_NONE -> setError error nm = set_last_error error nm.
Proof.
  intros H. unfold setError. now rewrite bool_decide_eq_true_2.
Qed.

(** A state change that does change the state, spelled out. *)
Lemma setMQTTState_change state error nm :
  _mqtt_state nm <> state ->
  setMQTTState state error nm
  = let nm1 := setError error (set_mqtt_state state nm) in
    if _mqtt_callback nm then emit (MQTTEvent state error) nm1 else nm1.
Proof.
  intros Hne. unfold setMQTTState, setError.
  rewrite bool_decide_eq_true_2 by assumption. cbv zeta.
  destruct (bool_decide (error <> ERROR_NONE)); reflexivity.
Qed.

(** X7.  A session connect attempt that the broker refuses is reported
    when it is the first one, made from the idle state: the state becomes
    Reconnecting, the mapped client error is stored as the last error and
    the session callback sees Connecting, then Reconnecting with that
    error.  A refused retry, made from the Reconnecting state, is silent:
    the retry counter and the attempt time advance, but the last error and
    the callback trace stay as they were. *)
Theorem refused_session_attempts d nm :
  _wifi_state nm = WIFI_CONNECTED ->
  client_connect d = false ->
  (_mqtt_state nm = MQTT_IDLE ->
   let nm' := updateMQTT d nm in
   _mqtt_state nm' = MQTT_RECONNECTING
   /\ _last_error nm' = mapMQTTError (client_state d)
   /\ _last_error nm' <> ERROR_NONE
   /\ _mqtt_last_attempt nm' = millis d
   /\ trace nm' = trace nm ++
        (if _mqtt_callback nm
         then [MQTTEvent MQTT_CONNECTING ERROR_NONE;
               MQTTEvent MQTT_RECONNECTING (mapMQTTError (client_state d))]
         else []))
  /\ (_mqtt_state nm = MQTT_RECONNECTING ->
      isTimeToRetry d (_mqtt_last_attempt nm)
        (calculateBackoffDelay (random d)
           (mqtt_retry_interval_ms (_config nm)) (_mqtt_retry_count nm)
           DEFAULT_MAX_DELAY) = true ->
      _mqtt_retry_count nm < mqtt_max_retries (_config nm) ->
      let nm' := updateMQTT d nm in
      _mqtt_state nm' = MQTT_RECONNECTING
      /\ _last_error nm' = _last_error nm
      /\ trace nm' = trace nm
      /\ _mqtt_retry_count nm' = int_incr (_mqtt_retry_count nm)
      /\ _mqtt_last_attempt nm' = millis d).
Proof.
  intros Hl Hc. pose proof (mapMQTTError_error (client_state d)) as He.
  split.
  - intros Hs nm'.
    assert (nm' = setMQTTState MQTT_RECONNECTING (mapMQTTError (client_state d))
                    (set_mqtt_last_attempt (millis d)
                       (setMQTTState MQTT_CONNECTING ERROR_NONE nm))) as ->.
    { subst nm'.
      unfold updateMQTT, connectMQTT, startMQTTConnection, isWiFiConnected.
      rewrite Hl, Hs, Hc. cbv zeta. reflexivity. }
    rewrite (setMQTTState_change MQTT_CONNECTING) by (rewrite Hs; discriminate).
    cbv zeta. rewrite setError_none.
    destruct (_mqtt_callback nm) eqn:Hcb;
      rewrite setMQTTState_change by (cbn; discriminate);
      cbv zeta; rewrite setError_error by assumption;
      cbn; rewrite Hcb; cbn; rewrite <- ?app_assoc, ?app_nil_r;
      repeat split; try reflexivity; assumption.
  - intros Hs Hr Hn nm'. subst nm'.
    unfold updateMQTT, startMQTTConnection, isWiFiConnected.
    rewrite Hl, Hs. cbv zeta.
    rewrite bool_decide_eq_true_2 by reflexivity. cbn [negb].
    rewrite Hr. apply Z.ltb_lt in Hn. rewrite Hn. rewrite Hc. cbn [snd].
    rewrite setMQTTState_same by (cbn; exact Hs).
    cbn. repeat split; (reflexivity || exact Hs).
Qed.

End FailureReports.

Lemma refused_session_attempts_witness :
  let d := NetworkManager.Build_Driver 20000 NetworkManager.WL_CONNECTED (-60)
             false false (-2) (fun _ _ _ => false) (fun lo _ => lo) in
  let nm := NetworkManager.set_mqtt_callback true
              (NetworkManager.set_mqtt_state NetworkManager.MQTT_RECONNECTING
                 (NetworkManager.set_wifi_state NetworkManager.WIFI_CONNECTED
                    (NetworkManager.new ManagerRuns.buildNetworkConfig))) in
  let nm' := NetworkManager.updateMQTT d nm in
  NetworkManager._mqtt_state nm' = NetworkManager.MQTT_RECONNECTING
  /\ NetworkManager._last_error nm' = NetworkManager._last_error nm
  /\ NetworkManager.trace nm' = NetworkManager.trace nm
  /\ NetworkManager._mqtt_retry_count nm'
     = int_incr (NetworkManager._mqtt_retry_count nm)
  /\ NetworkManager._mqtt_last_attempt nm' = NetworkManager.millis d.
Proof.
  refine (proj2 (refused_session_attempts
            (NetworkManager.Build_Driver 20000 NetworkManager.WL_CONNECTED
               (-60) false false (-2) (fun _ _ _ => false) (fun lo _ => lo))
            (NetworkManager.set_mqtt_callback true
               (NetworkManager.set_mqtt_state NetworkManager.MQTT_RECONNECTING
                  (NetworkManager.set_wifi_state NetworkManager.WIFI_CONNECTED
                     (NetworkManager.new ManagerRuns.buildNetworkConfig))))
            _ _) _ _ _).
  - reflexivity.
  - reflexivity.
  - reflexivity.
  - reflexivity.
  - vm_compute. reflexivity.
Defined.

(** *** Giving up on the link, and coming back *)

Section LinkRecovery.
Import NetworkManager ManagerRuns.

Lemma setWiFiState_change state error nm :
  _wifi_state nm <> state ->
  setWiFiState state error nm
  = let nm1 := setError error (set_wifi_state state nm) in
    if _wifi_callback nm then emit (WiFiEvent state error) nm1 else nm1.
Proof.
  intros Hne. unfold setWiFiState, setError.
  rewrite bool_decide_eq_true_2 by assumption. cbv zeta.
  destruct (bool_decide (error <> ERROR_NONE)); reflexivity.
Qed.

(** X8.  A link in the Failed state is left untouched until more than
    300000 ms have passed since the last attempt.  The first update after
    that moves it to Reconnecting with the retry counter back at 0, and
    the next update, the backoff delay of retry 0 being long over, starts
    a connection: Connecting, retry counter 1, attempt time the current
    clock reading. *)
Theorem failed_link_recovers d1 d2 nm :
  (forall lo hi, lo < hi -> lo <= random d2 lo hi < hi) ->
  _wifi_state nm = WIFI_FAILED ->
  0 < wifi_retry_interval_ms (_config nm) <= 60000 ->
  0 < wifi_max_retries (_config nm) ->
  66000 <= ulong_sub (millis d2) (_wifi_last_attempt nm) ->
  (ulong_sub (millis d1) (_wifi_last_attempt nm) <= 300000 ->
   updateWiFi d1 nm = nm)
  /\ (300000 < ulong_sub (millis d1) (_wifi_last_attempt nm) ->
      let nm1 := updateWiFi d1 nm in
      let nm2 := updateWiFi d2 nm1 in
      _wifi_state nm1 = WIFI_RECONNECTING
      /\ _wifi_retry_count nm1 = 0
      /\ _wifi_state nm2 = WIFI_CONNECTING
      /\ _wifi_retry_count nm2 = 1
      /\ _wifi_last_attempt nm2 = millis d2).
Proof.
  intros Hrand Hs Hbase Hmax Hdue. split.
  - intros Hearly. unfold updateWiFi. rewrite Hs. cbv zeta.
    apply Z.ltb_ge in Hearly. now rewrite Hearly.
  - intros Hlate nm1 nm2.
    assert (nm1 = setWiFiState WIFI_RECONNECTING ERROR_NONE
                    (set_wifi_retry_count 0 nm)) as E1.
    { subst nm1. unfold updateWiFi. rewrite Hs. cbv zeta.
      apply Z.ltb_lt in Hlate. now rewrite Hlate. }
    destruct (setWiFiState_frame WIFI_RECONNECTING ERROR_NONE
                (set_wifi_retry_count 0 nm)) as (Hcfg & Hrc & _ & Hla & _).
    rewrite <- E1 in Hcfg, Hrc, Hla. cbn in Hcfg, Hrc, Hla.
    assert (_wifi_state nm1 = WIFI_RECONNECTING) as Hs1
      by (rewrite E1; apply setWiFiState_state).
    split; [exact Hs1|]. split; [exact Hrc|].
    assert (nm2 = snd (startWiFiConnection d2
                    (upd_stats (fun s => with_wifi_reconnect_count
                                  (ulong_incr (wifi_reconnect_count s)) s)
                       (set_wifi_retry_count 1 nm1)))) as E2.
    { subst nm2. unfold updateWiFi. rewrite Hs1. cbv zeta.
      rewrite Hcfg, Hrc, Hla.
      destruct (calculateBackoffDelay_eq (random d2) Hrand
                  (wifi_retry_interval_ms (_config nm)) 0 DEFAULT_MAX_DELAY)
        as (j & Hj & ->);
        try (unfold DEFAULT_MAX_DELAY, INT_MAX; lia).
      pose proof (cappedDelay_range (wifi_retry_interval_ms (_config nm)) 0
                    DEFAULT_MAX_DELAY) as Hcap.
      unfold DEFAULT_MAX_DELAY, INT_MAX in *.
      specialize (Hcap ltac:(lia) ltac:(lia) ltac:(lia) ltac:(lia)).
      set (c := cappedDelay (wifi_retry_interval_ms (_config nm)) 0 60000)
        in *.
      assert (0 <= c / 10 <= 6000).
      { split; [apply Z.div_pos; lia|].
        apply Z.div_le_upper_bound; lia. }
      unfold isTimeToRetry, int_to_ulong.
      rewrite wrap_ulong_id by lia.
      rewrite (proj2 (Z.leb_le _ _)) by lia.
      rewrite (proj2 (Z.ltb_lt _ _)) by lia.
      reflexivity. }
    rewrite E2. unfold startWiFiConnection. cbv zeta. cbn [snd].
    split; [apply setWiFiState_state|].
    match goal with
    | |- context [setWiFiState ?s ?e ?x] =>
        destruct (setWiFiState_frame s e x) as (_ & -> & _ & -> & _)
    end.
    split; reflexivity.
Qed.

End LinkRecovery.

Lemma failed_link_recovers_witness :
  let d := ManagerRuns.link_lost 400000 in
  let nm := NetworkManager.set_wifi_retry_count 5
              (NetworkManager.set_wifi_state NetworkManager.WIFI_FAILED
                 (NetworkManager.new ManagerRuns.buildNetworkConfig)) in
  let nm1 := NetworkManager.updateWiFi d nm in
  let nm2 := NetworkManager.updateWiFi d nm1 in
  NetworkManager._wifi_state nm1 = NetworkManager.WIFI_RECONNECTING
  /\ NetworkManager._wifi_retry_count nm1 = 0
  /\ NetworkManager._wifi_state nm2 = NetworkManager.WIFI_CONNECTING
  /\ NetworkManager._wifi_retry_count nm2 = 1
  /\ NetworkManager._wifi_last_attempt nm2 = NetworkManager.millis d.
Proof.
  refine (proj2 (failed_link_recovers (ManagerRuns.link_lost 400000)
            (ManagerRuns.link_lost 400000)
            (NetworkManager.set_wifi_retry_count 5
               (NetworkManager.set_wifi_state NetworkManager.WIFI_FAILED
                  (NetworkManager.new ManagerRuns.buildNetworkConfig)))
            _ _ _ _ _) _).
  - intros lo hi H. simpl. lia.
  - reflexivity.
  - simpl. lia.
  - simpl. lia.
  - vm_compute. discriminate.
  - vm_compute. reflexivity.
Defined.

(** *** Connecting the session on request *)

Section ConnectRequests.
Import NetworkManager ManagerRuns.

(** X9.  [connectMQTT] returns true exactly when the session is connected
    when it returns; with the link down it changes nothing; and it never
    leaves the session in the Connecting state unless it found it there.
    [connectWiFi] leaves the link Connected only if it found it so. *)
Theorem connect_requests d nm :
  fst (connectMQTT d nm) = isMQTTConnected (snd (connectMQTT d nm))
  /\ (isWiFiConnected nm = false -> snd (connectMQTT d nm) = nm)
  /\ (_mqtt_state (snd (connectMQTT d nm)) = MQTT_CONNECTING ->
      _mqtt_state nm = MQTT_CONNECTING)
  /\ (_wifi_state (snd (connectWiFi d nm)) = WIFI_CONNECTED ->
      _wifi_state nm = WIFI_CONNECTED).
Proof.
  split; [|split; [|split]].
  - unfold connectMQTT, startMQTTConnection, isMQTTConnected. cbv zeta.
    destruct (bool_decide (_mqtt_state nm = MQTT_CONNECTED)) eqn:E1;
      [cbn [fst snd]; now rewrite E1|].
    destruct (negb (isWiFiConnected nm)); [cbn [fst snd]; now rewrite E1|].
    destruct (bool_decide (_mqtt_state nm = MQTT_CONNECTING)
              || bool_decide (_mqtt_state nm = MQTT_RECONNECTING));
      [cbn [fst snd]; now rewrite E1|].
    destruct (client_connect d); cbn [fst snd];
      rewrite setMQTTState_state; reflexivity.
  - intros Hdown. unfold connectMQTT. rewrite Hdown. cbn [negb].
    destruct (bool_decide (_mqtt_state nm = MQTT_CONNECTED)); reflexivity.
  - intros H. destruct (connectMQTT_state d nm) as [E | [_ E]].
    + now rewrite <- E.
    + rewrite E in H. destruct (client_connect d); discriminate.
  - unfold connectWiFi, startWiFiConnection. cbv zeta.
    destruct (_wifi_state nm) eqn:E; cbn [snd];
      rewrite ?setWiFiState_state, ?E; congruence.
Qed.

End ConnectRequests.

Lemma connect_requests_witness :
  let d := ManagerRuns.link_lost 10 in
  let nm := NetworkManager.new ManagerRuns.buildNetworkConfig in
  snd (NetworkManager.connectMQTT d nm) = nm.
Proof.
  refine (proj1 (proj2 (connect_requests (ManagerRuns.link_lost 10)
            (NetworkManager.new ManagerRuns.buildNetworkConfig))) _).
  reflexivity.
Defined.

(** *** Watchdog *)

Section Watchdog.
Import NetworkManager ManagerRuns.

(** X10.  Once the watchdog is enabled with a timeout of [secs] seconds,
    the manager is healthy at a later clock reading exactly while fewer
    than [500 * secs] ms (half the timeout) have passed since the last
    feed, the difference being taken modulo 2^32 so that a wrap of the
    clock does not matter; feeding restarts the window; a manager whose
    watchdog is off is always healthy. *)
Theorem watchdog_window d d' d'' secs nm :
  0 < secs -> secs * 1000 <= INT_MAX ->
  let nm' := enableWatchdog d secs nm in
  isSystemHealthy d' nm'
    = (wrap_ulong (millis d' - millis d) <? 500 * secs)
  /\ isSystemHealthy d'' (feedWatchdog d' nm')
     = (wrap_ulong (millis d'' - millis d') <? 500 * secs)
  /\ isSystemHealthy d' (feedWatchdog d' nm') = true
  /\ (_watchdog_enabled nm = false -> isSystemHealthy d' nm = true).
Proof.
  intros Hpos Hmax nm'.
  assert (int_to_ulong (int_div (int_mul secs 1000) 2) = 500 * secs) as Hhalf.
  { unfold int_to_ulong, int_div, int_mul.
    rewrite (wrap_int_id (secs * 1000)) by (unfold INT_MIN, INT_MAX in *; lia).
    replace (secs * 1000) with (500 * secs * 2) by lia.
    rewrite Z.quot_mul by lia.
    rewrite wrap_int_id by (unfold INT_MIN, INT_MAX in *; lia).
    apply wrap_ulong_id. unfold INT_MAX in *. lia. }
  subst nm'. unfold isSystemHealthy, feedWatchdog, enableWatchdog.
  cbn. rewrite Hhalf. unfold ulong_sub.
  split; [reflexivity|]. split; [reflexivity|]. split.
  - rewrite Z.sub_diag. unfold wrap_ulong. rewrite Z.mod_0_l by lia.
    apply Z.ltb_lt. lia.
  - intros ->. reflexivity.
Qed.

End Watchdog.

Lemma watchdog_window_witness :
  let d := ManagerRuns.online 4294967000 true in
  let d' := ManagerRuns.online 14000 true in
  let nm' := NetworkManager.enableWatchdog d 30
               (NetworkManager.new ManagerRuns.buildNetworkConfig) in
  NetworkManager.isSystemHealthy d' nm'
    = (wrap_ulong (NetworkManager.millis d' - NetworkManager.millis d)
         <? 500 * 30).
Proof.
  refine (proj1 (watchdog_window (ManagerRuns.online 4294967000 true)
            (ManagerRuns.online 14000 true) (ManagerRuns.online 14000 true) 30
            (NetworkManager.new ManagerRuns.buildNetworkConfig) _ _)).
  - lia.
  - unfold INT_MAX. lia.
Defined.

(** *** Connection quality *)

Section Quality.
Import NetworkManager ManagerRuns.

(** X11.  The connection quality is 0 exactly when the manager is not
    fully connected, lies between 10 and 100 otherwise, and does not
    decrease when the signal strength reported by the driver grows. *)
Theorem connection_quality_monotone d1 d2 nm :
  wifi_RSSI d1 <= wifi_RSSI d2 ->
  getConnectionQuality d1 nm <= getConnectionQuality d2 nm
  /\ 0 <= getConnectionQuality d1 nm <= 100
  /\ (getConnectionQuality d1 nm = 0 <-> isFullyConnected nm = false)
  /\ (isFullyConnected nm = true -> 10 <= getConnectionQuality d1 nm).
Proof.
  intros Hle. unfold getConnectionQuality, getWiFiRSSI, isFullyConnected.
  cbv zeta.
  destruct (isWiFiConnected nm); cbn [andb negb];
    [destruct (isMQTTConnected nm); cbn [negb]|];
    repeat match goal with
           | |- context [?a <=? ?b] => destruct (Z.leb_spec a b)
           end;
    repeat split; intros; try lia; try congruence.
Qed.

End Quality.

Lemma connection_quality_monotone_witness :
  let d1 := ManagerRuns.link_lost 5 in
  let d2 := ManagerRuns.online 5 true in
  NetworkManager.getConnectionQuality d1 ManagerRuns.connected_manager
    <= NetworkManager.getConnectionQuality d2 ManagerRuns.connected_manager.
Proof.
  refine (proj1 (connection_quality_monotone (ManagerRuns.link_lost 5)
            (ManagerRuns.online 5 true) ManagerRuns.connected_manager _)).
  simpl. lia.
Defined.

(** *** Reset *)

Section Reset.
Import NetworkManager ManagerRuns.

Lemma reset_fields nm :
  _wifi_state (reset nm) = WIFI_IDLE
  /\ _mqtt_state (reset nm) = MQTT_IDLE
  /\ _message_queue_size (reset nm) = 0
  /\ _last_error (reset nm) = ERROR_NONE
  /\ _wifi_retry_count (reset nm) = 0
  /\ _mqtt_retry_count (reset nm) = 0
  /\ _message_queue (reset nm) = _message_queue nm.
Proof.
  unfold reset, resetStats, disconnect. cbv zeta.
  set (x := setWiFiState WIFI_IDLE ERROR_NONE nm).
  pose proof (setMQTTState_state MQTT_IDLE ERROR_NONE x) as Hm.
  destruct (setMQTTState_frame MQTT_IDLE ERROR_NONE x)
    as (_ & _ & _ & _ & Hw & _).
  assert (_message_queue (setMQTTState MQTT_IDLE ERROR_NONE x)
          = _message_queue nm) as Hq.
  { subst x. unfold setMQTTState, setWiFiState, setError.
    split_branches; reflexivity. }
  unfold x in Hw at 2. rewrite setWiFiState_state in Hw.
  cbn. rewrite Hm, Hw, Hq. repeat split; reflexivity.
Qed.

(** X12.  After [reset] the link and the session are idle, the queue is
    empty, the retry counters are 0 and no error is recorded; and the
    manager then stays as it is: the link update, the session update and
    the queue drain change nothing, and the connection quality is 0,
    until a connection is requested again. *)
Theorem reset_returns_to_idle d nm :
  let nm' := reset nm in
  _wifi_state nm' = WIFI_IDLE /\ _mqtt_state nm' = MQTT_IDLE
  /\ pending nm' = [] /\ getQueueSize nm' = 0
  /\ _last_error nm' = ERROR_NONE
  /\ _wifi_retry_count nm' = 0 /\ _mqtt_retry_count nm' = 0
  /\ updateWiFi d nm' = nm'
  /\ updateMQTT d nm' = nm'
  /\ processMessageQueue d nm' = nm'
  /\ getConnectionQuality d nm' = 0.
Proof.
  cbv zeta. destruct (reset_fields nm) as (Hw & Hm & Hq & He & Hrw & Hrm & _).
  generalize dependent (reset nm). intros nm' Hw Hm Hq He Hrw Hrm.
  repeat split; try assumption.
  - unfold pending. rewrite Hq. reflexivity.
  - unfold updateWiFi. rewrite Hw. reflexivity.
  - unfold updateMQTT, isWiFiConnected. rewrite Hw, Hm. reflexivity.
  - unfold processMessageQueue. rewrite Hq. reflexivity.
  - unfold getConnectionQuality, isFullyConnected, isWiFiConnected.
    rewrite Hw. reflexivity.
Qed.

End Reset.

(** *** The sketch's queue behind [publishWithQueue] *)

Section SketchQueue.
Import Sketch Sketch.OfflineQueue SketchRuns SketchObservations.

(** One enqueue in the sketch. *)
Lemma sketch_queueMessage_pending d tp pl ir q :
  queue_ok q ->
  let q' := snd (queueMessage d tp pl ir q) in
  queue_ok q'
  /\ fst (queueMessage d tp pl ir q) = true
  /\ wifiConnected q' = wifiConnected q
  /\ mqttConnected q' = mqttConnected q
  /\ exists msg,
       content msg = (take 63 (c_str tp), take 511 (c_str pl), ir)
       /\ retry_count msg = 0 /\ timestamp msg = millis d
       /\ (queueCount q < 10 ->
           queueCount q' = queueCount q + 1
           /\ pending q' = pending q ++ [msg])
       /\ (queueCount q = 10 ->
           queueCount q' = 10
           /\ pending q' = drop 1 (pending q) ++ [msg]).
Proof.
  intros Hok. pose proof Hok as (Hlen & Hsz & Hall).
  unfold queueMessage. cbv zeta.
  set (q1 := if 10 <=? queueCount q then _ else q).
  set (msg := Build_SimpleMessage _ _ _ _ _).
  assert (wifiConnected q1 = wifiConnected q
          /\ mqttConnected q1 = mqttConnected q) as [Hw1 Hm1]
    by (unfold q1; destruct (10 <=? queueCount q); split; reflexivity).
  assert (queue_ok q1 /\ queueCount q1 < 10
          /\ (queueCount q < 10 ->
              queueCount q1 = queueCount q /\ pending q1 = pending q)
          /\ (queueCount q = 10 ->
              queueCount q1 = 9 /\ pending q1 = drop 1 (pending q)))
    as (Hok1 & Hlt1 & Hroom & Hfull).
  { unfold q1. destruct (10 <=? queueCount q) eqn:E.
    - apply Z.leb_le in E.
      cbn [queueCount messageQueue set_queueCount set_messageQueue].
      split; [|split; [lia|split; [lia|]]].
      + unfold queue_ok.
        cbn [queueCount messageQueue set_queueCount set_messageQueue].
        rewrite shift_queue_length. split; [assumption|]. split; [lia|].
        apply Forall_shift_from. assumption.
      + intros Hten. split; [reflexivity|]. unfold pending.
        cbn [queueCount messageQueue set_queueCount set_messageQueue].
        rewrite Hten. change (Z.to_nat 9) with 9%nat.
        change (Z.to_nat 10) with 10%nat.
        exact (shift_queue_take (messageQueue q) 10 ltac:(lia)).
    - apply Z.leb_gt in E. split; [assumption|]. split; [assumption|].
      split; [intros _; split; reflexivity | lia]. }
  clearbody q1.
  pose proof Hok1 as (Hlen1 & Hsz1 & Hall1).
  pose proof (sketch_slot_ok q1 (queueCount q1) Hok1) as [Ht Hp].
  assert (slot_ok msg
          /\ content msg = (take 63 (c_str tp), take 511 (c_str pl), ir))
    as [Hmok Hmc].
  { unfold slot_ok, content, msg. cbn [topic payload is_response].
    rewrite !terminated_copy by assumption.
    rewrite !length_app, !strncpy_bytes_length.
    change [NUL] with (NUL :: []). rewrite !c_str_strncpy_bytes.
    repeat split; reflexivity. }
  assert (retry_count msg = 0 /\ timestamp msg = millis d) as [Hr Hts]
    by (split; reflexivity).
  clearbody msg.
  cbn [fst snd queueCount messageQueue wifiConnected mqttConnected
       set_queueCount set_messageQueue].
  rewrite int_incr_small by lia.
  assert (pending
            (set_queueCount (queueCount q1 + 1)
               (set_messageQueue
                  (<[Z.to_nat (queueCount q1) := msg]> (messageQueue q1)) q1))
          = pending q1 ++ [msg]) as Hpend.
  { unfold pending.
    cbn [queueCount messageQueue set_queueCount set_messageQueue].
    replace (Z.to_nat (queueCount q1 + 1)) with (S (Z.to_nat (queueCount q1)))
      by lia.
    rewrite (take_S_r _ _ msg) by (apply list_lookup_insert_eq; lia).
    rewrite take_insert_ge by lia. reflexivity. }
  split.
  { unfold queue_ok.
    cbn [queueCount messageQueue set_queueCount set_messageQueue].
    rewrite length_insert. split; [assumption|]. split; [lia|].
    apply Forall_insert; assumption. }
  split; [reflexivity|]. split; [exact Hw1|]. split; [exact Hm1|].
  exists msg. split; [exact Hmc|]. split; [exact Hr|]. split; [exact Hts|].
  rewrite Hpend. split.
  - intros Hlt. destruct (Hroom Hlt) as [-> ->]. split; reflexivity.
  - intros Hten. destruct (Hfull Hten) as [-> ->]. split; reflexivity.
Qed.

(** X13.  [publishWithQueue] refuses exactly the payloads longer than 974
    characters, and then changes nothing.  Every other payload is reported
    as published: either the client took it and the queue is untouched, or
    it is appended to the queue, the oldest entry giving way when the
    queue holds 10, with its topic cut to 63 and its payload to 511
    characters although up to 974 were admitted. *)
Theorem publishWithQueue_contract d tp pl ir q :
  queue_ok q ->
  let r := publishWithQueue d tp pl ir q in
  let sent := isMqttReallyConnected d
              && client_publish d (c_str tp) (c_str pl) (negb ir) in
  (fst r = false <-> 974 < strlen pl)
  /\ (974 < strlen pl -> snd r = q)
  /\ queue_ok (snd r)
  /\ (strlen pl <= 974 -> sent = true -> snd r = q)
  /\ (strlen pl <= 974 -> sent = false ->
      exists msg,
        content msg = (take 63 (c_str tp), take 511 (c_str pl), ir)
        /\ retry_count msg = 0
        /\ pending (snd r)
           = (if queueCount q <? 10 then pending q else drop 1 (pending q))
             ++ [msg]).
Proof.
  intros Hok r sent. subst r sent. unfold publishWithQueue. cbv zeta.
  unfold MQTT_MAX_PACKET_SIZE. change (1024 - 50) with 974.
  destruct (974 <? strlen pl) eqn:Hbig.
  { apply Z.ltb_lt in Hbig. cbn [fst snd].
    repeat split; try assumption; try reflexivity; try lia;
      try (intros; lia); apply Hok. }
  apply Z.ltb_ge in Hbig.
  assert (forall q0, queue_ok q0 -> pending q0 = pending q ->
            queueCount q0 = queueCount q ->
            (fst (queueMessage d tp pl ir q0) = false <-> 974 < strlen pl)
            /\ (974 < strlen pl -> snd (queueMessage d tp pl ir q0) = q)
            /\ queue_ok (snd (queueMessage d tp pl ir q0))
            /\ exists msg,
                 content msg = (take 63 (c_str tp), take 511 (c_str pl), ir)
                 /\ retry_count msg = 0
                 /\ pending (snd (queueMessage d tp pl ir q0))
                    = (if queueCount q <? 10 then pending q
                       else drop 1 (pending q)) ++ [msg]) as Hqueue.
  { intros q0 Hok0 Hp0 Hc0.
    destruct (sketch_queueMessage_pending d tp pl ir q0 Hok0)
      as (Hok' & Hret & _ & _ & msg & Hc & Hrc & _ & Hroom & Hfull).
    cbv zeta in *. rewrite Hret.
    split; [split; [discriminate | lia]|]. split; [lia|].
    split; [assumption|].
    exists msg. split; [assumption|]. split; [assumption|].
    destruct Hok0 as (_ & Hsz0 & _). rewrite <- Hc0, <- Hp0.
    destruct (queueCount q0 <? 10) eqn:E.
    - apply Z.ltb_lt in E. now apply Hroom.
    - apply Z.ltb_ge in E. apply Hfull. lia. }
  destruct (isMqttReallyConnected d) eqn:Hconn; cbn [andb].
  - destruct (client_publish d (c_str tp) (c_str pl) (negb ir)) eqn:Hpub.
    + cbn [fst snd]. split; [split; [discriminate | lia]|].
      split; [reflexivity|]. split; [assumption|].
      split; [reflexivity|]. discriminate.
    + set (q0 := if negb (client_state_after d =? 0) then _ else q).
      assert (messageQueue q0 = messageQueue q /\ queueCount q0 = queueCount q)
        as [Hm0 Hc0]
        by (unfold q0; destruct (client_state_after d =? 0); split;
            reflexivity).
      assert (queue_ok q0) as Hok0
        by (unfold queue_ok; rewrite Hm0, Hc0; exact Hok).
      assert (pending q0 = pending q) as Hp0
        by (unfold pending; rewrite Hm0, Hc0; reflexivity).
      destruct (Hqueue q0 Hok0 Hp0 Hc0) as (H1 & H2 & H3 & H4).
      split; [exact H1|]. split; [exact H2|]. split; [exact H3|].
      split; [discriminate|]. intros _ _. exact H4.
  - destruct (Hqueue q Hok eq_refl eq_refl) as (H1 & H2 & H3 & H4).
    split; [exact H1|]. split; [exact H2|]. split; [exact H3|].
    split; [discriminate|]. intros _ _. exact H4.
Qed.

(** One accepted drain in the sketch. *)
Lemma processQueuedMessages_accepted d q :
  queue_ok q -> 0 < queueCount q ->
  isMqttReallyConnected d = true -> accepts_all d ->
  let q' := snd (processQueuedMessages d q) in
  fst (processQueuedMessages d q) = true
  /\ queue_ok q'
  /\ queueCount q' = queueCount q - 1
  /\ pending q' = drop 1 (pending q)
  /\ wifiConnected q' = wifiConnected q.
Proof.
  intros Hok Hpos Hconn Hacc q'. subst q'. unfold processQueuedMessages.
  rewrite Hconn. replace (queueCount q =? 0) with false
    by (symmetry; apply Z.eqb_neq; lia).
  cbn [orb negb]. cbv zeta. rewrite Hacc. cbn [fst snd].
  destruct (sketch_remove_head q Hok Hpos) as (H1 & H2 & H3).
  repeat split; try assumption; apply H1.
Qed.

Lemma sketch_drain_accepting d n :
  forall q, queue_ok q -> (n <= Z.to_nat (queueCount q))%nat ->
    isMqttReallyConnected d = true -> accepts_all d ->
    queue_ok (drain d n q)
    /\ queueCount (drain d n q) = queueCount q - Z.of_nat n
    /\ pending (drain d n q) = drop n (pending q).
Proof.
  induction n as [|n IH]; intros q Hok Hn Hconn Hacc.
  - cbn [drain]. rewrite drop_0. repeat split; try apply Hok; lia.
  - cbn [drain].
    destruct (processQueuedMessages_accepted d q Hok ltac:(lia) Hconn Hacc)
      as (Hret & Hok' & Hc' & Hp' & _).
    cbv zeta in *.
    destruct (processQueuedMessages d q) as [ok q1]. cbn [fst snd] in *.
    subst ok.
    destruct (IH q1 Hok' ltac:(lia) Hconn Hacc) as (H1 & H2 & H3).
    split; [exact H1|]. split; [lia|].
    rewrite H3, Hp', drop_drop. f_equal.
Qed.

(** X14.  With the link flag set, the client really connected and a
    broker that takes every non-retained publish, one call of
    [updateOfflineQueue] removes the first three pending entries (all of
    them when there are fewer) and keeps the rest in order; the entries
    are replayed without the retained flag whatever their kind.  With the
    link flag clear or the client not really connected, the queue is not
    touched and the unit is marked offline. *)
Theorem updateOfflineQueue_drains_three d q :
  queue_ok q ->
  (wifiConnected q = true -> isMqttReallyConnected d = true ->
   accepts_all d ->
   pending (updateOfflineQueue d q) = drop 3 (pending q)
   /\ queueCount (updateOfflineQueue d q) = Z.max 0 (queueCount q - 3)
   /\ systemOnline (updateOfflineQueue d q) = true)
  /\ (wifiConnected q && isMqttReallyConnected d = false ->
      updateOfflineQueue d q = set_systemOnline false q).
Proof.
  intros Hok. pose proof Hok as (Hlen & Hsz & Hall). split.
  - intros Hw Hconn Hacc. unfold updateOfflineQueue. cbv zeta.
    rewrite Hw, Hconn. cbn [andb].
    set (q0 := set_systemOnline true q).
    change (systemOnline q0) with true.
    change (queueCount q0) with (queueCount q). cbn [andb].
    assert (queue_ok q0) as Hok0 by exact Hok.
    destruct (0 <? queueCount q) eqn:Hpos.
    + apply Z.ltb_lt in Hpos.
      destruct (sketch_drain_accepting d (Z.to_nat (Z.min 3 (queueCount q)))
                  q0 Hok0 ltac:(cbn; lia) Hconn Hacc) as (Hok1 & Hc1 & Hp1).
      change (queueCount q0) with (queueCount q) in Hc1.
      change (pending q0) with (pending q) in Hp1.
      split; [|split].
      * rewrite Hp1.
        destruct (decide (3 <= queueCount q)) as [Hge|Hlt].
        -- rewrite Z.min_l by lia. reflexivity.
        -- rewrite Z.min_r by lia.
           rewrite !drop_ge; [reflexivity | |];
             rewrite sketch_pending_length by assumption; lia.
      * rewrite Hc1. lia.
      * clear Hc1 Hp1 Hok1.
        assert (forall n q1, systemOnline q1 = true ->
                  systemOnline (drain d n q1) = true) as Hon.
        { induction n as [|n IH]; intros q1 H1; [exact H1|].
          cbn [drain]. unfold processQueuedMessages.
          repeat match goal with
                 | |- context [if ?c then _ else _] => destruct c
                 end; cbv zeta; try exact H1; try (apply IH; exact H1). }
        apply Hon. reflexivity.
    + apply Z.ltb_ge in Hpos. assert (queueCount q = 0) as Hz by lia.
      split; [|split; [cbn; lia | reflexivity]].
      unfold pending. cbn. rewrite Hz. reflexivity.
  - intros Hoff. unfold updateOfflineQueue. cbv zeta. rewrite Hoff.
    reflexivity.
Qed.

End SketchQueue.

Lemma publishWithQueue_contract_witness :
  let d := SketchRuns.online 5 false in
  let r := Sketch.OfflineQueue.publishWithQueue d ManagerRuns.topic_status
             ManagerRuns.payload_empty true
             Sketch.OfflineQueue.initOfflineQueue in
  fst r = false <-> 974 < strlen ManagerRuns.payload_empty.
Proof.
  refine (proj1 (publishWithQueue_contract (SketchRuns.online 5 false)
            ManagerRuns.topic_status ManagerRuns.payload_empty true
            Sketch.OfflineQueue.initOfflineQueue _)).
  apply sketch_init_ok.
Defined.

Lemma updateOfflineQueue_drains_three_witness :
  let d := SketchRuns.online 9 true in
  let q := Sketch.OfflineQueue.set_wifiConnected true SketchRuns.one_queued in
  Sketch.OfflineQueue.pending (Sketch.OfflineQueue.updateOfflineQueue d q)
    = drop 3 (Sketch.OfflineQueue.pending q)
  /\ Sketch.OfflineQueue.queueCount (Sketch.OfflineQueue.updateOfflineQueue d q)
     = Z.max 0 (Sketch.OfflineQueue.queueCount q - 3)
  /\ Sketch.OfflineQueue.systemOnline
       (Sketch.OfflineQueue.updateOfflineQueue d q) = true.
Proof.
  refine (proj1 (updateOfflineQueue_drains_three (SketchRuns.online 9 true)
            (Sketch.OfflineQueue.set_wifiConnected true SketchRuns.one_queued)
            _) _ _ _).
  - exact sketch_one_queued_ok.
  - reflexivity.
  - reflexivity.
  - intros t p. reflexivity.
Defined.

(** *** The detector's fields hang together *)

Section DetectorCoherence.
Import Sketch Sketch.BooleanPresenceDetector DetectorRuns DetectorObservations.

Lemma new_coherent : coherent new.
Proof.
  unfold coherent, new. config_values. cbn.
  repeat split; first [discriminate | lia].
Qed.

Lemma observe_coherent pd s : coherent pd -> coherent (observe pd s).
Proof.
  destruct pd as [cp lk ld lc gs ig ga cd cm], s as [f r tn tl].
  unfold coherent. cbn. intros (H1 & H2 & H3 & H4).
  assert (int_incr ga = ga + 1) as Ega
    by (apply int_incr_exact; config_values; unfold INT_MIN, INT_MAX; lia).
  assert (cp = true -> int_incr cm = cm + 1) as Ecm.
  { intros Hc. specialize (H4 Hc). apply int_incr_exact.
    destruct ig; config_values; unfold INT_MIN, INT_MAX; lia. }
  destruct cp; [specialize (Ecm eq_refl); specialize (H4 eq_refl)|clear Ecm H4];
    (destruct ig; [destruct (H1 eq_refl) as [? ?]; try discriminate; subst
                  | specialize (H2 eq_refl); subst]);
    destruct f; run_checkBeacon; rewrite ?Ega, ?Ecm in *; bool_facts;
      config_values; repeat split; intros; try discriminate; try lia.
Qed.

Lemma feed_coherent scans : forall pd, coherent pd -> coherent (feed pd scans).
Proof.
  induction scans as [|s scans IH]; intros pd H; [exact H|].
  apply IH, observe_coherent, H.
Qed.

Lemma coherent_presence pd : coherent pd -> getPresence pd = currentPresence pd.
Proof.
  intros (H1 & _). unfold getPresence.
  destruct (inGracePeriod pd); [|reflexivity].
  destruct (H1 eq_refl) as [-> ->]. reflexivity.
Qed.

Lemma observe_effects pd s :
  coherent pd ->
  effects_of pd s
  = expected_effects (getPresence pd) (getPresence (observe pd s)).
Proof.
  destruct pd as [cp lk ld lc gs ig ga cd cm], s as [f r tn tl].
  unfold coherent, expected_effects. cbn. intros (H1 & H2 & H3 & H4).
  destruct cp;
    (destruct ig; [destruct (H1 eq_refl) as [? ?]; try discriminate; subst
                  | idtac]);
    destruct f; run_checkBeacon; reflexivity.
Qed.

(** X15.  In every state the detector reaches from its initial state,
    a grace period is open only while presence is confirmed and the
    remembered presence is true, so that [getPresence] always equals the
    confirmed presence; the attempt counter is 0 outside a grace period
    and below 12 inside; and a present detector has a miss counter
    between 0 and 14. *)
Theorem detector_coherent scans :
  let pd := feed new scans in
  coherent pd
  /\ getPresence pd = currentPresence pd
  /\ (currentPresence pd = true -> 0 <= consecutiveMisses pd <= 14).
Proof.
  intros pd. pose proof (feed_coherent scans new new_coherent) as H.
  fold pd in H. split; [exact H|]. split; [now apply coherent_presence|].
  intros Hp. destruct H as (_ & _ & H3 & H4). specialize (H4 Hp).
  revert H3 H4. config_values. destruct (inGracePeriod pd); lia.
Qed.

(** X16.  Along any run from the initial state, a scan fires effects
    exactly when it changes the presence that [getPresence] reports, and
    then it publishes the new value once and refreshes the display. *)
Theorem presence_changes_are_published pre s :
  let before := feed new pre in
  let after := feed new (pre ++ [s]) in
  effects_of before s
  = if Bool.eqb (getPresence before) (getPresence after) then []
    else [PublishPresenceUpdate (getPresence after); UpdateMainDisplay].
Proof.
  intros before after. subst after. rewrite feed_snoc. fold before.
  apply observe_effects. apply feed_coherent, new_coherent.
Qed.

End DetectorCoherence.

(** *** Misses withdraw presence; accepted detections confirm it *)

Section DetectorProgress.
Import Sketch Sketch.BooleanPresenceDetector DetectorRuns DetectorObservations.

Lemma misses_left_bounds pd :
  coherent pd -> currentPresence pd = true -> 1 <= misses_left pd <= 15.
Proof.
  intros (H1 & H2 & H3 & H4) Hp. specialize (H4 Hp).
  unfold misses_left. rewrite Hp. revert H3 H4. config_values.
  destruct (inGracePeriod pd); lia.
Qed.

(** One more miss either withdraws presence or uses up one of the misses
    that are left. *)
Lemma miss_step pd s :
  coherent pd -> currentPresence pd = true -> found s = false ->
  currentPresence (observe pd s) = false
  \/ (currentPresence (observe pd s) = true
      /\ misses_left (observe pd s) <= misses_left pd - 1).
Proof.
  destruct pd as [cp lk ld lc gs ig ga cd cm], s as [f r tn tl].
  unfold coherent, misses_left. cbn. intros (H1 & H2 & H3 & H4) -> ->.
  specialize (H4 eq_refl).
  assert (int_incr ga = ga + 1) as Ega
    by (apply int_incr_exact; config_values; unfold INT_MIN, INT_MAX; lia).
  assert (int_incr cm = cm + 1) as Ecm.
  { apply int_incr_exact.
    destruct ig; config_values; unfold INT_MIN, INT_MAX; lia. }
  destruct ig; run_checkBeacon; rewrite ?Ega, ?Ecm in *; bool_facts;
    config_values; first [left; reflexivity | right; split; [reflexivity | lia]].
Qed.

Lemma misses_withdraw ms :
  forall pd, coherent pd -> Forall (fun m => found m = false) ms ->
             misses_left pd <= Z.of_nat (length ms) ->
             currentPresence (feed pd ms) = false.
Proof.
  induction ms as [|s ms IH]; intros pd Hc Hall Hleft.
  - destruct (currentPresence pd) eqn:Hp; [|exact Hp].
    pose proof (misses_left_bounds pd Hc Hp). simpl in Hleft. lia.
  - inversion Hall as [|? ? Hs Hrest]; subst.
    change (feed pd (s :: ms)) with (feed (observe pd s) ms).
    destruct (currentPresence pd) eqn:Hp.
    + destruct (miss_step pd s Hc Hp Hs) as [Hgone | [Hstay Hless]].
      * now apply absent_misses.
      * apply IH; [now apply observe_coherent | exact Hrest|].
        cbn [length] in Hleft. lia.
    + apply absent_misses; [|exact Hrest].
      destruct (absent_misses [s] pd Hp ltac:(constructor; [exact Hs | constructor]))
        as [H _]. exact H.
Qed.

(** X17.  Whatever the detector has seen before and whatever the clock
    readings, 15 misses in a row leave it reporting absence. *)
Theorem absence_within_15_misses pre ms :
  Forall (fun m => found m = false) ms -> (15 <= length ms)%nat ->
  getPresence (feed new (pre ++ ms)) = false.
Proof.
  intros Hall Hlen. rewrite feed_app.
  pose proof (feed_coherent pre new new_coherent) as Hc.
  rewrite coherent_presence by (apply feed_coherent; exact Hc).
  apply misses_withdraw; [exact Hc | exact Hall|].
  destruct (currentPresence (feed new pre)) eqn:Hp.
  - pose proof (misses_left_bounds _ Hc Hp). lia.
  - unfold misses_left. rewrite Hp. lia.
Qed.

(** The detection counter of a run shorter than [INT_MAX] is not
    negative. *)
Lemma feed_detections_nonneg pre :
  Z.of_nat (length pre) < INT_MAX ->
  0 <= consecutiveDetections (feed new pre) <= Z.of_nat (length pre).
Proof.
  induction pre as [|s pre IH] using rev_ind; intros Hlen.
  - simpl. lia.
  - rewrite length_app in *. cbn [length] in *.
    specialize (IH ltac:(lia)). rewrite feed_snoc.
    set (pd := feed new pre) in *.
    assert (int_incr (consecutiveDetections pd) = consecutiveDetections pd + 1)
      as E by (apply int_incr_exact; unfold INT_MIN, INT_MAX in *; lia).
    destruct pd as [cp lk ld lc gs ig ga cd cm], s as [f r tn tl].
    cbn in IH, E.
    destruct f; run_checkBeacon; rewrite ?E; lia.
Qed.

(** An accepted detection: what it leaves behind. *)
Lemma accepted_step pd s :
  found s = true -> accepted (rssi s) = true ->
  0 <= consecutiveDetections pd < INT_MAX ->
  inGracePeriod (observe pd s) = false
  /\ (currentPresence pd = true -> currentPresence (observe pd s) = true)
  /\ (1 <= consecutiveDetections pd -> currentPresence (observe pd s) = true)
  /\ (currentPresence (observe pd s) = false ->
      consecutiveDetections (observe pd s) = consecutiveDetections pd + 1).
Proof.
  destruct pd as [cp lk ld lc gs ig ga cd cm], s as [f r tn tl].
  unfold accepted. cbn. intros -> Hacc Hcd.
  assert (int_incr cd = cd + 1) as E
    by (apply int_incr_exact; unfold INT_MIN, INT_MAX in *; lia).
  destruct cp; run_checkBeacon; rewrite ?E in *; bool_facts; config_values;
    repeat split; intros; try discriminate; try reflexivity;
    try assumption; try lia.
Qed.

(** X18.  After any run of fewer than 2^31 - 3 scans, two accepted
    detections in a row leave the detector reporting presence, with no
    grace period open. *)
Theorem two_accepted_hits_confirm pre s1 s2 :
  Z.of_nat (length pre) < INT_MAX - 2 ->
  found s1 = true -> accepted (rssi s1) = true ->
  found s2 = true -> accepted (rssi s2) = true ->
  let pd := feed new (pre ++ [s1; s2]) in
  getPresence pd = true /\ inGracePeriod pd = false.
Proof.
  intros Hlen Hf1 Ha1 Hf2 Ha2 pd. subst pd.
  change [s1; s2] with ([s1] ++ [s2]). rewrite app_assoc, !feed_snoc.
  pose proof (feed_detections_nonneg pre ltac:(lia)) as Hcd.
  set (pd0 := feed new pre) in *.
  destruct (accepted_step pd0 s1 Hf1 Ha1 ltac:(lia)) as (_ & Hkeep & _ & Hcnt).
  assert (0 <= consecutiveDetections (observe pd0 s1) < INT_MAX) as Hcd1.
  { pose proof (feed_detections_nonneg (pre ++ [s1])) as H.
    rewrite length_app, feed_snoc in H. cbn [length] in H. fold pd0 in H.
    specialize (H ltac:(lia)). lia. }
  destruct (accepted_step (observe pd0 s1) s2 Hf2 Ha2 Hcd1)
    as (Hg & Hkeep2 & Hconf & _).
  split; [|exact Hg].
  unfold getPresence. rewrite Hg.
  destruct (currentPresence (observe pd0 s1)) eqn:Hp1.
  - now apply Hkeep2.
  - apply Hconf. rewrite (Hcnt eq_refl). lia.
Qed.

End DetectorProgress.

Lemma absence_within_15_misses_witness :
  let pre := [DetectorRuns.hit 0; DetectorRuns.hit 1000] in
  let ms := map DetectorRuns.miss
              [2000; 3000; 4000; 5000; 6000; 7000; 8000; 9000; 10000; 11000;
               12000; 13000; 14000; 15000; 16000] in
  Sketch.BooleanPresenceDetector.getPresence
    (DetectorRuns.feed Sketch.BooleanPresenceDetector.new (pre ++ ms)) = false.
Proof.
  apply (absence_within_15_misses
           [DetectorRuns.hit 0; DetectorRuns.hit 1000]
           (map DetectorRuns.miss
              [2000; 3000; 4000; 5000; 6000; 7000; 8000; 9000; 10000; 11000;
               12000; 13000; 14000; 15000; 16000])).
  - repeat constructor.
  - simpl. lia.
Defined.

Lemma two_accepted_hits_confirm_witness :
  let pd := DetectorRuns.feed Sketch.BooleanPresenceDetector.new
              ([DetectorRuns.miss 0] ++ [DetectorRuns.hit 2000;
                                         DetectorRuns.hit 4000]) in
  Sketch.BooleanPresenceDetector.getPresence pd = true
  /\ Sketch.BooleanPresenceDetector.inGracePeriod pd = false.
Proof.
  apply (two_accepted_hits_confirm [DetectorRuns.miss 0]
           (DetectorRuns.hit 2000) (DetectorRuns.hit 4000)).
  - unfold INT_MAX. simpl. lia.
  - reflexivity.
  - reflexivity.
  - reflexivity.
  - reflexivity.
Defined.

(** *** Buttons: a press is a falling edge *)

Section Buttons.
Import Sketch.ButtonHandler ButtonObservations.

(** What one call of [update] does to button A, and to button B. *)
Lemma update_edges d bh :
  buttonAPressed (update d bh)
  = buttonAPressed bh || (lastStateA bh && negb (readingA d))
  /\ buttonBPressed (update d bh)
     = buttonBPressed bh || (lastStateB bh && negb (readingB d))
  /\ lastStateA (update d bh) = readingA d
  /\ lastStateB (update d bh) = readingB d.
Proof.
  destruct bh as [la lb da db fa fb], d as [ra rb ta ct tb].
  unfold update. cbn.
  destruct (BUTTON_DEBOUNCE_DELAY <? ulong_sub ct _);
    destruct (BUTTON_DEBOUNCE_DELAY <? ulong_sub ct _);
    destruct la, lb, ra, rb, fa, fb; repeat split; reflexivity.
Qed.

(** X19.  [update] raises the flag of a button exactly when the level
    read is LOW and the level of the previous call was HIGH, whatever the
    clock readings: the debounce delay never holds a press back.  Polled
    from the initial state, with [isButtonAPressed] asked after every
    [update], the answers are therefore the falling edges of the level
    sequence of button A, one answer of true per edge, bounces included. *)
Theorem presses_are_falling_edges ds d bh :
  pollsA ds new = falling_edges true (map readingA ds)
  /\ buttonAPressed (update d bh)
     = buttonAPressed bh || (lastStateA bh && negb (readingA d))
  /\ buttonBPressed (update d bh)
     = buttonBPressed bh || (lastStateB bh && negb (readingB d)).
Proof.
  split; [|split; apply (update_edges d bh)].
  assert (forall ds bh0, buttonAPressed bh0 = false ->
            pollsA ds bh0 = falling_edges (lastStateA bh0) (map readingA ds))
    as H.
  { clear. induction ds as [|d ds IH]; intros bh Hf; [reflexivity|].
    cbn [pollsA map falling_edges].
    destruct (update_edges d bh) as (Ha & _ & Hl & _).
    rewrite Hf in Ha. cbn [orb] in Ha.
    unfold pollA, isButtonAPressed.
    destruct (buttonAPressed (update d bh)) eqn:E; cbn [fst snd].
    - rewrite (IH (set_buttonAPressed false (update d bh)) eq_refl).
      change (lastStateA (set_buttonAPressed false (update d bh)))
        with (lastStateA (update d bh)).
      rewrite Hl, <- Ha. reflexivity.
    - rewrite (IH _ E), Hl, <- Ha. reflexivity. }
  apply (H ds new). reflexivity.
Qed.

End Buttons.

(** *** The scanner's throttle and its book-keeping *)

Section ScannerBooks.
Import Sketch Sketch.AdaptiveBLEScanner ScannerObservations.

Lemma wrap_ulong_spec z : exists k, wrap_ulong z = z + k * 4294967296.
Proof.
  exists (- (z / 4294967296)). unfold wrap_ulong.
  pose proof (Z.div_mod z 4294967296 ltac:(lia)). lia.
Qed.

Lemma wrap_ulong_congr a b k :
  a = b + k * 4294967296 -> wrap_ulong a = wrap_ulong b.
Proof. intros ->. unfold wrap_ulong. apply Z_mod_plus_full. Qed.

(** What [updateStats] writes. *)
Lemma updateStats_fields now sc :
  let sc' := updateStats now sc in
  currentMode sc' = currentMode sc
  /\ lastScanTime sc' = lastScanTime sc
  /\ modeChangeTime sc' = modeChangeTime sc
  /\ consecutiveDetections sc' = consecutiveDetections sc
  /\ consecutiveMisses sc' = consecutiveMisses sc
  /\ presenceDetectorPtr sc' = presenceDetectorPtr sc
  /\ totalScans (stats sc') = totalScans (stats sc)
  /\ successfulDetections (stats sc') = successfulDetections (stats sc)
  /\ lastModeStart (stats sc') = now
  /\ accounted (stats sc')
     = wrap_ulong (accounted (stats sc) + (now - lastModeStart (stats sc))).
Proof.
  destruct sc as [m ls mc sr cd cm ptr [ts sd ga gs tS tM tV lms]].
  unfold updateStats, accounted. cbv zeta. cbn.
  destruct (BLE_STATS_REPORT_INTERVAL <? ulong_sub now sr);
    destruct m; cbn; repeat split; try reflexivity.
  all: unfold ulong_add, ulong_sub;
    match goal with
    | |- _ = wrap_ulong (wrap_ulong ?s + ?x) =>
        let k1 := fresh "k" in
        let k2 := fresh "k" in
        let k3 := fresh "k" in
        destruct (wrap_ulong_spec x) as [k1 ->];
        match goal with
        | |- context [wrap_ulong (?a + (x + k1 * 4294967296))] =>
            destruct (wrap_ulong_spec (a + (x + k1 * 4294967296)))
              as [k2 ->]
        end;
        destruct (wrap_ulong_spec s) as [k3 ->];
        apply (wrap_ulong_congr _ _ (k1 + k2 - k3)); lia
    end.
Qed.

(** What one recorded scan writes. *)
Lemma recordScan_fields f now sc :
  let sc' := recordScan f now sc in
  lastScanTime sc' = now
  /\ presenceDetectorPtr sc' = presenceDetectorPtr sc
  /\ totalScans (stats sc') = ulong_incr (totalScans (stats sc))
  /\ successfulDetections (stats sc')
     = (if f then ulong_incr (successfulDetections (stats sc))
        else successfulDetections (stats sc))
  /\ (lastModeStart (stats sc) = now ->
      accounted (stats sc') = accounted (stats sc)
      /\ lastModeStart (stats sc') = now).
Proof.
  cbv zeta. unfold recordScan, updateScanMode.
  set (sc1 := countScan f now sc).
  assert (lastScanTime sc1 = now
          /\ presenceDetectorPtr sc1 = presenceDetectorPtr sc
          /\ totalScans (stats sc1) = ulong_incr (totalScans (stats sc))
          /\ successfulDetections (stats sc1)
             = (if f then ulong_incr (successfulDetections (stats sc))
                else successfulDetections (stats sc))
          /\ accounted (stats sc1) = accounted (stats sc)
          /\ lastModeStart (stats sc1) = lastModeStart (stats sc))
    as (H1 & H2 & H3 & H4 & H5 & H6).
  { unfold sc1, countScan. cbv zeta. destruct f; cbn; repeat split. }
  clearbody sc1. cbv zeta.
  destruct (bool_decide _);
    [|rewrite H5, H6; split; [|split; [|split; [|split]]]; try assumption;
      intros ->; split; reflexivity].
  destruct (updateStats_fields now sc1)
    as (_ & K2 & _ & _ & _ & K6 & K7 & K8 & K9 & K10).
  cbv zeta in *. cbn. rewrite K2, K6, K7, K8, K9, K10, H5, H6.
  split; [|split; [|split; [|split]]]; try assumption.
  intros ->. split; [|reflexivity]. rewrite Z.sub_diag, Z.add_0_r.
  unfold accounted. unfold wrap_ulong. apply Z.mod_mod. lia.
Qed.

(** [update] when a scan is due, and when it is not. *)
Lemma update_due now f tc te sc pd :
  presenceDetectorPtr sc = true ->
  getCurrentScanInterval sc pd <= ulong_sub now (lastScanTime sc) ->
  update now f tc te sc pd
  = (recordScan f now (updateStats now sc),
     fst (BooleanPresenceDetector.checkBeacon f 0 tc te pd),
     snd (BooleanPresenceDetector.checkBeacon f 0 tc te pd)).
Proof.
  intros Hp Hdue. unfold update. rewrite Hp. cbn [negb]. cbv zeta.
  apply Z.ltb_ge in Hdue. rewrite Hdue.
  destruct (BooleanPresenceDetector.checkBeacon f 0 tc te pd). reflexivity.
Qed.

Lemma update_early now f tc te sc pd :
  ulong_sub now (lastScanTime sc) < getCurrentScanInterval sc pd ->
  update now f tc te sc pd = (sc, pd, []).
Proof.
  intros Hearly. unfold update. destruct (negb _); [reflexivity|].
  cbv zeta. apply Z.ltb_lt in Hearly. now rewrite Hearly.
Qed.

Lemma scan_interval_range sc pd : 1000 <= getCurrentScanInterval sc pd <= 8000.
Proof.
  unfold getCurrentScanInterval, BLE_RECONNECT_ATTEMPT_INTERVAL,
    BLE_SCAN_INTERVAL_SEARCHING, BLE_SCAN_INTERVAL_MONITORING,
    BLE_SCAN_INTERVAL_VERIFICATION.
  destruct (_ && _); [lia|]. destruct (currentMode sc); lia.
Qed.

(** X20.  The scan interval in force is 5000 ms during a grace period and
    2000, 8000 or 1000 ms by mode otherwise, so between 1000 and 8000 ms.
    A call of [update] made before the interval has passed since the last
    scan changes nothing and fires nothing; a call made later records one
    scan, stamped with the call's clock reading, and hands the result to
    the detector with signal strength 0, which the detector's filter
    always accepts. *)
Theorem scans_respect_interval now f tc te sc pd :
  presenceDetectorPtr sc = true ->
  let r := update now f tc te sc pd in
  1000 <= getCurrentScanInterval sc pd <= 8000
  /\ (ulong_sub now (lastScanTime sc) < getCurrentScanInterval sc pd ->
      r = (sc, pd, []))
  /\ (getCurrentScanInterval sc pd <= ulong_sub now (lastScanTime sc) ->
      lastScanTime (fst (fst r)) = now
      /\ totalScans (stats (fst (fst r)))
         = ulong_incr (totalScans (stats sc))
      /\ snd (fst r) = DetectorRuns.observe pd (DetectorRuns.Build_Scan f 0 tc te)
      /\ DetectorRuns.accepted 0 = true).
Proof.
  intros Hp r. split; [apply scan_interval_range|]. split.
  - intros H. now apply update_early.
  - intros H. subst r. rewrite update_due by assumption. cbn [fst snd].
    destruct (recordScan_fields f now (updateStats now sc))
      as (H1 & _ & H3 & _).
    destruct (updateStats_fields now sc) as (_ & _ & _ & _ & _ & _ & K7 & _).
    cbv zeta in *. rewrite H1, H3, K7. repeat split; reflexivity.
Qed.

Lemma step_accounted t0 k x :
  accounted (stats (fst x)) = ulong_sub (lastModeStart (stats (fst x))) t0 ->
  accounted (stats (fst (step x k)))
  = ulong_sub (lastModeStart (stats (fst (step x k)))) t0.
Proof.
  destruct x as [sc pd]. cbn [fst snd]. intros Hinv. unfold step. cbn [fst snd].
  destruct (presenceDetectorPtr sc) eqn:Hp;
    [|unfold update; rewrite Hp; exact Hinv].
  destruct (Z.lt_ge_cases (ulong_sub (now k) (lastScanTime sc))
              (getCurrentScanInterval sc pd)) as [Hearly | Hdue].
  - rewrite update_early by assumption. exact Hinv.
  - rewrite update_due by assumption. cbn [fst].
    destruct (updateStats_fields (now k) sc)
      as (_ & _ & _ & _ & _ & _ & _ & _ & K9 & K10).
    cbv zeta in *.
    destruct (recordScan_fields (found k) (now k) (updateStats (now k) sc))
      as (_ & _ & _ & _ & Hacc).
    cbv zeta in Hacc. rewrite K9 in Hacc.
    destruct (Hacc eq_refl) as [Ha Hl].
    rewrite Ha, Hl, K10, Hinv. unfold ulong_sub.
    destruct (wrap_ulong_spec (lastModeStart (stats sc) - t0)) as [k1 ->].
    apply (wrap_ulong_congr _ _ k1). lia.
Qed.

(** X21.  After [init] at clock reading [t0] and any sequence of calls
    of [update], the times booked to the three modes add up, modulo 2^32,
    to the time from [t0] to the start of the current booking period. *)
Theorem mode_times_add_up t0 ticks :
  let sc := fst (run (init t0 new, BooleanPresenceDetector.new) ticks) in
  accounted (stats sc) = ulong_sub (lastModeStart (stats sc)) t0.
Proof.
  cbv zeta. unfold run.
  assert (forall x, accounted (stats (fst x))
                    = ulong_sub (lastModeStart (stats (fst x))) t0 ->
            accounted (stats (fst (fold_left step ticks x)))
            = ulong_sub (lastModeStart (stats (fst (fold_left step ticks x))))
                t0) as H.
  { induction ticks as [|k ticks IH]; intros x Hx; [exact Hx|].
    cbn [fold_left]. apply IH. now apply step_accounted. }
  apply H. cbn. unfold accounted, ulong_sub. cbn.
  rewrite Z.sub_diag. reflexivity.
Qed.

End ScannerBooks.

Lemma scans_respect_interval_witness :
  let sc := Sketch.AdaptiveBLEScanner.init 0 Sketch.AdaptiveBLEScanner.new in
  let pd := Sketch.BooleanPresenceDetector.new in
  let r := Sketch.AdaptiveBLEScanner.update 1999 true 1999 1999 sc pd in
  1000 <= Sketch.AdaptiveBLEScanner.getCurrentScanInterval sc pd <= 8000
  /\ (ulong_sub 1999 (Sketch.AdaptiveBLEScanner.lastScanTime sc)
        < Sketch.AdaptiveBLEScanner.getCurrentScanInterval sc pd ->
      r = (sc, pd, [])).
Proof.
  pose proof (scans_respect_interval 1999 true 1999 1999
                (Sketch.AdaptiveBLEScanner.init 0
                   Sketch.AdaptiveBLEScanner.new)
                Sketch.BooleanPresenceDetector.new eq_refl) as (H1 & H2 & _).
  split; [exact H1 | exact H2].
Defined.

(** *** The scanner as the main loop polls it *)

Section LoopPolling.
Import Sketch Sketch.AdaptiveBLEScanner Sketch.MainLoop LoopObservations.

Lemma initial_settled t0 : settled 0 (initial t0).
Proof.
  unfold settled, initial. cbn. repeat split; try lia; discriminate.
Qed.

(** One pass over a settled state. *)
Lemma pollScanner_settled last c st :
  settled last st ->
  last <= t_gate c -> t_gate c <= t_update c ->
  t_update c <= t_after c < 4294967296 ->
  let st' := fst (pollScanner c st) in
  settled (t_after c) st'
  /\ (ulong_sub (t_gate c) (lastBLEScan st) <= 8000 ->
      pollScanner c st = (st, []))
  /\ (8000 < ulong_sub (t_gate c) (lastBLEScan st) ->
      lastBLEScan st' = t_after c
      /\ lastScanTime (adaptiveScanner st') = t_update c
      /\ totalScans (stats (adaptiveScanner st'))
         = ulong_incr (totalScans (stats (adaptiveScanner st)))
      /\ (currentMode (adaptiveScanner st) = VERIFYING ->
          currentMode (adaptiveScanner st')
          = if beaconFound c then MONITORING else SEARCHING)).
Proof.
  intros (Hptr & Hls & Hlb & Hver) Hg Hu Ha st'. subst st'.
  unfold pollScanner.
  assert (ulong_sub (t_gate c) (lastBLEScan st) = t_gate c - lastBLEScan st)
    as Egate by (unfold ulong_sub; apply wrap_ulong_id; lia).
  rewrite Egate.
  destruct (8000 <? t_gate c - lastBLEScan st) eqn:Hopen.
  - apply Z.ltb_lt in Hopen.
    set (sc := adaptiveScanner st) in *.
    set (pd := presenceDetector st).
    assert (ulong_sub (t_update c) (lastScanTime sc)
            = t_update c - lastScanTime sc) as Escan
      by (unfold ulong_sub; apply wrap_ulong_id; lia).
    pose proof (scan_interval_range sc pd) as Hint.
    rewrite update_due by (try assumption; rewrite Escan; lia).
    cbn [fst snd lastBLEScan adaptiveScanner].
    set (sc0 := updateStats (t_update c) sc).
    destruct (updateStats_fields (t_update c) sc)
      as (K1 & K2 & K3 & K4 & K5 & K6 & K7 & _).
    cbv zeta in *. fold sc0 in K1, K2, K3, K4, K5, K6, K7.
    destruct (recordScan_fields (beaconFound c) (t_update c) sc0)
      as (R1 & R2 & R3 & _).
    cbv zeta in *.
    assert (currentMode sc = VERIFYING ->
            currentMode (recordScan (beaconFound c) (t_update c) sc0)
            = if beaconFound c then MONITORING else SEARCHING) as Hleave.
    { intros Hv. destruct (Hver Hv) as (Hcd & Hcm & Hmc).
      rewrite verifying_step by (rewrite K1; exact Hv).
      cbv zeta. rewrite K3, Hmc, Escan.
      unfold PRESENCE_CONFIRM_TIME.
      rewrite (proj2 (Z.ltb_lt _ _)) by lia.
      unfold countScan. cbv zeta.
      destruct (beaconFound c); cbn; rewrite ?K4, ?K5, ?Hcd, ?Hcm;
        reflexivity. }
    split; [|split; [lia|]].
    + unfold settled. cbn [lastBLEScan adaptiveScanner].
      rewrite R1, R2, K6. split; [exact Hptr|]. split; [lia|].
      split; [lia|]. intros Hv.
      destruct (decide (currentMode sc = VERIFYING)) as [Hwas | Hnot].
      * rewrite (Hleave Hwas) in Hv. destruct (beaconFound c); discriminate.
      * destruct (mode_switch_resets (beaconFound c) (t_update c) sc0)
          as (M1 & M2 & M3); [rewrite K1, Hv; congruence|].
        rewrite M1, M2, M3. repeat split; reflexivity.
    + intros _. split; [reflexivity|]. split; [exact R1|].
      split; [rewrite R3, K7; reflexivity | exact Hleave].
  - apply Z.ltb_ge in Hopen. cbn [fst].
    split; [|split; [reflexivity | lia]].
    destruct Ha. unfold settled. repeat split; try assumption; try lia;
      apply Hver; assumption.
Qed.

Lemma polls_snoc st cs c :
  polls st (cs ++ [c]) = fst (pollScanner c (polls st cs)).
Proof. unfold polls. now rewrite fold_left_app. Qed.

Lemma polls_settled c cs :
  forall prev st, settled prev st -> ordered prev (cs ++ [c]) ->
    exists last, settled last (polls st cs)
                 /\ last <= t_gate c /\ t_gate c <= t_update c
                 /\ t_update c <= t_after c < 4294967296.
Proof.
  induction cs as [|x cs IH]; intros prev st Hs Hord.
  - exists prev. cbn in Hord. destruct Hord as (H1 & H2 & H3 & _).
    split; [exact Hs|]. split; [exact H1|]. split; [exact H2 | exact H3].
  - cbn [app ordered] in Hord. destruct Hord as (H1 & H2 & H3 & Hrest).
    destruct (pollScanner_settled prev x st Hs H1 H2 H3) as (Hs' & _).
    cbv zeta in Hs'.
    exact (IH (t_after x) (fst (pollScanner x st)) Hs' Hrest).
Qed.

(** X22.  In the main loop the scanner is polled only when more than
    8000 ms have passed since the last poll.  Along any run from the
    initial state with a clock that neither goes back nor wraps, a poll
    made earlier changes nothing, and a poll made later always scans: no
    scan interval of the scanner, all at most 8000 ms, holds it back.  A
    scanner found Verifying then always leaves that mode with this one
    scan, for Monitoring when the beacon is found and for Searching when
    it is not: the 6000 ms confirmation time is over before the first scan
    in Verifying is taken. *)
Theorem polled_scanner_always_scans t0 cs c :
  ordered 0 (cs ++ [c]) ->
  let st := polls (initial t0) cs in
  let st' := fst (pollScanner c st) in
  (ulong_sub (t_gate c) (lastBLEScan st) <= 8000 ->
   pollScanner c st = (st, []))
  /\ (8000 < ulong_sub (t_gate c) (lastBLEScan st) ->
      lastBLEScan st' = t_after c
      /\ lastScanTime (adaptiveScanner st') = t_update c
      /\ totalScans (stats (adaptiveScanner st'))
         = ulong_incr (totalScans (stats (adaptiveScanner st)))
      /\ (currentMode (adaptiveScanner st) = VERIFYING ->
          currentMode (adaptiveScanner st')
          = if beaconFound c then MONITORING else SEARCHING)).
Proof.
  intros Hord st st'.
  destruct (polls_settled c cs 0 (initial t0) (initial_settled t0) Hord)
    as (last & Hs & H1 & H2 & H3).
  destruct (pollScanner_settled last c st Hs H1 H2 H3) as (_ & Hc & Ho).
  split; [exact Hc | exact Ho].
Qed.

End LoopPolling.

Lemma polled_scanner_always_scans_witness :
  let pass := fun (t : Z) (f : bool) =>
                Sketch.MainLoop.Build_Pass t t f (t + 1000) (t + 1000)
                  (t + 1000) in
  let cs := [pass 9000 true; pass 19000 true] in
  let c := pass 29000 false in
  let st := LoopObservations.polls (LoopObservations.initial 0) cs in
  let st' := fst (Sketch.MainLoop.pollScanner c st) in
  Sketch.AdaptiveBLEScanner.currentMode (Sketch.MainLoop.adaptiveScanner st)
    = Sketch.AdaptiveBLEScanner.VERIFYING
  /\ Sketch.AdaptiveBLEScanner.currentMode (Sketch.MainLoop.adaptiveScanner st')
     = Sketch.AdaptiveBLEScanner.SEARCHING.
Proof.
  pose proof (polled_scanner_always_scans 0
                [Sketch.MainLoop.Build_Pass 9000 9000 true 10000 10000 10000;
                 Sketch.MainLoop.Build_Pass 19000 19000 true 20000 20000 20000]
                (Sketch.MainLoop.Build_Pass 29000 29000 false 30000 30000
                   30000)) as H.
  cbv zeta in H.
  destruct H as (_ & H).
  - cbn. lia.
  - destruct H as (_ & _ & _ & H); [vm_compute; reflexivity|].
    split; [vm_compute; reflexivity|].
    exact (H ltac:(vm_compute; reflexivity)).
Defined.

(** *** The remaining grace time and the end of the grace period *)

Section GraceRemaining.
Import Sketch Sketch.BooleanPresenceDetector DetectorRuns.

(** X23.  During a grace period the remaining time reported lies between
    0 and 60000 ms and is 60000 ms less the time since the period
    started; outside a grace period it is 0.  It reads 0 during a grace
    period exactly when the time limit has been reached, and a miss taken
    at that clock reading, the miss counter being at 2 or more, withdraws
    presence and closes the period. *)
Theorem grace_remaining_agrees now later r pd :
  0 <= consecutiveMisses pd < INT_MAX ->
  let elapsed := ulong_sub now (gracePeriodStartTime pd) in
  0 <= getGracePeriodRemaining now pd <= BLE_GRACE_PERIOD_MS
  /\ (inGracePeriod pd = false -> getGracePeriodRemaining now pd = 0)
  /\ (inGracePeriod pd = true ->
      (elapsed < BLE_GRACE_PERIOD_MS ->
       getGracePeriodRemaining now pd = BLE_GRACE_PERIOD_MS - elapsed)
      /\ (getGracePeriodRemaining now pd = 0 <-> BLE_GRACE_PERIOD_MS <= elapsed)
      /\ (getGracePeriodRemaining now pd = 0 ->
          currentPresence pd = true -> 2 <= consecutiveMisses pd ->
          let pd' := observe pd (Build_Scan false r now later) in
          currentPresence pd' = false /\ inGracePeriod pd' = false
          /\ getPresence pd' = false)).
Proof.
  intros Hcm elapsed.
  pose proof (wrap_ulong_range (now - gracePeriodStartTime pd)) as He.
  fold (ulong_sub now (gracePeriodStartTime pd)) in He. fold elapsed in He.
  assert (inGracePeriod pd = true ->
          getGracePeriodRemaining now pd
          = if elapsed <? BLE_GRACE_PERIOD_MS
            then BLE_GRACE_PERIOD_MS - elapsed else 0) as Hrem.
  { intros Hg. unfold getGracePeriodRemaining. rewrite Hg. cbn [negb].
    cbv zeta. fold elapsed.
    destruct (elapsed <? BLE_GRACE_PERIOD_MS) eqn:E; [|reflexivity].
    apply Z.ltb_lt in E. unfold ulong_sub. apply wrap_ulong_id.
    revert E. config_values. lia. }
  assert (inGracePeriod pd = false -> getGracePeriodRemaining now pd = 0)
    as Hout by (intros Hg; unfold getGracePeriodRemaining; now rewrite Hg).
  split; [|split; [exact Hout|]].
  - destruct (inGracePeriod pd) eqn:Hg.
    + rewrite (Hrem eq_refl).
      destruct (elapsed <? BLE_GRACE_PERIOD_MS) eqn:E; bool_facts;
        revert E; config_values; lia.
    + rewrite (Hout eq_refl). config_values. lia.
  - intros Hg. specialize (Hrem Hg).
    assert (getGracePeriodRemaining now pd = 0
            <-> BLE_GRACE_PERIOD_MS <= elapsed) as Hzero.
    { rewrite Hrem.
      destruct (elapsed <? BLE_GRACE_PERIOD_MS) eqn:E; bool_facts;
        revert E; config_values; lia. }
    split; [|split; [exact Hzero|]].
    + intros Hlt. rewrite Hrem. apply Z.ltb_lt in Hlt. now rewrite Hlt.
    + intros Hz Hp H2 pd'.
      apply Hzero in Hz.
      assert (int_incr (consecutiveMisses pd) = consecutiveMisses pd + 1)
        as Ei by (apply int_incr_exact; unfold INT_MIN; lia).
      destruct (expiry_step pd (Build_Scan false r now later) Hg Hp)
        as (Hg' & Hp' & _).
      * rewrite Ei. lia.
      * reflexivity.
      * unfold expires. cbn [t_now]. fold elapsed.
        apply orb_true_iff. left. apply Z.leb_le. exact Hz.
      * fold pd' in Hg', Hp'. split; [exact Hp'|]. split; [exact Hg'|].
        unfold getPresence. rewrite Hg'. exact Hp'.
Qed.

End GraceRemaining.

Lemma grace_remaining_agrees_witness :
  let pd := DetectorRuns.grace_just_started in
  let pd' := DetectorRuns.observe pd (DetectorRuns.Build_Scan false 0 64000 64000) in
  Sketch.BooleanPresenceDetector.currentPresence pd' = false
  /\ Sketch.BooleanPresenceDetector.inGracePeriod pd' = false
  /\ Sketch.BooleanPresenceDetector.getPresence pd' = false.
Proof.
  pose proof (grace_remaining_agrees 64000 64000 0
                DetectorRuns.grace_just_started) as H.
  cbv zeta in H. destruct H as (_ & _ & H).
  - vm_compute. split; [discriminate | reflexivity].
  - destruct (H eq_refl) as (_ & _ & H3).
    apply H3.
    + vm_compute. reflexivity.
    + reflexivity.
    + vm_compute. discriminate.
Defined.

(** *** How link failures are reported *)

Section LinkFailures.
Import NetworkManager ManagerRuns.

(** X24.  When the driver does not report the link up: a connection
    attempt that has run past the configured timeout ends in Reconnecting,
    counts a failure, stores the mapped driver status as the last error,
    which is never [ERROR_NONE], and passes it to the link callback; the
    loss of an established link also ends in Reconnecting and counts a
    failure, but is passed on with [ERROR_NONE] and leaves the last error
    and the retry counter as they were. *)
Theorem link_failures_reported d nm :
  wifi_status d <> WL_CONNECTED ->
  (_wifi_state nm = WIFI_CONNECTING ->
   int_to_ulong (wifi_timeout_ms (_config nm))
     < ulong_sub (millis d) (_wifi_last_attempt nm) ->
   let nm' := updateWiFi d nm in
   _wifi_state nm' = WIFI_RECONNECTING
   /\ _last_error nm' = mapWiFiError (wifi_status d)
   /\ _last_error nm' <> ERROR_NONE
   /\ wifi_failures (_stats nm') = ulong_incr (wifi_failures (_stats nm))
   /\ trace nm' = trace nm ++
        (if _wifi_callback nm
         then [WiFiEvent WIFI_RECONNECTING (mapWiFiError (wifi_status d))]
         else []))
  /\ (_wifi_state nm = WIFI_CONNECTED ->
      let nm' := updateWiFi d nm in
      _wifi_state nm' = WIFI_RECONNECTING
      /\ _last_error nm' = _last_error nm
      /\ _wifi_retry_count nm' = _wifi_retry_count nm
      /\ wifi_failures (_stats nm') = ulong_incr (wifi_failures (_stats nm))
      /\ trace nm' = trace nm ++
           (if _wifi_callback nm
            then [WiFiEvent WIFI_RECONNECTING ERROR_NONE] else [])).
Proof.
  intros Hdown. pose proof (mapWiFiError_error (wifi_status d)) as He.
  split.
  - intros Hs Hlate nm'. subst nm'. unfold updateWiFi. rewrite Hs. cbv zeta.
    rewrite bool_decide_eq_false_2 by assumption.
    apply Z.ltb_lt in Hlate. rewrite Hlate.
    rewrite setWiFiState_change by (cbn; rewrite Hs; discriminate).
    cbv zeta. rewrite setError_error by assumption.
    destruct (_wifi_callback nm) eqn:Hcb; cbn; rewrite Hcb; cbn;
      rewrite ?app_nil_r; repeat split; try reflexivity; assumption.
  - intros Hs nm'. subst nm'. unfold updateWiFi. rewrite Hs. cbv zeta.
    rewrite bool_decide_eq_true_2 by assumption.
    rewrite setWiFiState_change by (cbn; rewrite Hs; discriminate).
    cbv zeta. rewrite setError_none.
    destruct (_wifi_callback nm) eqn:Hcb; cbn; rewrite Hcb; cbn;
      rewrite ?app_nil_r; repeat split; reflexivity.
Qed.

End LinkFailures.

Lemma link_failures_reported_witness :
  let d := ManagerRuns.link_lost 40000 in
  let nm := NetworkManager.set_wifi_callback true
              (NetworkManager.set_wifi_state NetworkManager.WIFI_CONNECTING
                 (NetworkManager.new ManagerRuns.buildNetworkConfig)) in
  let nm' := NetworkManager.updateWiFi d nm in
  NetworkManager._wifi_state nm' = NetworkManager.WIFI_RECONNECTING
  /\ NetworkManager._last_error nm'
     = NetworkManager.mapWiFiError (NetworkManager.wifi_status d)
  /\ NetworkManager._last_error nm' <> NetworkManager.ERROR_NONE
  /\ NetworkManager.wifi_failures (NetworkManager._stats nm')
     = ulong_incr (NetworkManager.wifi_failures (NetworkManager._stats nm))
  /\ NetworkManager.trace nm' = NetworkManager.trace nm ++
       (if NetworkManager._wifi_callback nm
        then [NetworkManager.WiFiEvent NetworkManager.WIFI_RECONNECTING
                (NetworkManager.mapWiFiError (NetworkManager.wifi_status d))]
        else []).
Proof.
  refine (proj1 (link_failures_reported (ManagerRuns.link_lost 40000)
            (NetworkManager.set_wifi_callback true
               (NetworkManager.set_wifi_state NetworkManager.WIFI_CONNECTING
                  (NetworkManager.new ManagerRuns.buildNetworkConfig)))
            _) _ _).
  - discriminate.
  - reflexivity.
  - vm_compute. reflexivity.
Defined.

(** *** What the uptime counters add up *)

Section Uptime.
Import NetworkManager ManagerRuns ManagerObservations.

Lemma updateStats_uptime d nm :
  _wifi_state (updateStats d nm) = _wifi_state nm
  /\ _wifi_connect_time (updateStats d nm) = _wifi_connect_time nm
  /\ total_uptime_ms (_stats (updateStats d nm)) = millis d
  /\ wifi_uptime_ms (_stats (updateStats d nm))
     = if isWiFiConnected nm
       then ulong_add (wifi_uptime_ms (_stats nm))
              (ulong_sub (millis d) (_wifi_connect_time nm))
       else wifi_uptime_ms (_stats nm).
Proof.
  unfold updateStats. cbv zeta.
  set (nm1 := upd_stats _ (upd_stats _ nm)).
  assert (isWiFiConnected nm1 = isWiFiConnected nm) as -> by reflexivity.
  destruct (isWiFiConnected nm);
    match goal with
    | |- context [if isMQTTConnected ?x then _ else _] =>
        destruct (isMQTTConnected x)
    end; repeat split; reflexivity.
Qed.

(** X25.  The statistics update of every tick adds to [wifi_uptime_ms],
    while the link is Connected, the whole time since the link came up,
    not the time since the previous tick: after a sequence of ticks the
    counter has grown, modulo 2^32, by the sum over the ticks of the time
    since the connect.  With the link not Connected it does not move.
    [total_uptime_ms] is the clock reading of the last tick. *)
Theorem uptime_adds_time_since_connect nm ds d :
  let nm' := stat_ticks nm (ds ++ [d]) in
  total_uptime_ms (_stats nm') = millis d
  /\ (isWiFiConnected nm = true ->
      wifi_uptime_ms (_stats nm')
      = wrap_ulong (wifi_uptime_ms (_stats nm)
                    + elapsed_sum (_wifi_connect_time nm) (ds ++ [d])))
  /\ (isWiFiConnected nm = false ->
      wifi_uptime_ms (_stats nm') = wifi_uptime_ms (_stats nm)).
Proof.
  cbv zeta. unfold stat_ticks. rewrite fold_left_app. cbn [fold_left].
  fold (stat_ticks nm ds).
  assert (_wifi_state (stat_ticks nm ds) = _wifi_state nm
          /\ _wifi_connect_time (stat_ticks nm ds) = _wifi_connect_time nm
          /\ (isWiFiConnected nm = true ->
              wrap_ulong (wifi_uptime_ms (_stats (stat_ticks nm ds)))
              = wrap_ulong (wifi_uptime_ms (_stats nm)
                            + elapsed_sum (_wifi_connect_time nm) ds))
          /\ (isWiFiConnected nm = false ->
              wifi_uptime_ms (_stats (stat_ticks nm ds))
              = wifi_uptime_ms (_stats nm))) as (Hs & Hc & Hup & Hdown).
  { unfold stat_ticks. clear d.
    induction ds as [|x ds IH] using rev_ind.
    - cbn. unfold elapsed_sum. cbn. rewrite Z.add_0_r.
      repeat split; reflexivity.
    - rewrite fold_left_app. cbn [fold_left].
      destruct IH as (I1 & I2 & I3 & I4).
      set (m := fold_left (fun nm d => updateStats d nm) ds nm) in *.
      destruct (updateStats_uptime x m) as (U1 & U2 & _ & U4).
      assert (isWiFiConnected m = isWiFiConnected nm) as Hsame
        by (unfold isWiFiConnected; now rewrite I1).
      rewrite U1, U2, U4, Hsame, I1, I2.
      split; [reflexivity|]. split; [reflexivity|]. split.
      + intros Hon. rewrite Hon. specialize (I3 Hon).
        unfold elapsed_sum. rewrite map_app, fold_right_app. cbn [map fold_right].
        assert (forall l a, fold_right Z.add a l = fold_right Z.add 0 l + a)
          as Hacc.
        { induction l as [|y l IHl]; intros a; cbn; [lia|].
          rewrite IHl. lia. }
        rewrite Hacc. fold (elapsed_sum (_wifi_connect_time nm) ds).
        unfold ulong_add, ulong_sub.
        destruct (wrap_ulong_spec (millis x - _wifi_connect_time nm))
          as [k1 ->].
        destruct (wrap_ulong_spec
                    (wifi_uptime_ms (_stats m)
                     + (millis x - _wifi_connect_time nm + k1 * 4294967296)))
          as [k2 ->].
        destruct (wrap_ulong_spec (wifi_uptime_ms (_stats m))) as [k3 E3].
        destruct (wrap_ulong_spec
                    (wifi_uptime_ms (_stats nm)
                     + elapsed_sum (_wifi_connect_time nm) ds)) as [k4 E4].
        rewrite E3, E4 in I3.
        apply (wrap_ulong_congr _ _ (k1 + k2 + k4 - k3)). lia.
      + intros Hoff. rewrite Hoff. now apply I4. }
  destruct (updateStats_uptime d (stat_ticks nm ds)) as (_ & _ & U3 & U4).
  assert (isWiFiConnected (stat_ticks nm ds) = isWiFiConnected nm) as Hsame
    by (unfold isWiFiConnected; now rewrite Hs).
  rewrite U3, U4, Hsame, Hc. split; [reflexivity|]. split.
  - intros Hon. rewrite Hon. specialize (Hup Hon).
    unfold elapsed_sum. rewrite map_app, fold_right_app. cbn [map fold_right].
    assert (forall l a, fold_right Z.add a l = fold_right Z.add 0 l + a)
      as Hacc.
    { induction l as [|y l IHl]; intros a; cbn; [lia|]. rewrite IHl. lia. }
    rewrite Hacc. fold (elapsed_sum (_wifi_connect_time nm) ds).
    unfold ulong_add, ulong_sub.
    destruct (wrap_ulong_spec (millis d - _wifi_connect_time nm)) as [k1 ->].
    destruct (wrap_ulong_spec (wifi_uptime_ms (_stats (stat_ticks nm ds))))
      as [k3 E3].
    destruct (wrap_ulong_spec
                (wifi_uptime_ms (_stats nm)
                 + elapsed_sum (_wifi_connect_time nm) ds)) as [k4 E4].
    rewrite E3, E4 in Hup.
    apply (wrap_ulong_congr _ _ (k1 + k4 - k3)). lia.
  - intros Hoff. rewrite Hoff. now apply Hdown.
Qed.

End Uptime.

Lemma uptime_adds_time_since_connect_witness :
  let nm := NetworkManager.set_wifi_connect_time 1000
              ManagerRuns.connected_manager in
  let ds := [ManagerRuns.online 2000 true] in
  let d := ManagerRuns.online 3000 true in
  NetworkManager.wifi_uptime_ms
    (NetworkManager._stats (ManagerObservations.stat_ticks nm (ds ++ [d])))
  = wrap_ulong (NetworkManager.wifi_uptime_ms (NetworkManager._stats nm)
                + ManagerObservations.elapsed_sum
                    (NetworkManager._wifi_connect_time nm) (ds ++ [d])).
Proof.
  refine (proj1 (proj2 (uptime_adds_time_since_connect
            (NetworkManager.set_wifi_connect_time 1000
               ManagerRuns.connected_manager)
            [ManagerRuns.online 2000 true] (ManagerRuns.online 3000 true)))
            _).
  reflexivity.
Defined.
